(** * Web scraper: price parsing, upsert engine and scheduled sweep

    A shallow embedding of the parts of the scraper that decide how prices
    and ratings are read from text ([utils/helpers.py]), how listings are
    stored and price changes recorded ([database/database.py],
    [database/models.py]) and how the daily job sweeps over its searches
    ([scheduler.py]).

    Conventions of the embedding:
    - a Python [str] is the [string] of its UTF-8 bytes; [\d], [float] and
      [int] read the decimal digits of every script, as the Unicode database
      of the interpreter lists them ([PyStr.Unicode]);
    - a Python [float] is a primitive binary64 [float]; arithmetic and
      comparisons are the IEEE 754 operations of [PrimFloat];
    - an exception is a value of [exn]; a call that may raise returns an
      [outcome];
    - [None] for an optional value is [None] of [option]. *)

From Stdlib Require Import ZArith List String Ascii Bool Lia.
From Stdlib Require Import Floats.
Import ListNotations.

Set Warnings "-inexact-float".

Open Scope string_scope.

(** ** Exceptions and outcomes *)

Inductive exn : Type :=
| ValueError
| AttributeError
| SQLAlchemyError
| OtherError (name : string).

Inductive outcome (A : Type) : Type :=
| Returns (a : A)
| Raises (e : exn).

Arguments Returns {A} a.
Arguments Raises {A} e.

(** ** Python floats *)

Module PyFloat.

(** [a > b] on floats. *)
Definition gt (a b : float) : bool := PrimFloat.ltb b a.

(** [max(a, b)]: the first argument is kept unless the second is greater. *)
Definition max (a b : float) : float := if gt b a then b else a.

(** [min(a, b)]: the first argument is kept unless the second is smaller. *)
Definition min (a b : float) : float := if PrimFloat.ltb b a then b else a.

(** [float(n)] for a small non-negative [int]. *)
Definition of_nat (n : nat) : float :=
  PrimFloat.of_uint63 (Uint63.of_Z (Z.of_nat n)).

(** The binary64 number nearest to [n / 10^k] (ties to even): the value
    [float()] gives to a decimal numeral with digits [n] and [k] digits
    after the point. *)
Definition of_decimal (n : Z) (k : nat) : float :=
  match n with
  | Zpos m =>
      SF2Prim (SF64div (S754_finite false m 0)
                       (S754_finite false (Z.to_pos (10 ^ Z.of_nat k)) 0))
  | _ => 0%float
  end.

End PyFloat.

(** ** Python strings *)

Module PyStr.

(** The decimal digits of the scripts of Unicode, which [\d] matches and
    [float] and [int] read by their values: [decimal_value cp] is the value
    of the code point [cp] when the Unicode database of the interpreter gives
    [cp] the category Nd. The database depends on the version of the
    interpreter, so it is a parameter; it is asked about code points beyond
    ASCII only. *)
Class Unicode : Type := {
  decimal_value : N -> option N
}.

Definition byte (c : ascii) : N := N_of_ascii c.

(** A byte that continues the encoding of a code point. *)
Definition continuation (c : ascii) : bool :=
  (128 <=? byte c)%N && (byte c <? 192)%N.

Definition payload (c : ascii) : N := (byte c - 128)%N.

(** The code point beyond ASCII whose UTF-8 encoding stands at the head of
    [s], and the number of bytes of that encoding. *)
Definition code_point (s : string) : option (N * nat) :=
  match s with
  | String b0 (String b1 rest) =>
      if (byte b0 <? 192)%N || negb (continuation b1) then None
      else if (byte b0 <? 224)%N
      then Some ((byte b0 - 192) * 64 + payload b1, 2%nat)%N
      else
        match rest with
        | String b2 rest' =>
            if negb (continuation b2) then None
            else if (byte b0 <? 240)%N
            then Some (((byte b0 - 224) * 64 + payload b1) * 64 + payload b2,
                       3%nat)%N
            else
              match rest' with
              | String b3 _ =>
                  if continuation b3
                  then Some ((((byte b0 - 240) * 64 + payload b1) * 64
                              + payload b2) * 64 + payload b3, 4%nat)%N
                  else None
              | EmptyString => None
              end
        | EmptyString => None
        end
  | _ => None
  end.

(** The ASCII digit of a value. *)
Definition digit_char (value : N) : ascii := ascii_of_N (48 + value mod 10).

Section Decimal.
Context {U : Unicode}.

(** [skip] is the number of bytes still covered by the digit last written. *)
Fixpoint decimal_from (skip : nat) (s : string) : string :=
  match s with
  | EmptyString => EmptyString
  | String b rest =>
      match skip with
      | S fewer => decimal_from fewer rest
      | O =>
          match code_point s with
          | Some (cp, bytes) =>
              match decimal_value cp with
              | Some value =>
                  String (digit_char value) (decimal_from (bytes - 1) rest)
              | None => String b (decimal_from 0 rest)
              end
          | None => String b (decimal_from 0 rest)
          end
      end
  end.

(** The text with every decimal digit, of whatever script, written as the
    ASCII digit of its value, and nothing else changed. This is how [float]
    and [int] read a text, and a character is matched by [\d] exactly when it
    is written as an ASCII digit here. *)
Definition decimal (s : string) : string := decimal_from 0 s.

End Decimal.

(** The decimal digits beyond ASCII of Unicode 14.0, the database of
    CPython 3.11: each entry is the code point of a digit zero and the number
    of digits that follow one another from it, ten to a cycle. *)
Definition decimal_digits_14_0 : list (N * N) :=
  [(1632, 10); (1776, 10); (1984, 10); (2406, 10); (2534, 10); (2662, 10); (2790, 10);
   (2918, 10); (3046, 10); (3174, 10); (3302, 10); (3430, 10); (3558, 10); (3664, 10);
   (3792, 10); (3872, 10); (4160, 10); (4240, 10); (6112, 10); (6160, 10); (6470, 10);
   (6608, 10); (6784, 10); (6800, 10); (6992, 10); (7088, 10); (7232, 10); (7248, 10);
   (42528, 10); (43216, 10); (43264, 10); (43472, 10); (43504, 10); (43600, 10);
   (44016, 10); (65296, 10); (66720, 10); (68912, 10); (69734, 10); (69872, 10);
   (69942, 10); (70096, 10); (70384, 10); (70736, 10); (70864, 10); (71248, 10);
   (71360, 10); (71472, 10); (71904, 10); (72016, 10); (72784, 10); (73040, 10);
   (73120, 10); (92768, 10); (92864, 10); (93008, 10); (120782, 50); (123200, 10);
   (123632, 10); (125264, 10); (130032, 10)]%N.

Definition unicode_14_0 : Unicode :=
  {| decimal_value := fun cp =>
       match find (fun entry => (fst entry <=? cp)%N && (cp <? fst entry + snd entry)%N)
                  decimal_digits_14_0 with
       | Some entry => Some ((cp - fst entry) mod 10)%N
       | None => None
       end |}.

(** A digit, in a text whose decimal digits [decimal] has written in
    ASCII. *)
Definition is_digit (c : ascii) : bool :=
  let n := nat_of_ascii c in (48 <=? n)%nat && (n <=? 57)%nat.

Definition digit_value (c : ascii) : Z := Z.of_nat (nat_of_ascii c - 48).

Definition comma : ascii := ","%char.
Definition period : ascii := "."%char.

(** [re.sub] of the complement of a character class by the empty string. *)
Fixpoint keep (p : ascii -> bool) (s : string) : string :=
  match s with
  | EmptyString => EmptyString
  | String c s' => if p c then String c (keep p s') else keep p s'
  end.

(** [c in s] *)
Fixpoint contains (c : ascii) (s : string) : bool :=
  match s with
  | EmptyString => false
  | String d s' => Ascii.eqb c d || contains c s'
  end.

(** [s.rindex(c)]; [None] stands for the [ValueError] of an absent [c]. *)
Fixpoint rindex (c : ascii) (s : string) : option nat :=
  match s with
  | EmptyString => None
  | String d s' =>
      match rindex c s' with
      | Some i => Some (S i)
      | None => if Ascii.eqb c d then Some 0%nat else None
      end
  end.

(** [s.replace(c, '')] *)
Definition remove (c : ascii) (s : string) : string :=
  keep (fun d => negb (Ascii.eqb c d)) s.

(** [s.replace(c, d)] for single characters. *)
Fixpoint replace (c d : ascii) (s : string) : string :=
  match s with
  | EmptyString => EmptyString
  | String e s' => String (if Ascii.eqb c e then d else e) (replace c d s')
  end.

(** [s.split(c)]: the pieces between the occurrences of [c]. *)
Fixpoint split (c : ascii) (s : string) : list string :=
  match s with
  | EmptyString => [EmptyString]
  | String d s' =>
      if Ascii.eqb c d then EmptyString :: split c s'
      else match split c s' with
           | p :: ps => String d p :: ps
           | [] => [String d EmptyString]
           end
  end.

(** [s.count(sub)]: occurrences of [sub] counted left to right without
    overlap; [skip] is the number of characters still covered by the last
    occurrence found. *)
Fixpoint count_from (sub : string) (skip : nat) (s : string) : nat :=
  match s with
  | EmptyString => 0
  | String _ s' =>
      match skip with
      | S k => count_from sub k s'
      | O => if prefix sub s
             then S (count_from sub (String.length sub - 1) s')
             else count_from sub 0 s'
      end
  end.

Definition count (sub s : string) : nat := count_from sub 0 s.

(** The longest run of digits at the head of [s], and what follows it. *)
Fixpoint take_digits (s : string) : string :=
  match s with
  | String c s' => if is_digit c then String c (take_digits s') else EmptyString
  | EmptyString => EmptyString
  end.

Fixpoint drop_digits (s : string) : string :=
  match s with
  | String c s' => if is_digit c then drop_digits s' else s
  | EmptyString => EmptyString
  end.

Fixpoint all_digits (s : string) : bool :=
  match s with
  | EmptyString => true
  | String c s' => is_digit c && all_digits s'
  end.

(** Whether some character of [s] is a digit. *)
Fixpoint has_digit (s : string) : bool :=
  match s with
  | EmptyString => false
  | String c s' => is_digit c || has_digit s'
  end.

Fixpoint int_of_digits (acc : Z) (s : string) : Z :=
  match s with
  | EmptyString => acc
  | String c s' => int_of_digits (10 * acc + digit_value c) s'
  end.

Definition is_empty (s : string) : bool :=
  match s with EmptyString => true | _ => false end.

(** [float(s)] on the numerals the helpers produce, their decimal digits
    written in ASCII by [decimal] as [float] itself reads them: digits with
    at most one period and at least one digit. Any other text made of digits,
    commas and periods is a [ValueError], here [None]. *)
Definition to_float (s : string) : option float :=
  let ip := take_digits s in
  match drop_digits s with
  | EmptyString =>
      if is_empty ip then None
      else Some (PyFloat.of_decimal (int_of_digits 0 ip) 0)
  | String c fp =>
      if Ascii.eqb c period && all_digits fp
         && negb (is_empty ip && is_empty fp)
      then Some (PyFloat.of_decimal (int_of_digits 0 (ip ++ fp)) (String.length fp))
      else None
  end.

End PyStr.

(** ** [utils/helpers.py] *)

Module Helpers.
Import PyStr.

Section Reading.
Context {U : Unicode}.

(** A character that the pattern [[^\d,.]] leaves in place, in a text whose
    decimal digits are written in ASCII. *)
Definition price_char (c : ascii) : bool :=
  is_digit c || Ascii.eqb c comma || Ascii.eqb c period.

(** [re.sub(r'[^\d,.]', '', str(price_text))]: the decimal digits of every
    script, the commas and the periods are kept, and the digits are written
    in ASCII, as [float] will read them. *)
Definition clean (price_text : string) : string :=
  keep price_char (decimal price_text).

(** The rewriting of the separators at the head of the [try] block of
    [format_price]. *)
Definition normalise_separators (price_clean : string) : outcome string :=
  if contains comma price_clean && contains period price_clean then
    match rindex comma price_clean, rindex period price_clean with
    | Some i, Some j =>
        if (j <? i)%nat
        then Returns (replace comma period (remove period price_clean))
        else Returns price_clean
    | _, _ => Raises ValueError
    end
  else if contains comma price_clean then
    match split comma price_clean with
    | [_; cents] =>
        if (String.length cents <=? 2)%nat
        then Returns (replace comma period price_clean)
        else Returns price_clean
    | _ => Returns price_clean
    end
  else Returns price_clean.

(** The [try] block of [format_price], on the cleaned text. *)
Definition format_price_try (price_clean : string) : outcome float :=
  match normalise_separators price_clean with
  | Returns text =>
      match to_float text with
      | Some f => Returns f
      | None => Raises ValueError
      end
  | Raises e => Raises e
  end.

Definition format_price (price_text : option string) : outcome float :=
  match price_text with
  | None | Some EmptyString => Returns 0%float
  | Some text =>
      let price_clean := clean text in
      if is_empty price_clean then Returns 0%float
      else match format_price_try price_clean with
           | Returns f => Returns f
           | Raises ValueError | Raises AttributeError => Returns 0%float
           | Raises e => Raises e
           end
  end.

(** The inputs on which [format_price] has no price to read: [None], the empty
    text, a text without a decimal digit of any script, and a text whose
    cleaned form makes the [try] block raise. *)
Inductive degenerate : option string -> Prop :=
| degenerate_none : degenerate None
| degenerate_empty : degenerate (Some EmptyString)
| degenerate_no_digit (text : string) :
    has_digit (decimal text) = false -> degenerate (Some text)
| degenerate_unparseable (text : string) (e : exn) :
    format_price_try (clean text) = Raises e -> degenerate (Some text).

(** [re.search] for one or more digits, an optional period or comma, and
    any further digits, in a text whose decimal digits are written in ASCII:
    the match that starts at a digit of [s]. *)
Definition number_at (s : string) : string :=
  let whole := take_digits s in
  match drop_digits s with
  | String c rest =>
      if Ascii.eqb c period || Ascii.eqb c comma
      then whole ++ String c (take_digits rest)
      else whole
  | EmptyString => whole
  end.

Fixpoint first_number (s : string) : option string :=
  match s with
  | EmptyString => None
  | String c s' => if is_digit c then Some (number_at s) else first_number s'
  end.

(** [re.search] of that pattern in [str(rating_text)]: the match starts at
    the first decimal digit of the text, of whatever script; it is given with
    its digits written in ASCII, as [float] reads it. *)
Definition search_number (rating_text : string) : option string :=
  first_number (decimal rating_text).

Definition star_black : string := "★".
Definition star_glowing : string := "⭐".

Definition count_stars (rating_text : string) : float :=
  let stars := (count star_black rating_text + count star_glowing rating_text)%nat in
  if (0 <? stars)%nat then PyFloat.of_nat (Nat.min 5 stars) else 0%float.

(** Normalisation to the 0-5 scale applied to a parsed rating. *)
Definition normalise_rating (rating : float) : float :=
  let rating := if PyFloat.gt rating 5 then (rating / 2)%float else rating in
  PyFloat.min 5 (PyFloat.max 0 rating).

Definition extract_rating (rating_text : option string) : float :=
  match rating_text with
  | None | Some EmptyString => 0%float
  | Some text =>
      match search_number text with
      | Some token =>
          match to_float (replace comma period token) with
          | Some rating => normalise_rating rating
          | None => count_stars text
          end
      | None => count_stars text
      end
  end.

End Reading.

End Helpers.

(** ** [database/models.py] *)

(** Time is counted in whole seconds since an arbitrary origin. *)
Definition timestamp := Z.

Module Product.
(** A row of [products]. *)
Record t : Type := mk {
  id : Z;
  title : string;
  url : string;
  site : string;
  external_id : option string;
  current_price : float;
  original_price : option float;
  currency : string;
  image_url : string;
  rating : float;
  num_reviews : Z;
  in_stock : bool;
  free_shipping : bool;
  first_seen : timestamp;
  last_updated : timestamp
}.
End Product.

Module PriceHistory.
(** A row of [price_history]. *)
Record t : Type := mk {
  id : Z;
  product_id : Z;
  price : float;
  original_price : option float;
  discount_percent : float;
  recorded_at : timestamp;
  session_id : option Z
}.

(** The keyword arguments [PriceHistory(...)] is built from; the remaining
    columns take their defaults when the row is inserted. *)
Record args : Type := new {
  arg_product_id : Z;
  arg_price : float;
  arg_original_price : option float;
  arg_session_id : option Z
}.
End PriceHistory.

Module ScrapingSession.
(** A row of [scraping_sessions]. The column [filters_applied] holds the
    JSON text of a dictionary; the row keeps the dictionary's pairs. *)
Record t : Type := mk {
  id : Z;
  session_name : option string;
  site : option string;
  search_term : option string;
  filters_applied : list (string * Z);
  products_found : Z;
  products_saved : Z;
  new_products : Z;
  price_changes : Z;
  success : bool;
  error_message : option string;
  started_at : timestamp;
  completed_at : option timestamp;
  duration_seconds : option Z
}.
End ScrapingSession.

(** The dictionary a scraper produces for one listing. A key that is absent
    is [None]; a key that is present carries a value of its column's type. *)
Module ProductData.
Record t : Type := mk {
  title : option string;
  url : option string;
  site : option string;
  external_id : option string;
  asin : option string;
  price : option float;
  original_price : option float;
  currency : option string;
  image_url : option string;
  rating : option float;
  num_reviews : option Z;
  in_stock : option bool;
  free_shipping : option bool
}.
End ProductData.

(** [d.get(key, default)] *)
Definition get {A : Type} (value : option A) (default : A) : A :=
  match value with
  | Some v => v
  | None => default
  end.

(** Truth value of an optional string: [None] and [''] are false. *)
Definition truthy (value : option string) : bool :=
  match value with
  | Some (String _ _) => true
  | _ => false
  end.

(** [a or b] on optional strings. *)
Definition py_or (a b : option string) : option string :=
  if truthy a then a else b.

(** The identifier a record is looked up and stored under:
    [product_data.get('external_id') or product_data.get('asin')]. *)
Definition external_id_of (product_data : ProductData.t) : option string :=
  py_or (ProductData.external_id product_data) (ProductData.asin product_data).

(** A product as built from a dictionary, before it is inserted: the row
    without its key and timestamps. *)
Definition create_product_from_dict (product_data : ProductData.t)
  : Z -> timestamp -> Product.t :=
  fun new_id now =>
  {| Product.id := new_id;
     Product.title := get (ProductData.title product_data) "";
     Product.url := get (ProductData.url product_data) "";
     Product.site := get (ProductData.site product_data) "";
     Product.external_id := external_id_of product_data;
     Product.current_price := get (ProductData.price product_data) 0%float;
     Product.original_price := ProductData.original_price product_data;
     Product.currency := get (ProductData.currency product_data) "BRL";
     Product.image_url := get (ProductData.image_url product_data) "";
     Product.rating := get (ProductData.rating product_data) 0%float;
     Product.num_reviews := get (ProductData.num_reviews product_data) 0%Z;
     Product.in_stock := get (ProductData.in_stock product_data) true;
     Product.free_shipping := get (ProductData.free_shipping product_data) false;
     Product.first_seen := now;
     Product.last_updated := now |}.

(** ** The database and a session on it *)

Record DB : Type := mkDB {
  products : list Product.t;
  price_history : list PriceHistory.t;
  scraping_sessions : list ScrapingSession.t
}.

Definition empty_db : DB := mkDB [] [] [].

(** An autoincremented key: one more than the largest key in use. *)
Definition next_id (ids : list Z) : Z := 1 + fold_right Z.max 0%Z ids.

(** A session holds the committed database [base], the view [txn] of its open
    transaction, the price records added but not yet flushed, and the storage
    failures still to come: every statement sent to the database takes the
    next entry of [faults], and [true] makes it raise. *)
Record Session : Type := mkSession {
  base : DB;
  txn : DB;
  pending : list PriceHistory.args;
  faults : list bool
}.

(** A computation on a state [S] that returns a value or raises. *)
Definition Run (S A : Type) : Type := S -> outcome A * S.

Definition ret {S A : Type} (a : A) : Run S A := fun s => (Returns a, s).

Definition raise {S A : Type} (e : exn) : Run S A := fun s => (Raises e, s).

Definition bind {S A B : Type} (c : Run S A) (k : A -> Run S B) : Run S B :=
  fun s =>
    match c s with
    | (Returns a, s') => k a s'
    | (Raises e, s') => (Raises e, s')
    end.

(** [try: c except Exception as e: handler e] *)
Definition try_except {S A : Type} (c : Run S A) (handler : exn -> Run S A)
  : Run S A :=
  fun s =>
    match c s with
    | (Returns a, s') => (Returns a, s')
    | (Raises e, s') => handler e s'
    end.

Definition M (A : Type) : Type := Run Session A.

Declare Scope run_scope.
Delimit Scope run_scope with run.
Notation "x <- c ;; k" := (bind c (fun x => k))
  (at level 61, c at next level, right associativity) : run_scope.
Notation "c ;;; k" := (bind c (fun _ => k))
  (at level 61, right associativity) : run_scope.
Open Scope run_scope.

(** One statement sent to the database. *)
Definition statement : M unit :=
  fun s =>
    match faults s with
    | true :: rest =>
        (Raises SQLAlchemyError, mkSession (base s) (txn s) (pending s) rest)
    | false :: rest =>
        (Returns tt, mkSession (base s) (txn s) (pending s) rest)
    | [] => (Returns tt, s)
    end.

Definition read_txn : M DB := fun s => (Returns (txn s), s).

Definition write_txn (db : DB) : M unit :=
  fun s => (Returns tt, mkSession (base s) db (pending s) (faults s)).

(** [db.query(Product).filter(...).first()] *)
Definition query_product_first (filter : Product.t -> bool) : M (option Product.t) :=
  statement ;;;
  db <- read_txn ;;
  ret (find filter (products db)).

Definition insert_price_history (now : timestamp) (db : DB) (a : PriceHistory.args) : DB :=
  let row :=
    {| PriceHistory.id := next_id (map PriceHistory.id (price_history db));
       PriceHistory.product_id := PriceHistory.arg_product_id a;
       PriceHistory.price := PriceHistory.arg_price a;
       PriceHistory.original_price := PriceHistory.arg_original_price a;
       PriceHistory.discount_percent := 0%float;
       PriceHistory.recorded_at := now;
       PriceHistory.session_id := PriceHistory.arg_session_id a |} in
  mkDB (products db) (price_history db ++ [row]) (scraping_sessions db).

(** [db.flush()]: the pending records are inserted in the order they were
    added. *)
Definition flush (now : timestamp) : M unit :=
  statement ;;;
  fun s =>
    (Returns tt,
     mkSession (base s) (fold_left (insert_price_history now) (pending s) (txn s))
               [] (faults s)).

(** [db.add(new_product); db.flush()]: the product receives its key. *)
Definition add_product (new_product : Z -> timestamp -> Product.t) (now : timestamp)
  : M Product.t :=
  flush now ;;;
  db <- read_txn ;;
  let row := new_product (next_id (map Product.id (products db))) now in
  write_txn (mkDB (products db ++ [row]) (price_history db) (scraping_sessions db)) ;;;
  ret row.

(** [db.add(price_history)] *)
Definition add_price_history (a : PriceHistory.args) : M unit :=
  fun s => (Returns tt, mkSession (base s) (txn s) (pending s ++ [a]) (faults s)).

(** Assignments to the attributes of a mapped product. The row is written at
    the next flush; a later query of the same session returns the same object,
    so the session sees the new values at once. *)
Definition replace_row (p : Product.t) (db : DB) : DB :=
  mkDB (map (fun q => if (Product.id q =? Product.id p)%Z then p else q) (products db))
       (price_history db) (scraping_sessions db).

Definition set_product (p : Product.t) : M unit :=
  db <- read_txn ;;
  write_txn (replace_row p db).

(** [db.commit()] *)
Definition commit (now : timestamp) : M unit :=
  flush now ;;;
  statement ;;;
  fun s => (Returns tt, mkSession (txn s) (txn s) [] (faults s)).

(** [db.rollback()] *)
Definition rollback : M unit :=
  fun s => (Returns tt, mkSession (base s) (base s) [] (faults s)).

(** ** [database/database.py] *)

Module DatabaseManager.

Definition same_text (column : option string) (value : string) : bool :=
  match column with
  | Some v => String.eqb v value
  | None => false
  end.

Definition _find_existing_product (product_data : ProductData.t)
  : M (option Product.t) :=
  let url := ProductData.url product_data in
  let external_id := external_id_of product_data in
  let site := ProductData.site product_data in
  by_url <- (if truthy url
             then query_product_first (fun p => String.eqb (Product.url p) (get url ""))
             else ret None) ;;
  match by_url with
  | Some product => ret (Some product)
  | None =>
      if truthy external_id && truthy site
      then query_product_first
             (fun p => same_text (Product.external_id p) (get external_id "")
                       && String.eqb (Product.site p) (get site ""))
      else ret None
  end.

(** The noise threshold of a price change. *)
Definition price_changed (old_price new_price : float) : bool :=
  PyFloat.gt (abs (old_price - new_price)) 0.01.

(** The assignments of [_update_existing_product] to the fields of the
    product. *)
Definition update_fields (product : Product.t) (product_data : ProductData.t)
    (now : timestamp) : Product.t :=
  {| Product.id := Product.id product;
     Product.title := get (ProductData.title product_data) (Product.title product);
     Product.url := Product.url product;
     Product.site := Product.site product;
     Product.external_id := Product.external_id product;
     Product.current_price := get (ProductData.price product_data) 0%float;
     Product.original_price := ProductData.original_price product_data;
     Product.currency := Product.currency product;
     Product.image_url :=
       get (ProductData.image_url product_data) (Product.image_url product);
     Product.rating := get (ProductData.rating product_data) (Product.rating product);
     Product.num_reviews :=
       get (ProductData.num_reviews product_data) (Product.num_reviews product);
     Product.in_stock :=
       get (ProductData.in_stock product_data) (Product.in_stock product);
     Product.free_shipping :=
       get (ProductData.free_shipping product_data) (Product.free_shipping product);
     Product.first_seen := Product.first_seen product;
     Product.last_updated := now |}.

Definition _update_existing_product (product : Product.t)
    (product_data : ProductData.t) (session_id : option Z) (now : timestamp)
  : M Product.t :=
  let old_price := Product.current_price product in
  let new_price := get (ProductData.price product_data) 0%float in
  let product := update_fields product product_data now in
  set_product product ;;;
  (if price_changed old_price new_price
   then add_price_history
          (PriceHistory.new (Product.id product) new_price
             (ProductData.original_price product_data) session_id)
   else ret tt) ;;;
  ret product.

(** The body of the loop of [save_products], for one dictionary. *)
Definition save_product (product_data : ProductData.t) (session_id : option Z)
    (now : timestamp) : M Product.t :=
  existing_product <- _find_existing_product product_data ;;
  match existing_product with
  | Some existing =>
      _update_existing_product existing product_data session_id now
  | None =>
      new_product <- add_product (create_product_from_dict product_data) now ;;
      add_price_history
        (PriceHistory.new (Product.id new_product)
           (Product.current_price new_product)
           (Product.original_price new_product) session_id) ;;;
      ret new_product
  end.

Fixpoint save_each (products_data : list ProductData.t) (session_id : option Z)
    (now : timestamp) : M (list Product.t) :=
  match products_data with
  | [] => ret []
  | product_data :: rest =>
      saved <- save_product product_data session_id now ;;
      others <- save_each rest session_id now ;;
      ret (saved :: others)
  end.

(** A call of the manager runs on the committed database and the storage
    failures to come, and leaves both behind. *)
Record Storage : Type := mkStorage {
  db : DB;
  plan : list bool
}.

Definition open_session (st : Storage) : Session :=
  mkSession (db st) (db st) [] (plan st).

Definition close_session (s : Session) : Storage :=
  mkStorage (base s) (faults s).

(** [with self.get_session() as db: try: ... except SQLAlchemyError:
    db.rollback(); raise]. Leaving the block closes the session, which
    drops whatever was not committed. *)
Definition in_session {A : Type} (body : M A) (st : Storage)
  : outcome A * Storage :=
  match body (open_session st) with
  | (Returns a, s) => (Returns a, close_session s)
  | (Raises SQLAlchemyError, s) =>
      (Raises SQLAlchemyError, close_session (snd (rollback s)))
  | (Raises e, s) => (Raises e, close_session s)
  end.

(** The products returned are the rows as the session held them when it
    committed. The objects the code returns stand for these rows; they are
    detached once the session is closed, and nothing here depends on reading
    them afterwards. *)
Definition save_products (products_data : list ProductData.t)
    (session_id : option Z) (now : timestamp) (st : Storage)
  : outcome (list Product.t) * Storage :=
  in_session
    (saved_products <- save_each products_data session_id now ;;
     commit now ;;;
     ret saved_products)
    st.


(** [order_by(desc(recorded_at)).first()]: the row recorded last; among rows
    recorded at the same time, the one met first. *)
Fixpoint latest (rows : list PriceHistory.t) : option PriceHistory.t :=
  match rows with
  | [] => None
  | row :: rest =>
      match latest rest with
      | Some later =>
          if (PriceHistory.recorded_at row <? PriceHistory.recorded_at later)%Z
          then Some later else Some row
      | None => Some row
      end
  end.

(** The price recorded for the same product just before [change]. *)
Definition previous_record (store : DB) (change : PriceHistory.t)
  : option PriceHistory.t :=
  latest
    (filter
       (fun h =>
          (PriceHistory.product_id h =? PriceHistory.product_id change)%Z
          && (PriceHistory.recorded_at h <? PriceHistory.recorded_at change)%Z)
       (price_history store)).

Definition seconds_of_hours (hours : Z) : Z := (hours * 3600)%Z.

Definition change_of (store : DB) (change : PriceHistory.t)
  : list (Product.t * PriceHistory.t * PriceHistory.t) :=
  match previous_record store change with
  | Some previous =>
      if price_changed (PriceHistory.price previous) (PriceHistory.price change)
      then match find (fun p => (Product.id p =? PriceHistory.product_id change)%Z)
                      (products store) with
           | Some product => [(product, previous, change)]
           | None => []
           end
      else []
  | None => []
  end.

Definition get_price_changes (hours : Z) (now : timestamp) (store : DB)
  : list (Product.t * PriceHistory.t * PriceHistory.t) :=
  let cutoff_date := (now - seconds_of_hours hours)%Z in
  let recent_changes :=
    filter (fun h => (cutoff_date <=? PriceHistory.recorded_at h)%Z)
           (price_history store) in
  flat_map (change_of store) recent_changes.

(** The dictionary [create_scraping_session] receives. *)
Record SessionData : Type := mkSessionData {
  data_session_name : option string;
  data_site : option string;
  data_search_term : option string;
  data_filters_applied : option (list (string * Z))
}.

(** [ScrapingSession(...)] as it is inserted: the columns not given take
    their defaults. *)
Definition new_session (session_data : SessionData) (now : timestamp) (new_id : Z)
  : ScrapingSession.t :=
  {| ScrapingSession.id := new_id;
     ScrapingSession.session_name := data_session_name session_data;
     ScrapingSession.site := data_site session_data;
     ScrapingSession.search_term := data_search_term session_data;
     ScrapingSession.filters_applied := get (data_filters_applied session_data) [];
     ScrapingSession.products_found := 0;
     ScrapingSession.products_saved := 0;
     ScrapingSession.new_products := 0;
     ScrapingSession.price_changes := 0;
     ScrapingSession.success := false;
     ScrapingSession.error_message := None;
     ScrapingSession.started_at := now;
     ScrapingSession.completed_at := None;
     ScrapingSession.duration_seconds := None |}.

Definition insert_session (session_data : SessionData) (now : timestamp)
  : M ScrapingSession.t :=
  store <- read_txn ;;
  let session :=
    new_session session_data now
      (next_id (map ScrapingSession.id (scraping_sessions store))) in
  write_txn (mkDB (products store) (price_history store)
                  (scraping_sessions store ++ [session])) ;;;
  ret session.

(** [db.refresh(session)] *)
Definition refresh : M unit := statement.

Definition create_scraping_session (session_data : SessionData) (now : timestamp)
    (st : Storage) : outcome ScrapingSession.t * Storage :=
  in_session
    (session <- insert_session session_data now ;;
     commit now ;;;
     refresh ;;;
     ret session)
    st.

(** The dictionary [update_scraping_session] receives. *)
Record SessionUpdates : Type := mkSessionUpdates {
  upd_products_found : option Z;
  upd_products_saved : option Z;
  upd_success : option bool;
  upd_error_message : option string;
  upd_completed_at : option timestamp
}.

Definition apply_updates (session : ScrapingSession.t) (updates : SessionUpdates)
  : ScrapingSession.t :=
  {| ScrapingSession.id := ScrapingSession.id session;
     ScrapingSession.session_name := ScrapingSession.session_name session;
     ScrapingSession.site := ScrapingSession.site session;
     ScrapingSession.search_term := ScrapingSession.search_term session;
     ScrapingSession.filters_applied := ScrapingSession.filters_applied session;
     ScrapingSession.products_found :=
       get (upd_products_found updates) (ScrapingSession.products_found session);
     ScrapingSession.products_saved :=
       get (upd_products_saved updates) (ScrapingSession.products_saved session);
     ScrapingSession.new_products := ScrapingSession.new_products session;
     ScrapingSession.price_changes := ScrapingSession.price_changes session;
     ScrapingSession.success :=
       get (upd_success updates) (ScrapingSession.success session);
     ScrapingSession.error_message :=
       match upd_error_message updates with
       | Some message => Some message
       | None => ScrapingSession.error_message session
       end;
     ScrapingSession.started_at := ScrapingSession.started_at session;
     ScrapingSession.completed_at :=
       match upd_completed_at updates with
       | Some finished => Some finished
       | None => ScrapingSession.completed_at session
       end;
     ScrapingSession.duration_seconds :=
       match upd_completed_at updates with
       | Some finished => Some (finished - ScrapingSession.started_at session)%Z
       | None => ScrapingSession.duration_seconds session
       end |}.

Definition replace_session (session : ScrapingSession.t) (store : DB) : DB :=
  mkDB (products store) (price_history store)
       (map (fun q => if (ScrapingSession.id q =? ScrapingSession.id session)%Z
                      then session else q)
            (scraping_sessions store)).

Definition set_session (session : ScrapingSession.t) : M unit :=
  store <- read_txn ;;
  write_txn (replace_session session store).

Definition update_scraping_session (session_id : Z) (updates : SessionUpdates)
    (now : timestamp) (st : Storage) : outcome (option ScrapingSession.t) * Storage :=
  in_session
    (statement ;;;
     store <- read_txn ;;
     match find (fun q => (ScrapingSession.id q =? session_id)%Z)
                (scraping_sessions store) with
     | None => ret None
     | Some session =>
         let session := apply_updates session updates in
         set_session session ;;;
         commit now ;;;
         refresh ;;;
         ret (Some session)
     end)
    st.

End DatabaseManager.

(** ** Identity of a listing, in the words of the specification *)

Module Identity.
Import DatabaseManager.

(** The stored listing with the url of the record, when the record has one. *)
Definition by_url (store : DB) (product_data : ProductData.t) : option Product.t :=
  match ProductData.url product_data with
  | Some (String c rest) =>
      find (fun p => String.eqb (Product.url p) (String c rest)) (products store)
  | _ => None
  end.

(** The stored listing with the site and external identifier of the record,
    when the record has both. *)
Definition by_key (store : DB) (product_data : ProductData.t) : option Product.t :=
  match external_id_of product_data, ProductData.site product_data with
  | Some (String c ext), Some (String d site) =>
      find (fun p => same_text (Product.external_id p) (String c ext)
                     && String.eqb (Product.site p) (String d site))
           (products store)
  | _, _ => None
  end.

(** Look up by url first; failing that, by the compound key; otherwise the
    record is new. *)
Definition resolve (store : DB) (product_data : ProductData.t) : option Product.t :=
  match by_url store product_data with
  | Some product => Some product
  | None => by_key store product_data
  end.

(** The price record an update appends when the price moved. *)
Definition change_rows (existing : Product.t) (product_data : ProductData.t)
    (session_id : option Z) : list PriceHistory.args :=
  if price_changed (Product.current_price existing)
                   (get (ProductData.price product_data) 0%float)
  then [PriceHistory.new (Product.id existing)
          (get (ProductData.price product_data) 0%float)
          (ProductData.original_price product_data) session_id]
  else [].

(** A record that carries a key it can be found by again. *)
Definition identifiable (product_data : ProductData.t) : bool :=
  truthy (ProductData.url product_data)
  || (truthy (external_id_of product_data) && truthy (ProductData.site product_data)).

Definition flushed (now : timestamp) (store : DB) (rows : list PriceHistory.args) : DB :=
  fold_left (insert_price_history now) rows store.

(** What saving one record does to the open transaction [t] and to the
    pending price records, when the storage does not fail. *)
Definition upsert (session_id : option Z) (now : timestamp) (t : DB)
    (pending : list PriceHistory.args) (product_data : ProductData.t)
  : Product.t * DB * list PriceHistory.args :=
  match resolve t product_data with
  | Some existing =>
      let product := update_fields existing product_data now in
      (product, replace_row product t,
       (pending ++ change_rows existing product_data session_id)%list)
  | None =>
      let t' := flushed now t pending in
      let row := create_product_from_dict product_data
                   (next_id (map Product.id (products t'))) now in
      (row,
       mkDB (products t' ++ [row]) (price_history t') (scraping_sessions t'),
       [PriceHistory.new (Product.id row) (Product.current_price row)
          (Product.original_price row) session_id])
  end.

Fixpoint upsert_all (session_id : option Z) (now : timestamp) (t : DB)
    (pending : list PriceHistory.args) (products_data : list ProductData.t)
  : list Product.t * DB * list PriceHistory.args :=
  match products_data with
  | [] => ([], t, pending)
  | product_data :: rest =>
      let '(saved, t1, pending1) := upsert session_id now t pending product_data in
      let '(others, t2, pending2) := upsert_all session_id now t1 pending1 rest in
      (saved :: others, t2, pending2)
  end.

(** The database a batch leaves when the storage does not fail. *)
Definition committed (session_id : option Z) (now : timestamp) (store : DB)
    (products_data : list ProductData.t) : DB :=
  let '(_, t, pending) := upsert_all session_id now store [] products_data in
  flushed now t pending.


(** The session with no storage failure left. *)
Definition quiet (s : Session) : Session :=
  mkSession (base s) (txn s) (pending s) [].

(** A computation of a session is regular when it never touches the
    committed database, raises nothing but a storage error, and, when it
    returns, returns the same value and leaves the same transaction as on the
    session without failures. *)
Definition regular {A : Type} (c : M A) : Prop :=
  forall s,
    match c s with
    | (Returns a, s') => base s' = base s /\ c (quiet s) = (Returns a, quiet s')
    | (Raises e, s') => e = SQLAlchemyError /\ base s' = base s
    end.

(** How a pending record shows in the table once it is flushed. *)
Definition row_of (now : timestamp) (a : PriceHistory.args) (row : PriceHistory.t) : Prop :=
  PriceHistory.product_id row = PriceHistory.arg_product_id a
  /\ PriceHistory.price row = PriceHistory.arg_price a
  /\ PriceHistory.original_price row = PriceHistory.arg_original_price a
  /\ PriceHistory.session_id row = PriceHistory.arg_session_id a
  /\ PriceHistory.recorded_at row = now.

End Identity.

(** ** [scrapers/scraper_factory.py] *)

Module ScraperFactory.

Inductive scraper : Type := AmazonScraper | EbayScraper | MercadoLivreScraper.

(** [str.lower] and [str.strip] on ASCII text. *)
Definition lower_char (c : ascii) : ascii :=
  let n := nat_of_ascii c in
  if (65 <=? n)%nat && (n <=? 90)%nat then ascii_of_nat (n + 32) else c.

Fixpoint lower (s : string) : string :=
  match s with
  | EmptyString => EmptyString
  | String c s' => String (lower_char c) (lower s')
  end.

Definition is_space (c : ascii) : bool :=
  let n := nat_of_ascii c in
  ((9 <=? n)%nat && (n <=? 13)%nat) || ((28 <=? n)%nat && (n <=? 32)%nat).

Fixpoint lstrip (s : string) : string :=
  match s with
  | String c s' => if is_space c then lstrip s' else s
  | EmptyString => EmptyString
  end.

Fixpoint rstrip (s : string) : string :=
  match s with
  | EmptyString => EmptyString
  | String c s' =>
      let kept := rstrip s' in
      if PyStr.is_empty kept && is_space c then EmptyString else String c kept
  end.

Definition strip (s : string) : string := rstrip (lstrip s).

Definition _scrapers : list (string * scraper) :=
  [("amazon", AmazonScraper);
   ("ebay", EbayScraper);
   ("mercadolivre", MercadoLivreScraper);
   ("mercado_livre", MercadoLivreScraper);
   ("ml", MercadoLivreScraper)].

Fixpoint lookup (key : string) (table : list (string * scraper)) : option scraper :=
  match table with
  | [] => None
  | (k, v) :: rest => if String.eqb k key then Some v else lookup key rest
  end.

(** Building the scraper object itself is taken to succeed. *)
Definition create_scraper (site : string) : outcome scraper :=
  let site_lower := strip (lower site) in
  match lookup site_lower _scrapers with
  | Some scraper_class => Returns scraper_class
  | None => Raises ValueError
  end.

End ScraperFactory.

(** ** [scheduler.py] *)

Module ScrapingScheduler.
Import DatabaseManager.

Record SearchConfig : Type := mkSearch {
  site : string;
  search : string;
  max_results : Z
}.

(** What lies outside the scheduler: the scrapers, the mail service and the
    settings. The [n]-th search of a run may return listings or raise. *)
Record Env : Type := mkEnv {
  search_products :
    nat -> ScraperFactory.scraper -> string -> Z -> outcome (list ProductData.t);
  email_recipients : list string;
  send_product_report : list ProductData.t -> list string -> outcome bool
}.

Inductive LogRecord : Type :=
| LogStart
| LogPair (search_config : SearchConfig) (found : nat)
| LogPairError (search_config : SearchConfig) (e : exn)
| LogJob (job_name status : string)
| LogDone (total : nat)
| LogJobError (e : exn).

(** The state a job runs on: the database, the searches made and the reports
    handed to the mail service so far, and the log. *)
Record World : Type := mkWorld {
  storage : Storage;
  searched : list (ScraperFactory.scraper * string * Z);
  reports : list (list ProductData.t);
  log : list LogRecord
}.

Definition Job (A : Type) : Type := Run World A.

Definition logger (entry : LogRecord) : Job unit :=
  fun w => (Returns tt, mkWorld (storage w) (searched w) (reports w) (log w ++ [entry])).

(** A call of the database manager. *)
Definition db_manager {A : Type} (call : Storage -> outcome A * Storage) : Job A :=
  fun w =>
    let (result, st) := call (storage w) in
    (result, mkWorld st (searched w) (reports w) (log w)).

(** A value computed outside the state. *)
Definition lift {A : Type} (result : outcome A) : Job A := fun w => (result, w).

Definition scraper_search (env : Env) (scraper : ScraperFactory.scraper)
    (search_term : string) (limit : Z) : Job (list ProductData.t) :=
  fun w =>
    (search_products env (List.length (searched w)) scraper search_term limit,
     mkWorld (storage w) (searched w ++ [(scraper, search_term, limit)])
             (reports w) (log w)).

Definition email_service (env : Env) (all_products : list ProductData.t) : Job bool :=
  fun w =>
    (send_product_report env all_products (email_recipients env),
     mkWorld (storage w) (searched w) (reports w ++ [all_products]) (log w)).

Definition default_searches : list SearchConfig :=
  [mkSearch "amazon" "notebook" 30;
   mkSearch "mercadolivre" "smartphone" 30;
   mkSearch "ebay" "tablet" 20].

Definition is_nil {A : Type} (l : list A) : bool :=
  match l with [] => true | _ => false end.

(** The [try] block run for one search of the sweep; it returns the
    listings to add to [all_products]. *)
Definition scrape_one (env : Env) (now : timestamp) (search_config : SearchConfig)
  : Job (list ProductData.t) :=
  scraper <- lift (ScraperFactory.create_scraper (site search_config)) ;;
  products <- scraper_search env scraper (search search_config)
                (max_results search_config) ;;
  if is_nil products then ret []
  else
    let session_data :=
      mkSessionData (Some ("Agendado - " ++ search search_config))
                    (Some (site search_config))
                    (Some (search search_config))
                    (Some [("max_results", max_results search_config)]) in
    session <- db_manager (create_scraping_session session_data now) ;;
    saved_products <-
      db_manager (save_products products (Some (ScrapingSession.id session)) now) ;;
    db_manager
      (update_scraping_session (ScrapingSession.id session)
         (mkSessionUpdates (Some (Z.of_nat (List.length products)))
                           (Some (Z.of_nat (List.length saved_products)))
                           (Some true) None (Some now))
         now) ;;;
    logger (LogPair search_config (List.length products)) ;;;
    ret products.

(** The loop over the searches: an exception of one search is logged and the
    loop goes on with the next. *)
Fixpoint sweep (env : Env) (now : timestamp) (searches : list SearchConfig)
    (all_products : list ProductData.t) : Job (list ProductData.t) :=
  match searches with
  | [] => ret all_products
  | search_config :: rest =>
      found <- try_except (scrape_one env now search_config)
                 (fun e => logger (LogPairError search_config e) ;;; ret []) ;;
      sweep env now rest (all_products ++ found)
  end.

Definition daily_scraping (env : Env) (now : timestamp)
    (searches : list SearchConfig) : Job unit :=
  logger LogStart ;;;
  try_except
    (all_products <- sweep env now searches [] ;;
     (if negb (is_nil all_products) && negb (is_nil (email_recipients env))
      then sent <- email_service env all_products ;; ret tt
      else ret tt) ;;;
     logger (LogJob "daily_scraping" "COMPLETED") ;;;
     logger (LogDone (List.length all_products)))
    (fun e =>
       logger (LogJob "daily_scraping" "FAILED") ;;;
       logger (LogJobError e)).

Definition _daily_scraping_job (env : Env) (now : timestamp) : Job unit :=
  daily_scraping env now default_searches.

End ScrapingScheduler.

(** ** What a sweep is expected to do, in the words of the specification *)

Module Sweep.
Import DatabaseManager ScrapingScheduler.

(** The search a pair asks of its scraper, when its site has one. *)
Definition call_of (search_config : SearchConfig)
  : list (ScraperFactory.scraper * string * Z) :=
  match ScraperFactory.create_scraper (site search_config) with
  | Returns scraper => [(scraper, search search_config, max_results search_config)]
  | Raises _ => []
  end.

(** The searches of a sweep: one for every pair with a supported site. *)
Definition searches_made (searches : list SearchConfig)
  : list (ScraperFactory.scraper * string * Z) :=
  flat_map call_of searches.

(** What the scraper of a pair answers when the pair is the [n]-th search of
    the run. *)
Definition attempt (env : Env) (n : nat) (search_config : SearchConfig)
  : outcome (list ProductData.t) :=
  match ScraperFactory.create_scraper (site search_config) with
  | Returns scraper =>
      search_products env n scraper (search search_config) (max_results search_config)
  | Raises e => Raises e
  end.

(** The listings a pair yields: those its scraper returns, none when the
    scraper or its creation raises. *)
Definition yield (env : Env) (n : nat) (search_config : SearchConfig)
  : list ProductData.t :=
  match attempt env n search_config with
  | Returns products => products
  | Raises _ => []
  end.

(** What a pair leaves in the log: its count of listings, or its error. *)
Definition log_of (search_config : SearchConfig)
    (answer : outcome (list ProductData.t)) : list LogRecord :=
  match answer with
  | Returns [] => []
  | Returns products => [LogPair search_config (List.length products)]
  | Raises e => [LogPairError search_config e]
  end.

Fixpoint sweep_log (env : Env) (n : nat) (searches : list SearchConfig)
  : list LogRecord :=
  match searches with
  | [] => []
  | search_config :: rest =>
      (log_of search_config (attempt env n search_config)
       ++ sweep_log env (n + List.length (call_of search_config)) rest)%list
  end.

(** The listings of all pairs, in order. *)
Fixpoint found_products (env : Env) (n : nat) (searches : list SearchConfig)
  : list ProductData.t :=
  match searches with
  | [] => []
  | search_config :: rest =>
      (yield env n search_config
       ++ found_products env (n + List.length (call_of search_config)) rest)%list
  end.

(** The pairs that yield at least one listing, each with its yield. *)
Fixpoint productive (env : Env) (n : nat) (searches : list SearchConfig)
  : list (SearchConfig * list ProductData.t) :=
  match searches with
  | [] => []
  | search_config :: rest =>
      let later := productive env (n + List.length (call_of search_config)) rest in
      match yield env n search_config with
      | [] => later
      | products => (search_config, products) :: later
      end
  end.

(** The session a productive pair leaves behind. *)
Definition session_of (now : timestamp)
    (entry : SearchConfig * list ProductData.t) (session : ScrapingSession.t) : Prop :=
  ScrapingSession.site session = Some (site (fst entry))
  /\ ScrapingSession.search_term session = Some (search (fst entry))
  /\ ScrapingSession.products_found session = Z.of_nat (List.length (snd entry))
  /\ ScrapingSession.products_saved session = Z.of_nat (List.length (snd entry))
  /\ ScrapingSession.success session = true
  /\ ScrapingSession.error_message session = None
  /\ ScrapingSession.completed_at session = Some now.

(** A step of a job that makes no search. *)
Definition silent {A : Type} (c : Job A) : Prop :=
  forall w, searched (snd (c w)) = searched w.

End Sweep.

(** ** [scrapers/base_scraper.py] and the search loop of the scrapers *)

Module BaseScraper.

(** The keyword arguments of a search: a filter that is not given is
    [None]. *)
Record Filters : Type := mkFilters {
  min_price : option float;
  max_price : option float;
  min_rating : option float;
  free_shipping_only : option bool;
  max_results : option Z
}.

Definition no_filters : Filters := mkFilters None None None None None.

(** Truth value of an optional float: [None] and zero are false. *)
Definition truthy_float (value : option float) : bool :=
  match value with
  | Some f => negb (PrimFloat.eqb f 0)
  | None => false
  end.

(** [url.startswith(('http://', 'https://'))] *)
Definition is_http (url : string) : bool :=
  prefix "http://" url || prefix "https://" url.

Definition _validate_product (product : ProductData.t) : bool :=
  if negb (truthy (ProductData.title product)) then false
  else if negb (truthy_float (ProductData.price product)) then false
  else if negb (truthy (ProductData.url product)) then false
  else if (get (ProductData.price product) 0 <=? 0)%float then false
  else
    let url := get (ProductData.url product) "" in
    if PyStr.is_empty url || negb (is_http url) then false else true.

(** [l[:k]]: a negative [k] counts from the end. *)
Definition slice_to {A : Type} (k : Z) (l : list A) : list A :=
  if (0 <=? k)%Z then firstn (Z.to_nat k) l
  else firstn (Z.to_nat (Z.of_nat (List.length l) + k)) l.

Definition price_at_least (bound : float) (product : ProductData.t) : bool :=
  (bound <=? get (ProductData.price product) 0)%float.

Definition price_at_most (bound : float) (product : ProductData.t) : bool :=
  (get (ProductData.price product) 0 <=? bound)%float.

Definition rating_at_least (bound : float) (product : ProductData.t) : bool :=
  (bound <=? get (ProductData.rating product) 0)%float.

Definition ships_free (product : ProductData.t) : bool :=
  get (ProductData.free_shipping product) false.

Definition _apply_filters (products : list ProductData.t) (filters : Filters)
  : list ProductData.t :=
  let filtered := products in
  let filtered :=
    match min_price filters with
    | Some bound => filter (price_at_least bound) filtered
    | None => filtered
    end in
  let filtered :=
    match max_price filters with
    | Some bound => filter (price_at_most bound) filtered
    | None => filtered
    end in
  let filtered :=
    match min_rating filters with
    | Some bound => filter (rating_at_least bound) filtered
    | None => filtered
    end in
  let filtered :=
    match free_shipping_only filters with
    | Some true => filter ships_free filtered
    | _ => filtered
    end in
  match max_results filters with
  | Some limit => slice_to limit filtered
  | None => filtered
  end.

(** What [_parse_product_element] gives for one element of a page: a
    dictionary, [None], or an exception. *)
Definition Element : Type := outcome (option ProductData.t).

Definition keep_element (element : Element) : list ProductData.t :=
  match element with
  | Returns (Some product) => if _validate_product product then [product] else []
  | _ => []
  end.

(** The loop of [_extract_products_from_page] over the elements found. *)
Definition _extract_products_from_page (elements : list Element)
  : list ProductData.t :=
  flat_map keep_element elements.

Definition no_items {A : Type} (l : list A) : bool :=
  match l with [] => true | _ => false end.

(** The [while] loop of [search_products], shared by the three scrapers.
    [fetch page] stands for the request of a page and its parsing: the
    elements found, [None] for an empty response, or an exception. The loop
    returns the pages it asked for and the products gathered. [pages_left]
    bounds the recursion; the loop itself stops once [page] passes 10. *)
Fixpoint request_pages (fetch : nat -> outcome (option (list Element)))
    (limit : Z) (pages_left : nat) (page : nat) (products : list ProductData.t)
  : list nat * list ProductData.t :=
  match pages_left with
  | O => ([], products)
  | S fewer =>
      if (Z.of_nat (List.length products) <? limit)%Z then
        match fetch page with
        | Returns (Some elements) =>
            let page_products := _extract_products_from_page elements in
            if no_items page_products then ([page], products)
            else if (10 <? page + 1)%nat then ([page], products ++ page_products)%list
            else
              let (asked, gathered) :=
                request_pages fetch limit fewer (page + 1)
                              (products ++ page_products)%list in
              (page :: asked, gathered)
        | _ => ([page], products)
        end
      else ([], products)
  end.

Definition search_products (fetch : nat -> outcome (option (list Element)))
    (filters : Filters) : list nat * list ProductData.t :=
  let (asked, products) :=
    request_pages fetch (get (max_results filters) 50%Z) 10 1 [] in
  (asked, _apply_filters products filters).

End BaseScraper.

(** ** The filters and the pages of a search, in one piece *)

Module SearchRules.
Import BaseScraper.

Definition given {A : Type} (bound : option A) (test : A -> bool) : bool :=
  match bound with
  | Some b => test b
  | None => true
  end.

(** A product that passes every filter that is given. *)
Definition passes (filters : Filters) (product : ProductData.t) : bool :=
  given (min_price filters) (fun bound => price_at_least bound product)
  && given (max_price filters) (fun bound => price_at_most bound product)
  && given (min_rating filters) (fun bound => rating_at_least bound product)
  && match free_shipping_only filters with
     | Some true => ships_free product
     | _ => true
     end.

(** The valid products of a page, none when the page could not be had. *)
Definition page_products (fetch : nat -> outcome (option (list Element)))
    (page : nat) : list ProductData.t :=
  match fetch page with
  | Returns (Some elements) => _extract_products_from_page elements
  | _ => []
  end.

End SearchRules.

From Stdlib Require Import Sorted Permutation.

(** ** [database/database.py]: the other queries *)

Module Queries.
Import DatabaseManager.

(** [order_by(key)]: rows in ascending order of [key]; rows with the same key
    keep the order of the table. *)
Fixpoint insert_by {A : Type} (key : A -> Z) (row : A) (sorted : list A) : list A :=
  match sorted with
  | [] => [row]
  | first :: rest =>
      if (key row <=? key first)%Z then row :: sorted
      else first :: insert_by key row rest
  end.

Definition order_by {A : Type} (key : A -> Z) (rows : list A) : list A :=
  fold_right (insert_by key) [] rows.

(** [order_by(desc(key))] *)
Definition order_by_desc {A : Type} (key : A -> Z) (rows : list A) : list A :=
  order_by (fun row => (- key row)%Z) rows.

Definition seconds_of_days (days : Z) : Z := (days * 86400)%Z.

Definition get_product_by_id (product_id : Z) (store : DB) : option Product.t :=
  find (fun p => (Product.id p =? product_id)%Z) (products store).


(** [limit] is the number of rows asked for, which is not negative. *)
Definition get_recent_sessions (limit : nat) (store : DB) : list ScrapingSession.t :=
  firstn limit (order_by_desc ScrapingSession.started_at (scraping_sessions store)).

(** [get_price_changes] as it runs on a session: one statement for the
    records of the window, then for each of them one for the record before
    it and, when the price moved, one for its product. *)
Definition query_previous (change : PriceHistory.t) : M (option PriceHistory.t) :=
  statement ;;;
  store <- read_txn ;;
  ret (previous_record store change).

Definition query_change (change : PriceHistory.t)
  : M (list (Product.t * PriceHistory.t * PriceHistory.t)) :=
  previous <- query_previous change ;;
  match previous with
  | Some previous =>
      if price_changed (PriceHistory.price previous) (PriceHistory.price change)
      then
        product <- query_product_first
                     (fun p => (Product.id p =? PriceHistory.product_id change)%Z) ;;
        match product with
        | Some product => ret [(product, previous, change)]
        | None => ret []
        end
      else ret []
  | None => ret []
  end.

Fixpoint query_changes (recent_changes : list PriceHistory.t)
  : M (list (Product.t * PriceHistory.t * PriceHistory.t)) :=
  match recent_changes with
  | [] => ret []
  | change :: rest =>
      found <- query_change change ;;
      others <- query_changes rest ;;
      ret (found ++ others)%list
  end.

(** [with self.get_session() as db: ...] without a handler: the session is
    closed on the way out and what was not committed is dropped. *)
Definition with_session {A : Type} (body : M A) (st : Storage)
  : outcome A * Storage :=
  let (result, s) := body (open_session st) in
  (result, close_session s).

Definition get_price_changes_on (hours : Z) (now : timestamp) (st : Storage)
  : outcome (list (Product.t * PriceHistory.t * PriceHistory.t)) * Storage :=
  with_session
    (statement ;;;
     store <- read_txn ;;
     query_changes
       (filter (fun h => (now - seconds_of_hours hours <=? PriceHistory.recorded_at h)%Z)
               (price_history store)))
    st.

End Queries.

(** ** [database/models.py]: the log of e-mails, and the whole database *)

Module EmailLog.
(** A row of [email_logs]. The column [recipients] holds the JSON text of a
    list; the row keeps the list. *)
Record t : Type := mk {
  id : Z;
  recipients : list string;
  subject : string;
  email_type : string;
  products_count : Z;
  has_attachments : bool;
  sent_successfully : bool;
  error_message : option string;
  sent_at : timestamp;
  session_id : option Z
}.
End EmailLog.

(** ** [database/database.py]: removal of old data *)

Module Maintenance.
Import DatabaseManager Queries.

(** The four tables. *)
Record Archive : Type := mkArchive {
  tables : DB;
  email_logs : list EmailLog.t
}.

(** The committed tables and the storage failures to come. *)
Record Vault : Type := mkVault {
  archive : Archive;
  failures : list bool
}.

(** A session on the four tables: what is committed, the view of the open
    transaction, and the failures to come. *)
Record Work : Type := mkWork {
  kept : Archive;
  draft : Archive;
  ahead : list bool
}.

Definition sql : Run Work unit :=
  fun s =>
    match ahead s with
    | true :: rest => (Raises SQLAlchemyError, mkWork (kept s) (draft s) rest)
    | false :: rest => (Returns tt, mkWork (kept s) (draft s) rest)
    | [] => (Returns tt, s)
    end.

Definition change_draft (f : Archive -> Archive) : Run Work unit :=
  fun s => (Returns tt, mkWork (kept s) (f (draft s)) (ahead s)).

(** [db.query(T).filter(T.column < cutoff_date).delete()] on each table. *)
Definition delete_old_history (cutoff_date : timestamp) : Run Work unit :=
  sql ;;;
  change_draft (fun a =>
    mkArchive
      (mkDB (products (tables a))
            (filter (fun h => negb (PriceHistory.recorded_at h <? cutoff_date)%Z)
                    (price_history (tables a)))
            (scraping_sessions (tables a)))
      (email_logs a)).

Definition delete_old_sessions (cutoff_date : timestamp) : Run Work unit :=
  sql ;;;
  change_draft (fun a =>
    mkArchive
      (mkDB (products (tables a)) (price_history (tables a))
            (filter (fun s => negb (ScrapingSession.started_at s <? cutoff_date)%Z)
                    (scraping_sessions (tables a))))
      (email_logs a)).

Definition delete_old_emails (cutoff_date : timestamp) : Run Work unit :=
  sql ;;;
  change_draft (fun a =>
    mkArchive (tables a)
      (filter (fun e => negb (EmailLog.sent_at e <? cutoff_date)%Z) (email_logs a))).

Definition commit_work : Run Work unit :=
  sql ;;;
  fun s => (Returns tt, mkWork (draft s) (draft s) (ahead s)).

Definition rollback_work : Run Work unit :=
  fun s => (Returns tt, mkWork (kept s) (kept s) (ahead s)).

Definition cleanup_old_data (days : Z) (now : timestamp) (v : Vault)
  : outcome unit * Vault :=
  let cutoff_date := (now - seconds_of_days days)%Z in
  let body :=
    delete_old_history cutoff_date ;;;
    delete_old_sessions cutoff_date ;;;
    delete_old_emails cutoff_date ;;;
    commit_work in
  match body (mkWork (archive v) (archive v) (failures v)) with
  | (Returns _, s) => (Returns tt, mkVault (kept s) (ahead s))
  | (Raises SQLAlchemyError, s) =>
      (Raises SQLAlchemyError, mkVault (kept (snd (rollback_work s))) (ahead s))
  | (Raises e, s) => (Raises e, mkVault (kept s) (ahead s))
  end.

(** The tables with everything recorded before [cutoff_date] removed. *)
Definition retained (cutoff_date : timestamp) (a : Archive) : Archive :=
  mkArchive
    (mkDB (products (tables a))
          (filter (fun h => (cutoff_date <=? PriceHistory.recorded_at h)%Z)
                  (price_history (tables a)))
          (filter (fun s => (cutoff_date <=? ScrapingSession.started_at s)%Z)
                  (scraping_sessions (tables a))))
    (filter (fun e => (cutoff_date <=? EmailLog.sent_at e)%Z) (email_logs a)).

End Maintenance.

(** ** What the tables are expected to satisfy *)

Module Integrity.

Fixpoint distinct (keys : list Z) : bool :=
  match keys with
  | [] => true
  | key :: rest => negb (existsb (Z.eqb key) rest) && distinct rest
  end.

(** The keys of the products and of the price records are primary keys, and
    every price record belongs to a stored product. *)
Definition consistent (store : DB) : bool :=
  distinct (map Product.id (products store))
  && distinct (map PriceHistory.id (price_history store))
  && forallb
       (fun h => existsb (Z.eqb (PriceHistory.product_id h))
                         (map Product.id (products store)))
       (price_history store).

(** The same, as a proposition. *)
Definition well_formed (store : DB) : Prop :=
  NoDup (map Product.id (products store))
  /\ NoDup (map PriceHistory.id (price_history store))
  /\ Forall (fun h => In (PriceHistory.product_id h) (map Product.id (products store)))
            (price_history store).

(** Price records waiting for the flush belong to stored products. *)
Definition owned (store : DB) (pending : list PriceHistory.args) : Prop :=
  Forall (fun a => In (PriceHistory.arg_product_id a) (map Product.id (products store)))
         pending.

(** A price record as a batch adds it: taken now, under the session of the
    batch, with no discount, at the price of one of the records. *)
Definition batch_row (products_data : list ProductData.t) (session_id : option Z)
    (now : timestamp) (row : PriceHistory.t) : Prop :=
  PriceHistory.recorded_at row = now
  /\ PriceHistory.session_id row = session_id
  /\ PriceHistory.discount_percent row = 0%float
  /\ exists product_data,
       In product_data products_data
       /\ PriceHistory.price row = get (ProductData.price product_data) 0%float
       /\ PriceHistory.original_price row = ProductData.original_price product_data.

(** The columns that say which listing a row stands for. *)
Definition same_listing (p q : Product.t) : Prop :=
  Product.id p = Product.id q
  /\ Product.url p = Product.url q
  /\ Product.site p = Product.site q
  /\ Product.external_id p = Product.external_id q
  /\ Product.currency p = Product.currency q
  /\ Product.first_seen p = Product.first_seen q.

(** The rows of [old] are still there, in place, as the same listings, and
    rows may have been appended. *)
Definition grows (old new : list Product.t) : Prop :=
  exists kept added, new = (kept ++ added)%list /\ Forall2 same_listing old kept.

(** The place of the first statement that fails under a plan of storage
    failures, counted from 0. *)
Fixpoint first_failure (plan : list bool) : option nat :=
  match plan with
  | [] => None
  | true :: _ => Some 0%nat
  | false :: rest => option_map S (first_failure rest)
  end.

End Integrity.

(** ** [scheduler.py]: the maintenance jobs *)

Module MaintenanceJobs.
Import DatabaseManager Queries Maintenance.

(** An entry of the list handed to the mail service for a price alert. *)
Record PriceChange : Type := mkChange {
  product : Product.t;
  old_price : float;
  new_price : float
}.


Inductive Note : Type :=
| JobStarted (job_name : string)
| JobStatus (job_name status : string)
| JobFinished (job_name : string)
| JobError (job_name : string) (e : exn)
| AlertSent (count : nat).

(** The state a maintenance job runs on: the database, the alerts handed to
    the mail service so far, and the log. *)
Record Office : Type := mkOffice {
  vault : Vault;
  alerts : list (list PriceChange * list string);
  notes : list Note
}.

Definition Task (A : Type) : Type := Run Office A.

Definition note (entry : Note) : Task unit :=
  fun o => (Returns tt, mkOffice (vault o) (alerts o) (notes o ++ [entry])).

(** A call of the database manager on the four tables. *)
Definition on_vault {A : Type} (call : Vault -> outcome A * Vault) : Task A :=
  fun o =>
    let (result, v) := call (vault o) in
    (result, mkOffice v (alerts o) (notes o)).



Definition _weekly_cleanup_job (now : timestamp) : Task unit :=
  note (JobStarted "weekly_cleanup") ;;;
  try_except
    (on_vault (cleanup_old_data 90 now) ;;;
     note (JobStatus "weekly_cleanup" "COMPLETED") ;;;
     note (JobFinished "weekly_cleanup"))
    (fun e =>
       note (JobStatus "weekly_cleanup" "FAILED") ;;;
       note (JobError "weekly_cleanup" e)).



End MaintenanceJobs.

(** ** Regular expressions, as far as [utils/helpers.py] uses them *)

Module Regex.

Inductive re : Type :=
| Nothing
| Empty
| Class (accepts : ascii -> bool)
| Cat (first second : re)
| Alt (one other : re)
| Star (body : re).

(** [r+] and [r{2,}] *)
Definition Plus (r : re) : re := Cat r (Star r).
Definition TwoOrMore (r : re) : re := Cat r (Plus r).

Definition Char (c : ascii) : re := Class (Ascii.eqb c).

Fixpoint nullable (r : re) : bool :=
  match r with
  | Nothing => false
  | Empty => true
  | Class _ => false
  | Cat first second => nullable first && nullable second
  | Alt one other => nullable one || nullable other
  | Star _ => true
  end.

(** What is left of [r] to match once [c] has been read. *)
Fixpoint derive (c : ascii) (r : re) : re :=
  match r with
  | Nothing => Nothing
  | Empty => Nothing
  | Class accepts => if accepts c then Empty else Nothing
  | Cat first second =>
      if nullable first
      then Alt (Cat (derive c first) second) (derive c second)
      else Cat (derive c first) second
  | Alt one other => Alt (derive c one) (derive c other)
  | Star body => Cat (derive c body) (Star body)
  end.

(** Whether the whole of [s] matches [r]. *)
Fixpoint fullmatch (r : re) (s : string) : bool :=
  match s with
  | EmptyString => nullable r
  | String c rest => fullmatch (derive c r) rest
  end.

(** [re.match('^' + r + '$', s)]: the end of the pattern is the end of the
    text or the line feed that ends it. *)
Definition line_feed : ascii := ascii_of_nat 10.

Definition match_line (r : re) (s : string) : bool :=
  fullmatch (Cat r (Alt Empty (Char line_feed))) s.

(** The texts that match, as a relation. *)
Inductive matches : re -> string -> Prop :=
| matches_empty : matches Empty EmptyString
| matches_class (accepts : ascii -> bool) (c : ascii) :
    accepts c = true -> matches (Class accepts) (String c EmptyString)
| matches_cat (first second : re) (s t : string) :
    matches first s -> matches second t -> matches (Cat first second) (s ++ t)
| matches_one (one other : re) (s : string) :
    matches one s -> matches (Alt one other) s
| matches_other (one other : re) (s : string) :
    matches other s -> matches (Alt one other) s
| matches_star_none (body : re) : matches (Star body) EmptyString
| matches_star_more (body : re) (s t : string) :
    matches body s -> matches (Star body) t -> matches (Star body) (s ++ t).

End Regex.

(** ** [utils/helpers.py]: retries, numbers, truncation, e-mail addresses *)

Module Utils.






(** The first run of digits of a text whose decimal digits are written in
    ASCII. *)
Fixpoint first_digits (s : string) : option string :=
  match s with
  | EmptyString => None
  | String c rest =>
      if PyStr.is_digit c then Some (PyStr.take_digits s) else first_digits rest
  end.

(** [int] of a run of digits written in ASCII; it refuses a numeral of more
    than 4300 digits with a [ValueError]. *)
Definition int_max_str_digits : nat := 4300.

Definition int_of_str (digits : string) : outcome Z :=
  if (int_max_str_digits <? String.length digits)%nat then Raises ValueError
  else Returns (PyStr.int_of_digits 0 digits).

Section Numbers.
Context {U : PyStr.Unicode}.

(** [re.search(r'(\d+)', str(text))]: the first run of decimal digits, of
    whatever script, given with its digits written in ASCII, as [int] reads
    it. *)
Definition search_digits (text : string) : option string :=
  first_digits (PyStr.decimal text).

Definition extract_number (text : option string) : Z :=
  match text with
  | None | Some EmptyString => 0%Z
  | Some text =>
      match search_digits text with
      | Some number_match =>
          match int_of_str number_match with
          | Returns number => number
          | Raises _ => 0%Z
          end
      | None => 0%Z
      end
  end.

End Numbers.

(** A text is the list of its characters, whatever a character is. *)
Definition truncate_text {char : Type} (text : list char) (max_length : Z)
    (suffix : list char) : list char :=
  if ScrapingScheduler.is_nil text || (Z.of_nat (List.length text) <=? max_length)%Z
  then text
  else (BaseScraper.slice_to (max_length - Z.of_nat (List.length suffix)) text
        ++ suffix)%list.

Definition in_range (low high : string) (c : ascii) : bool :=
  match low, high with
  | String l EmptyString, String h EmptyString =>
      (nat_of_ascii l <=? nat_of_ascii c)%nat && (nat_of_ascii c <=? nat_of_ascii h)%nat
  | _, _ => false
  end.

Definition letter (c : ascii) : bool := in_range "a" "z" c || in_range "A" "Z" c.

Definition alphanumeric (c : ascii) : bool := letter c || in_range "0" "9" c.

(** [[a-zA-Z0-9._%+-]] *)
Definition local_char (c : ascii) : bool :=
  alphanumeric c
  || Ascii.eqb c "." || Ascii.eqb c "_" || Ascii.eqb c "%" || Ascii.eqb c "+"
  || Ascii.eqb c "-".

(** [[a-zA-Z0-9.-]] *)
Definition domain_char (c : ascii) : bool :=
  alphanumeric c || Ascii.eqb c "." || Ascii.eqb c "-".

Definition pattern : Regex.re :=
  Regex.Cat (Regex.Plus (Regex.Class local_char))
    (Regex.Cat (Regex.Char "@")
       (Regex.Cat (Regex.Plus (Regex.Class domain_char))
          (Regex.Cat (Regex.Char ".") (Regex.TwoOrMore (Regex.Class letter))))).

Definition validate_email (email : option string) : bool :=
  match email with
  | None | Some EmptyString => false
  | Some email => Regex.match_line pattern email
  end.

(** Every character of [s] passes [test]. *)
Fixpoint all_chars (test : ascii -> bool) (s : string) : bool :=
  match s with
  | EmptyString => true
  | String c rest => test c && all_chars test rest
  end.

Definition calculate_percentage_change (old_value new_value : float) : float :=
  if (old_value =? 0)%float then 0%float
  else ((new_value - old_value) / old_value * 100)%float.

End Utils.

(** ** The price of a listing, as the Amazon and Mercado Livre scrapers read it *)

Module ListingPrice.
Import PyStr Helpers.

Section Prices.
Context {U : Unicode}.

(** [_extract_price] of [scrapers/base_scraper.py] with a selector: [target]
    is the text of the element the selector finds, [None] when it finds
    none. *)
Definition _extract_price (target : option string) (default : float) : outcome float :=
  match target with
  | Some text =>
      match format_price (Some text) with
      | Returns price => Returns price
      | Raises AttributeError => Returns default
      | Raises (OtherError name) =>
          if String.eqb name "TypeError" then Returns default
          else Raises (OtherError name)
      | Raises e => Raises e
      end
  | None => Returns default
  end.

(** The loop over the price selectors: the first price above zero ends it;
    otherwise the price is what the last selector gave. *)
Fixpoint price_loop (targets : list (option string)) (price : float) : outcome float :=
  match targets with
  | [] => Returns price
  | target :: rest =>
      match _extract_price target 0 with
      | Returns price =>
          if PyFloat.gt price 0 then Returns price else price_loop rest price
      | Raises e => Raises e
      end
  end.

Definition listing_price (targets : list (option string)) : outcome float :=
  price_loop targets 0.

(** A price text [format_price] cannot read: one that is degenerate, or one
    whose last period comes after its last comma. *)
Definition unreadable (target : option string) : Prop :=
  match target with
  | None => True
  | Some text =>
      degenerate (Some text)
      \/ exists i j,
           rindex comma (clean text) = Some i
           /\ rindex period (clean text) = Some j
           /\ (i < j)%nat
  end.

End Prices.

End ListingPrice.

(** * Properties *)

(** ** Floats *)

Section FloatFacts.

Lemma ltb_leb (x y : float) : (x <? y)%float = true -> (x <=? y)%float = true.
Proof.
  rewrite ltb_spec, leb_spec. unfold SFltb, SFleb.
  destruct (SFcompare (Prim2SF x) (Prim2SF y)) as [[ | | ] | ]; congruence.
Qed.

Lemma leb_not_gt (x y : float) : (x <=? y)%float = true -> (y <? x)%float = false.
Proof.
  rewrite ltb_spec, leb_spec. unfold SFltb, SFleb.
  destruct (Prim2SF x) as [[ | ] | [ | ] | | [ | ] m e],
           (Prim2SF y) as [[ | ] | [ | ] | | [ | ] m' e'];
    simpl; try congruence.
  all: rewrite (Z.compare_antisym e e'); destruct (e ?= e')%Z; simpl; try congruence.
  all: assert (Hswap : Pos.compare_cont Eq m m' = CompOpp (Pos.compare_cont Eq m' m))
         by (rewrite Pos.compare_cont_antisym; reflexivity).
  all: rewrite Hswap; destruct (Pos.compare_cont Eq m' m); simpl; congruence.
Qed.

(** A clamped rating lies between 0 and 5, whatever was parsed. *)
Lemma clamp_range (r : float) :
  (0 <=? PyFloat.min 5 (PyFloat.max 0 r))%float = true
  /\ (PyFloat.min 5 (PyFloat.max 0 r) <=? 5)%float = true.
Proof.
  unfold PyFloat.min, PyFloat.max, PyFloat.gt.
  destruct (0 <? r)%float eqn:Hpos.
  - destruct (r <? 5)%float eqn:Hlt.
    + split; apply ltb_leb; assumption.
    + split; reflexivity.
  - split; reflexivity.
Qed.

(** [abs(x - x) > 0.01] is false for every float, the infinities and NaN
    included. *)
Lemma same_price_unchanged (x : float) :
  DatabaseManager.price_changed x x = false.
Proof.
  unfold DatabaseManager.price_changed, PyFloat.gt.
  rewrite ltb_spec, abs_spec, sub_spec.
  destruct (Prim2SF x) as [s | s | | s m e].
  - destruct s; reflexivity.
  - destruct s; reflexivity.
  - reflexivity.
  - unfold SF64sub, SFsub. rewrite Z.sub_diag. reflexivity.
Qed.

(** A stored price above the threshold, overwritten with [0.0], counts as a
    change. *)
Lemma drop_to_zero_changed (old_price : float) :
  (0.01 <? old_price)%float = true ->
  DatabaseManager.price_changed old_price 0%float = true.
Proof.
  unfold DatabaseManager.price_changed, PyFloat.gt.
  rewrite !ltb_spec, abs_spec, sub_spec.
  change (Prim2SF 0%float) with (S754_zero false).
  change (Prim2SF 0.01%float) with (S754_finite false 5764607523034235 (-59)).
  destruct (Prim2SF old_price) as [[ | ] | [ | ] | | [ | ] m e]; simpl;
    try congruence.
  all: cbv [SFltb SFcompare]; congruence.
Qed.

End FloatFacts.

(** ** Strings and numerals *)

Section StringFacts.
Import PyStr.

Lemma append_nil_r (s : string) : s ++ "" = s.
Proof.
  induction s as [ | c s IH]; simpl; [reflexivity | rewrite IH; reflexivity].
Qed.

Lemma take_drop_digits (s : string) : take_digits s ++ drop_digits s = s.
Proof.
  induction s as [ | c s IH]; simpl; [reflexivity | ].
  destruct (is_digit c); simpl; [rewrite IH | ]; reflexivity.
Qed.

Lemma take_digits_all (s : string) : all_digits (take_digits s) = true.
Proof.
  induction s as [ | c s IH]; simpl; [reflexivity | ].
  destruct (is_digit c) eqn:Hc; simpl; [rewrite Hc, IH | ]; reflexivity.
Qed.

Lemma digit_not_char (c d : ascii) :
  is_digit d = false -> is_digit c = true -> Ascii.eqb d c = false.
Proof.
  intros Hd Hc. destruct (Ascii.eqb d c) eqn:E; [ | reflexivity].
  apply Ascii.eqb_eq in E. subst. congruence.
Qed.

Lemma all_digits_contains (d : ascii) (s : string) :
  is_digit d = false -> all_digits s = true -> contains d s = false.
Proof.
  intros Hd. induction s as [ | c s IH]; simpl; [reflexivity | ].
  intros H. apply andb_true_iff in H as [Hc Hs].
  rewrite (digit_not_char c d Hd Hc), IH by assumption. reflexivity.
Qed.

Lemma contains_app (d : ascii) (s t : string) :
  contains d (s ++ t) = contains d s || contains d t.
Proof.
  induction s as [ | c s IH]; simpl; [reflexivity | ].
  rewrite IH, orb_assoc. reflexivity.
Qed.

Lemma has_digit_app (s t : string) :
  has_digit (s ++ t) = has_digit s || has_digit t.
Proof.
  induction s as [ | c s IH]; simpl; [reflexivity | ].
  rewrite IH, orb_assoc. reflexivity.
Qed.

Lemma all_digits_has_digit (s : string) :
  all_digits s = true -> is_empty s = false -> has_digit s = true.
Proof.
  destruct s as [ | c s]; simpl; [discriminate | ].
  intros H _. apply andb_true_iff in H as [Hc _]. rewrite Hc. reflexivity.
Qed.

(** What [float()] accepts: digits, then possibly a period and digits, with a
    digit somewhere. *)
Lemma to_float_shape (s : string) (f : float) :
  to_float s = Some f ->
  exists whole frac,
    all_digits whole = true /\ all_digits frac = true
    /\ (is_empty whole && is_empty frac = false)
    /\ (s = whole \/ s = whole ++ String period frac).
Proof.
  unfold to_float. intros H.
  pose proof (take_drop_digits s) as Hs.
  pose proof (take_digits_all s) as Hall.
  destruct (drop_digits s) as [ | c fp] eqn:Hd.
  - destruct (is_empty (take_digits s)) eqn:He; [discriminate | ].
    exists (take_digits s), EmptyString. repeat split; auto.
    + rewrite He. reflexivity.
    + left. rewrite append_nil_r in Hs. congruence.
  - destruct (Ascii.eqb c period) eqn:Hc; simpl in H; [ | discriminate].
    destruct (all_digits fp) eqn:Hfp; simpl in H; [ | discriminate].
    destruct (is_empty (take_digits s) && is_empty fp) eqn:He; simpl in H;
      [discriminate | ].
    apply Ascii.eqb_eq in Hc. subst c.
    exists (take_digits s), fp. repeat split; auto.
Qed.

Lemma to_float_no_comma (s : string) (f : float) :
  to_float s = Some f -> contains comma s = false.
Proof.
  intros H. destruct (to_float_shape s f H) as (w & fr & Hw & Hf & _ & [Hs | Hs]);
    subst s.
  - apply all_digits_contains; [reflexivity | assumption].
  - rewrite contains_app. simpl.
    rewrite !all_digits_contains by (reflexivity || assumption). reflexivity.
Qed.

Lemma to_float_has_digit (s : string) (f : float) :
  to_float s = Some f -> has_digit s = true.
Proof.
  intros H. destruct (to_float_shape s f H) as (w & fr & Hw & Hf & He & [Hs | Hs]);
    subst s.
  - apply all_digits_has_digit; [assumption | ].
    destruct w; [discriminate | reflexivity].
  - rewrite has_digit_app. simpl.
    destruct w as [ | c w]; simpl in *.
    + rewrite (all_digits_has_digit fr) by (assumption || (destruct fr; simpl in *; congruence)).
      reflexivity.
    + apply andb_true_iff in Hw as [Hc _]. rewrite Hc. reflexivity.
Qed.

End StringFacts.

(** ** [format_price] *)

Section FormatPrice.
Import PyStr Helpers.
Context {U : Unicode}.

Lemma rindex_contains (c : ascii) (s : string) (i : nat) :
  rindex c s = Some i -> contains c s = true.
Proof.
  revert i. induction s as [ | d s IH]; simpl; intros i H; [discriminate | ].
  destruct (rindex c s) as [k | ].
  - rewrite (IH k eq_refl). apply orb_true_r.
  - destruct (Ascii.eqb c d); [reflexivity | discriminate].
Qed.

Lemma contains_is_empty (c : ascii) (s : string) :
  contains c s = true -> is_empty s = false.
Proof. destruct s; simpl; [discriminate | reflexivity]. Qed.

Lemma has_digit_keep (p : ascii -> bool) (s : string) :
  has_digit s = false -> has_digit (keep p s) = false.
Proof.
  induction s as [ | c s IH]; simpl; [reflexivity | ].
  intros H. apply orb_false_iff in H as [Hc Hs].
  destruct (p c); simpl; [rewrite Hc | ]; auto.
Qed.

Lemma has_digit_replace (c d : ascii) (s : string) :
  is_digit d = false -> has_digit s = false -> has_digit (replace c d s) = false.
Proof.
  intros Hd. induction s as [ | e s IH]; simpl; [reflexivity | ].
  intros H. apply orb_false_iff in H as [He Hs].
  rewrite (IH Hs). destruct (Ascii.eqb c e); [rewrite Hd | rewrite He]; reflexivity.
Qed.

Lemma to_float_without_digit (s : string) :
  has_digit s = false -> to_float s = None.
Proof.
  intros H. destruct (to_float s) as [f | ] eqn:E; [ | reflexivity].
  apply to_float_has_digit in E. congruence.
Qed.

Lemma normalise_separators_raises (price_clean : string) (e : exn) :
  normalise_separators price_clean = Raises e -> e = ValueError.
Proof.
  unfold normalise_separators.
  repeat match goal with
         | |- context [match ?x with _ => _ end] => destruct x
         end; congruence.
Qed.

(** The [try] block raises nothing but [ValueError]. *)
Lemma format_price_try_raises (price_clean : string) (e : exn) :
  format_price_try price_clean = Raises e -> e = ValueError.
Proof.
  unfold format_price_try.
  destruct (normalise_separators price_clean) as [text | e0] eqn:E.
  - destruct (to_float text); congruence.
  - intros H. inversion H; subst. exact (normalise_separators_raises _ _ E).
Qed.

Lemma normalise_separators_without_digit (price_clean text : string) :
  has_digit price_clean = false ->
  normalise_separators price_clean = Returns text -> has_digit text = false.
Proof.
  intros H. unfold normalise_separators.
  assert (Hrep : has_digit (replace comma period price_clean) = false)
    by (apply has_digit_replace; [reflexivity | assumption]).
  assert (Hrem : has_digit (replace comma period (remove period price_clean)) = false)
    by (apply has_digit_replace; [reflexivity | ]; apply has_digit_keep; assumption).
  repeat match goal with
         | |- context [match ?x with _ => _ end] => destruct x
         end; intros E; inversion E; subst; assumption.
Qed.

Lemma format_price_try_without_digit (price_clean : string) :
  has_digit price_clean = false -> format_price_try price_clean = Raises ValueError.
Proof.
  intros H. unfold format_price_try.
  destruct (normalise_separators price_clean) as [text | e] eqn:E.
  - rewrite (to_float_without_digit text); [reflexivity | ].
    exact (normalise_separators_without_digit _ _ H E).
  - rewrite (normalise_separators_raises _ _ E). reflexivity.
Qed.

Lemma format_price_caught (text : string) :
  exists f,
    format_price (Some text) = Returns f
    /\ (forall e, format_price_try (clean text) = Raises e -> f = 0%float).
Proof.
  unfold format_price. destruct text as [ | c text].
  - exists 0%float. split; [reflexivity | reflexivity].
  - destruct (is_empty (clean (String c text))).
    + exists 0%float. split; reflexivity.
    + destruct (format_price_try (clean (String c text))) as [f | e] eqn:E.
      * exists f. split; [reflexivity | discriminate].
      * rewrite (format_price_try_raises _ _ E). exists 0%float. split; reflexivity.
Qed.

(** C9. [format_price] returns a float on every input and never raises; on
    [None], on the empty text, on a text without a decimal digit of any
    script and on a text whose cleaned form cannot be parsed, the float is
    exactly [0.0]. *)
Theorem format_price_total (price_text : option string) :
  exists f,
    format_price price_text = Returns f
    /\ (degenerate price_text -> f = 0%float).
Proof.
  destruct price_text as [text | ].
  - destruct (format_price_caught text) as (f & Hf & Hcatch).
    exists f. split; [assumption | ].
    intros Hdeg. inversion Hdeg as [ | | t Hnone | t e Hraise]; subst.
    + simpl in Hf. congruence.
    + apply (Hcatch ValueError).
      apply format_price_try_without_digit. unfold clean.
      apply has_digit_keep. assumption.
    + apply (Hcatch e). assumption.
  - exists 0%float. split; reflexivity.
Qed.

End FormatPrice.

Section FormatPriceWitness.
Import PyStr Helpers.
Local Existing Instance unicode_14_0.

Lemma format_price_total_witness :
  format_price (Some "R$ ١.٢.٣") = Returns 0%float.
Proof.
  destruct (format_price_total (Some "R$ ١.٢.٣")) as (f & Hf & Hzero).
  rewrite Hf. f_equal. apply Hzero.
  apply degenerate_unparseable with (e := ValueError). vm_compute. reflexivity.
Defined.

End FormatPriceWitness.

Section Separators.
Import PyStr Helpers.
Context {U : Unicode}.

Lemma format_price_of_clean (text : string) :
  is_empty (clean text) = false ->
  format_price (Some text)
  = match format_price_try (clean text) with
    | Returns f => Returns f
    | Raises _ => Returns 0%float
    end.
Proof.
  intros Hne. unfold format_price.
  destruct text as [ | c text]; [cbv in Hne; discriminate | ].
  rewrite Hne.
  destruct (format_price_try (clean (String c text))) as [f | e] eqn:E;
    [reflexivity | ].
  rewrite (format_price_try_raises _ _ E). reflexivity.
Qed.

Lemma split_without (c : ascii) (s : string) :
  contains c s = false -> split c s = [s].
Proof.
  induction s as [ | d s IH]; simpl; [reflexivity | ].
  intros H. apply orb_false_iff in H as [Hd Hs].
  rewrite Hd, (IH Hs). reflexivity.
Qed.

Lemma split_once (c : ascii) (s t : string) :
  contains c s = false -> contains c t = false ->
  split c (s ++ String c t) = [s; t].
Proof.
  intros Hs Ht. induction s as [ | d s IH]; simpl.
  - rewrite Ascii.eqb_refl, (split_without c t Ht). reflexivity.
  - simpl in Hs. apply orb_false_iff in Hs as [Hd Hs].
    rewrite Hd, (IH Hs). reflexivity.
Qed.

Lemma replace_without (c d : ascii) (s : string) :
  contains c s = false -> replace c d s = s.
Proof.
  induction s as [ | e s IH]; simpl; [reflexivity | ].
  intros H. apply orb_false_iff in H as [He Hs].
  rewrite He, (IH Hs). reflexivity.
Qed.

Lemma replace_cons (c d e : ascii) (s : string) :
  replace c d (String e s) = String (if Ascii.eqb c e then d else e) (replace c d s).
Proof. reflexivity. Qed.

Lemma replace_app (c d : ascii) (s t : string) :
  replace c d (s ++ t) = replace c d s ++ replace c d t.
Proof.
  induction s as [ | e s IH]; simpl; [reflexivity | rewrite IH; reflexivity].
Qed.

(** When the last period comes after the last comma the text is left as it
    is, and [float()] refuses the comma. *)
Lemma format_price_period_last (text : string) (i j : nat) :
  rindex comma (clean text) = Some i ->
  rindex period (clean text) = Some j ->
  (i < j)%nat ->
  format_price (Some text) = Returns 0%float.
Proof.
  intros Hi Hj Hlt.
  pose proof (rindex_contains _ _ _ Hi) as Hc.
  pose proof (rindex_contains _ _ _ Hj) as Hp.
  rewrite format_price_of_clean by (eapply contains_is_empty; eassumption).
  unfold format_price_try, normalise_separators. rewrite Hc, Hp, Hi, Hj. simpl.
  replace (j <? i)%nat with false by (symmetry; apply Nat.ltb_ge; lia).
  destruct (to_float (clean text)) as [f | ] eqn:E; [ | reflexivity].
  apply to_float_no_comma in E. congruence.
Qed.

(** C2. Reading of the separators by [format_price], on the cleaned text,
    in which the decimal digits of whatever script are written in ASCII:
    when the last comma comes after the last period, the periods are dropped
    and the comma is the decimal separator; when a single comma is followed
    by at most two characters and there is no period, the comma is the decimal
    separator; but when the last period comes after the last comma the result
    is [0.0]: the comma is not dropped. So ["1.234,56"], ["99,90"] and
    ["1234"] are read as 1234.56, 99.90 and 1234.0, and ["1,234.56"] as 0.0. *)
Theorem format_price_separators :
  (forall text i j,
      rindex comma (clean text) = Some i ->
      rindex period (clean text) = Some j ->
      (j < i)%nat ->
      format_price (Some text)
      = Returns (get (to_float (replace comma period
                                  (remove period (clean text)))) 0%float))
  /\ (forall text whole cents,
         clean text = whole ++ String comma cents ->
         contains comma whole = false -> contains period whole = false ->
         contains comma cents = false -> contains period cents = false ->
         (String.length cents <= 2)%nat ->
         format_price (Some text)
         = Returns (get (to_float (whole ++ String period cents)) 0%float))
  /\ (forall text i j,
         rindex comma (clean text) = Some i ->
         rindex period (clean text) = Some j ->
         (i < j)%nat ->
         format_price (Some text) = Returns 0%float)
  /\ format_price (Some "1.234,56") = Returns 1234.56%float
  /\ format_price (Some "1,234.56") = Returns 0%float
  /\ format_price (Some "99,90") = Returns 99.90%float
  /\ format_price (Some "1234") = Returns 1234%float.
Proof.
  split; [ | split; [ | split; [ | repeat split; vm_compute; reflexivity]]].
  - intros text i j Hi Hj Hlt.
    pose proof (rindex_contains _ _ _ Hi) as Hc.
    pose proof (rindex_contains _ _ _ Hj) as Hp.
    rewrite format_price_of_clean by (eapply contains_is_empty; eassumption).
    unfold format_price_try, normalise_separators. rewrite Hc, Hp, Hi, Hj. simpl.
    replace (j <? i)%nat with true by (symmetry; apply Nat.ltb_lt; lia).
    destruct (to_float _); reflexivity.
  - intros text whole cents Hclean Hcw Hpw Hcc Hpc Hlen.
    assert (Hc : contains comma (clean text) = true)
      by (rewrite Hclean, contains_app; simpl; apply orb_true_r).
    assert (Hp : contains period (clean text) = false)
      by (rewrite Hclean, contains_app; simpl; rewrite Hpw, Hpc; reflexivity).
    rewrite format_price_of_clean by (eapply contains_is_empty; eassumption).
    unfold format_price_try, normalise_separators. rewrite Hc, Hp. simpl.
    rewrite Hclean, (split_once comma whole cents Hcw Hcc).
    replace (String.length cents <=? 2)%nat with true
      by (symmetry; apply Nat.leb_le; assumption).
    rewrite replace_app. simpl.
    rewrite !replace_without by assumption.
    destruct (to_float _); reflexivity.
  - exact format_price_period_last.
Qed.

End Separators.

Section SeparatorsWitness.
Import PyStr Helpers.
Local Existing Instance unicode_14_0.

Lemma format_price_separators_witness :
  format_price (Some "US $1,234.56") = Returns 0%float.
Proof.
  destruct format_price_separators as (_ & _ & Hperiod & _).
  apply (Hperiod "US $1,234.56" 1%nat 5%nat); vm_compute; [reflexivity | reflexivity | lia].
Defined.

End SeparatorsWitness.


(** ** [extract_rating] *)

Section Rating.
Import PyStr Helpers.

Lemma take_digits_app (w t : string) (x : ascii) :
  all_digits w = true -> is_digit x = false ->
  take_digits (w ++ String x t) = w /\ drop_digits (w ++ String x t) = String x t.
Proof.
  intros Hw Hx. induction w as [ | c w IH]; simpl.
  - rewrite Hx. split; reflexivity.
  - simpl in Hw. apply andb_true_iff in Hw as [Hc Hw].
    rewrite Hc. destruct (IH Hw) as [-> ->]. split; reflexivity.
Qed.

Lemma take_digits_id (w : string) :
  all_digits w = true -> take_digits w = w /\ drop_digits w = EmptyString.
Proof.
  induction w as [ | c w IH]; simpl; [split; reflexivity | ].
  intros H. apply andb_true_iff in H as [Hc Hw].
  rewrite Hc. destruct (IH Hw) as [-> ->]. split; reflexivity.
Qed.

Lemma to_float_digits (w : string) :
  all_digits w = true -> is_empty w = false -> exists f, to_float w = Some f.
Proof.
  intros Hw Hne. unfold to_float.
  destruct (take_digits_id w Hw) as [-> ->]. rewrite Hne. eauto.
Qed.

Lemma to_float_decimal (w fr : string) :
  all_digits w = true -> all_digits fr = true -> is_empty w = false ->
  exists f, to_float (w ++ String period fr) = Some f.
Proof.
  intros Hw Hfr Hne. unfold to_float.
  destruct (take_digits_app w fr period Hw eq_refl) as [-> ->].
  rewrite Hfr, Hne. simpl. eauto.
Qed.

(** [float()] never fails on the text the pattern matched. *)
Lemma number_at_parses (c : ascii) (s : string) :
  is_digit c = true ->
  exists f, to_float (replace comma period (number_at (String c s))) = Some f.
Proof.
  intros Hc. unfold number_at.
  pose proof (take_digits_all (String c s)) as Hall.
  assert (Hne : is_empty (take_digits (String c s)) = false)
    by (simpl; rewrite Hc; reflexivity).
  assert (Hwhole : exists f,
             to_float (replace comma period (take_digits (String c s))) = Some f).
  { rewrite replace_without
      by (apply all_digits_contains; [reflexivity | assumption]).
    apply to_float_digits; assumption. }
  destruct (drop_digits (String c s)) as [ | d rest]; [assumption | ].
  destruct (Ascii.eqb d period || Ascii.eqb d comma) eqn:Hsep; [ | assumption].
  rewrite replace_app, replace_without
    by (apply all_digits_contains; [reflexivity | assumption]).
  rewrite replace_cons.
  rewrite (replace_without comma period (take_digits rest))
    by (apply all_digits_contains; [reflexivity | apply take_digits_all]).
  assert (Hd : (if Ascii.eqb comma d then period else d) = period).
  { apply orb_true_iff in Hsep as [H | H]; apply Ascii.eqb_eq in H; subst d;
      reflexivity. }
  rewrite Hd. apply to_float_decimal; auto using take_digits_all.
Qed.

Lemma first_number_parses (text token : string) :
  first_number text = Some token ->
  exists f, to_float (replace comma period token) = Some f.
Proof.
  induction text as [ | c s IH]; simpl; [discriminate | ].
  destruct (is_digit c) eqn:Hc; [ | exact IH].
  intros H. inversion H; subst. apply number_at_parses. assumption.
Qed.

Section RatingClaim.
Context {U : Unicode}.

Lemma search_number_parses (text token : string) :
  search_number text = Some token ->
  exists f, to_float (replace comma period token) = Some f.
Proof. unfold search_number. apply first_number_parses. Qed.

(** C8. When the text holds a number, in the digits of whatever script,
    [extract_rating] parses the first one, halves it when it exceeds 5 and
    clamps the result to the interval from 0 to 5; so ["9.0"] gives 4.5,
    ["4.5"] gives 4.5 and ["12"] gives 5.0. *)
Theorem extract_rating_normalised :
  (forall text token,
      search_number text = Some token ->
      exists rating,
        to_float (replace comma period token) = Some rating
        /\ extract_rating (Some text)
           = PyFloat.min 5 (PyFloat.max 0
               (if PyFloat.gt rating 5 then (rating / 2)%float else rating))
        /\ (0 <=? extract_rating (Some text))%float = true
        /\ (extract_rating (Some text) <=? 5)%float = true)
  /\ extract_rating (Some "9.0") = 4.5%float
  /\ extract_rating (Some "4.5") = 4.5%float
  /\ extract_rating (Some "12") = 5%float.
Proof.
  split; [ | repeat split; vm_compute; reflexivity].
  intros text token Htok.
  destruct (search_number_parses text token Htok) as (rating & Hrating).
  exists rating. split; [assumption | ].
  assert (Hval : extract_rating (Some text) = normalise_rating rating).
  { unfold extract_rating. destruct text as [ | c s]; [cbv in Htok; discriminate | ].
    rewrite Htok, Hrating. reflexivity. }
  rewrite Hval. unfold normalise_rating.
  split; [reflexivity | apply clamp_range].
Qed.

End RatingClaim.

End Rating.

Section RatingWitness.
Import PyStr Helpers.
Local Existing Instance unicode_14_0.

Lemma extract_rating_normalised_witness :
  exists rating,
    to_float "9" = Some rating
    /\ extract_rating (Some "٩ de 10")
       = PyFloat.min 5 (PyFloat.max 0
           (if PyFloat.gt rating 5 then (rating / 2)%float else rating))
    /\ (0 <=? extract_rating (Some "٩ de 10"))%float = true
    /\ (extract_rating (Some "٩ de 10") <=? 5)%float = true.
Proof.
  destruct (proj1 (extract_rating_normalised (U := unicode_14_0)) "٩ de 10" "9" eq_refl)
    as (rating & Hparse & Hrest).
  exists rating. split; [exact Hparse | exact Hrest].
Defined.

End RatingWitness.


(** ** Runs of a session without storage failures *)

Section QuietRuns.
Import DatabaseManager Identity.

Lemma find_existing_quiet (product_data : ProductData.t) (b t : DB)
    (p : list PriceHistory.args) :
  _find_existing_product product_data (mkSession b t p [])
  = (Returns (resolve t product_data), mkSession b t p []).
Proof.
  unfold _find_existing_product, resolve, by_url, by_key.
  destruct (ProductData.url product_data) as [[ | c u] | ]; cbn.
  all: try destruct (find _ (products t)) as [found | ]; cbn; try reflexivity.
  all: destruct (external_id_of product_data) as [[ | c' e] | ]; cbn; try reflexivity.
  all: destruct (ProductData.site product_data) as [[ | d s] | ]; cbn; reflexivity.
Qed.

Lemma update_existing_quiet (existing : Product.t) (product_data : ProductData.t)
    (session_id : option Z) (now : timestamp) (b t : DB) (p : list PriceHistory.args) :
  _update_existing_product existing product_data session_id now (mkSession b t p [])
  = (Returns (update_fields existing product_data now),
     mkSession b (replace_row (update_fields existing product_data now) t)
               (p ++ change_rows existing product_data session_id) []).
Proof.
  unfold _update_existing_product, change_rows.
  destruct (price_changed _ _); cbn; [reflexivity | ].
  rewrite app_nil_r. reflexivity.
Qed.

(** One dictionary saved, as a function of the transaction. *)
Lemma save_product_quiet (product_data : ProductData.t) (session_id : option Z)
    (now : timestamp) (b t : DB) (p : list PriceHistory.args) :
  save_product product_data session_id now (mkSession b t p [])
  = let '(saved, t', p') := upsert session_id now t p product_data in
    (Returns saved, mkSession b t' p' []).
Proof.
  unfold save_product, upsert. unfold bind at 1. rewrite find_existing_quiet.
  destruct (resolve t product_data) as [existing | ].
  - apply update_existing_quiet.
  - reflexivity.
Qed.

Lemma save_each_quiet (products_data : list ProductData.t) (session_id : option Z)
    (now : timestamp) (b t : DB) (p : list PriceHistory.args) :
  save_each products_data session_id now (mkSession b t p [])
  = let '(saved, t', p') := upsert_all session_id now t p products_data in
    (Returns saved, mkSession b t' p' []).
Proof.
  revert t p. induction products_data as [ | product_data rest IH]; intros t p.
  - reflexivity.
  - cbn [save_each upsert_all]. unfold bind at 1. rewrite save_product_quiet.
    destruct (upsert session_id now t p product_data) as [[saved t1] p1].
    unfold bind at 1. rewrite IH.
    destruct (upsert_all session_id now t1 p1 rest) as [[others t2] p2].
    reflexivity.
Qed.

Lemma commit_quiet (now : timestamp) (b t : DB) (p : list PriceHistory.args) :
  commit now (mkSession b t p [])
  = (Returns tt, mkSession (flushed now t p) (flushed now t p) [] []).
Proof. reflexivity. Qed.

(** Without storage failures a batch returns the saved products and commits
    all of them. *)
Lemma save_products_quiet (products_data : list ProductData.t)
    (session_id : option Z) (now : timestamp) (store : DB) :
  save_products products_data session_id now (mkStorage store [])
  = (Returns (fst (fst (upsert_all session_id now store [] products_data))),
     mkStorage (committed session_id now store products_data) []).
Proof.
  unfold save_products, in_session, open_session, committed. cbn [db plan].
  unfold bind at 1. rewrite save_each_quiet.
  destruct (upsert_all session_id now store [] products_data) as [[saved t] p].
  reflexivity.
Qed.

End QuietRuns.

(** ** Price history under upsert *)

Section Upsert.
Import DatabaseManager Identity.

Lemma find_app_new {A : Type} (f : A -> bool) (l : list A) (x : A) :
  find f (l ++ [x])
  = match find f l with
    | Some y => Some y
    | None => if f x then Some x else None
    end.
Proof.
  induction l as [ | a l IH]; simpl; [reflexivity | ].
  destruct (f a); [reflexivity | exact IH].
Qed.

Lemma resolve_products (store store' : DB) (product_data : ProductData.t) :
  products store = products store' ->
  resolve store product_data = resolve store' product_data.
Proof. unfold resolve, by_url, by_key. intros ->. reflexivity. Qed.

Lemma flushed_products (now : timestamp) (rows : list PriceHistory.args) (store : DB) :
  products (flushed now store rows) = products store
  /\ scraping_sessions (flushed now store rows) = scraping_sessions store.
Proof.
  unfold flushed. revert store.
  induction rows as [ | a rows IH]; intros store; simpl; [split; reflexivity | ].
  destruct (IH (insert_price_history now store a)) as [-> ->]. split; reflexivity.
Qed.

Lemma flushed_history (now : timestamp) (rows : list PriceHistory.args) (store : DB) :
  exists added : list PriceHistory.t,
    price_history (flushed now store rows) = (price_history store ++ added)%list
    /\ Forall2 (row_of now) rows added.
Proof.
  unfold flushed. revert store.
  induction rows as [ | a rows IH]; intros store; simpl.
  - exists []. rewrite app_nil_r. split; [reflexivity | constructor].
  - destruct (IH (insert_price_history now store a)) as (added & Hadd & Hrows).
    eexists (_ :: added). split.
    + rewrite Hadd. simpl. rewrite <- app_assoc. reflexivity.
    + constructor; [ | assumption]. unfold row_of. simpl. repeat split.
Qed.

(** A batch of one record that resolves to a stored product. *)
Lemma save_existing (store : DB) (product_data : ProductData.t)
    (session_id : option Z) (now : timestamp) (existing : Product.t) :
  resolve store product_data = Some existing ->
  save_products [product_data] session_id now (mkStorage store [])
  = (Returns [update_fields existing product_data now],
     mkStorage
       (flushed now (replace_row (update_fields existing product_data now) store)
                (change_rows existing product_data session_id))
       []).
Proof.
  intros Hres. rewrite save_products_quiet.
  unfold committed. cbn [upsert_all]. unfold upsert. rewrite Hres. reflexivity.
Qed.

(** A batch of one record that resolves to nothing. *)
Lemma save_new (store : DB) (product_data : ProductData.t)
    (session_id : option Z) (now : timestamp) :
  resolve store product_data = None ->
  let row := create_product_from_dict product_data
               (next_id (map Product.id (products store))) now in
  save_products [product_data] session_id now (mkStorage store [])
  = (Returns [row],
     mkStorage
       (insert_price_history now
          (mkDB (products store ++ [row]) (price_history store) (scraping_sessions store))
          (PriceHistory.new (Product.id row) (Product.current_price row)
             (Product.original_price row) session_id))
       []).
Proof.
  intros Hres. rewrite save_products_quiet.
  unfold committed. cbn [upsert_all]. unfold upsert. rewrite Hres. reflexivity.
Qed.

Lemma resolve_inserted (store : DB) (product_data : ProductData.t) (new_id : Z)
    (now : timestamp) (history : list PriceHistory.t) (sessions : list ScrapingSession.t) :
  resolve store product_data = None ->
  identifiable product_data = true ->
  resolve (mkDB (products store ++ [create_product_from_dict product_data new_id now])
                history sessions) product_data
  = Some (create_product_from_dict product_data new_id now).
Proof.
  unfold resolve, by_url, by_key, identifiable. cbn [products].
  intros Hnone Hid.
  set (row := create_product_from_dict product_data new_id now).
  assert (Hrow_url : Product.url row = get (ProductData.url product_data) "")
    by reflexivity.
  assert (Hrow_ext : Product.external_id row = external_id_of product_data)
    by reflexivity.
  assert (Hrow_site : Product.site row = get (ProductData.site product_data) "")
    by reflexivity.
  clearbody row.
  destruct (ProductData.url product_data) as [[ | c u] | ] eqn:Hurl;
    cbn [truthy orb] in Hid.
  2:{ rewrite find_app_new.
      destruct (find _ (products store)); [discriminate | ].
      rewrite Hrow_url. cbn [get]. rewrite String.eqb_refl. reflexivity. }
  all: destruct (external_id_of product_data) as [[ | c e] | ] eqn:Hext;
    try discriminate.
  all: destruct (ProductData.site product_data) as [[ | d s] | ] eqn:Hsite;
    try discriminate.
  all: rewrite find_app_new, Hnone, Hrow_ext, Hrow_site.
  all: cbn [same_text get]; rewrite !String.eqb_refl; reflexivity.
Qed.

End Upsert.

Section UpsertClaims.
Import DatabaseManager Identity.

Lemma resolve_in (store : DB) (product_data : ProductData.t) (existing : Product.t) :
  resolve store product_data = Some existing -> In existing (products store).
Proof.
  unfold resolve. destruct (by_url store product_data) as [found | ] eqn:Hurl.
  - intros H. inversion H; subst. unfold by_url in Hurl.
    destruct (ProductData.url product_data) as [[ | c u] | ]; try discriminate.
    apply find_some in Hurl. tauto.
  - unfold by_key. intros H.
    destruct (external_id_of product_data) as [[ | c e] | ]; try discriminate.
    destruct (ProductData.site product_data) as [[ | d s] | ]; try discriminate.
    apply find_some in H. tauto.
Qed.

Lemma replace_row_in (existing updated : Product.t) (store : DB) :
  In existing (products store) ->
  Product.id updated = Product.id existing ->
  In updated (products (replace_row updated store)).
Proof.
  intros Hin Hid. unfold replace_row. cbn [products].
  apply in_map_iff. exists existing. split; [ | assumption].
  rewrite Hid, Z.eqb_refl. reflexivity.
Qed.

(** C1. Upserting a record that resolves to a stored product appends no
    price record when the price is unchanged or differs from the stored one by
    at most 0.01, and exactly one when it differs by more than 0.01; a record
    stored as new gets one initial price record, and upserting the same record
    again leaves that record the only one added. *)
Theorem upsert_price_history :
  (forall store product_data session_id now existing,
      resolve store product_data = Some existing ->
      let old_price := Product.current_price existing in
      let new_price := get (ProductData.price product_data) 0%float in
      exists store',
        save_products [product_data] session_id now (mkStorage store [])
        = (Returns [update_fields existing product_data now], mkStorage store' [])
        /\ (old_price = new_price -> price_history store' = price_history store)
        /\ ((abs (old_price - new_price) <=? 0.01)%float = true ->
            price_history store' = price_history store)
        /\ ((0.01 <? abs (old_price - new_price))%float = true ->
            exists row,
              price_history store' = (price_history store ++ [row])%list
              /\ PriceHistory.product_id row = Product.id existing
              /\ PriceHistory.price row = new_price))
  /\ (forall store product_data session_id now session_id' now',
         resolve store product_data = None ->
         identifiable product_data = true ->
         exists product store1 row,
           save_products [product_data] session_id now (mkStorage store [])
           = (Returns [product], mkStorage store1 [])
           /\ price_history store1 = (price_history store ++ [row])%list
           /\ PriceHistory.product_id row = Product.id product
           /\ PriceHistory.price row = Product.current_price product
           /\ exists product' store2,
               save_products [product_data] session_id' now' (mkStorage store1 [])
               = (Returns [product'], mkStorage store2 [])
               /\ Product.id product' = Product.id product
               /\ price_history store2 = price_history store1).
Proof.
  assert (Hexisting : forall store product_data session_id now existing,
      resolve store product_data = Some existing ->
      let old_price := Product.current_price existing in
      let new_price := get (ProductData.price product_data) 0%float in
      exists store',
        save_products [product_data] session_id now (mkStorage store [])
        = (Returns [update_fields existing product_data now], mkStorage store' [])
        /\ (old_price = new_price -> price_history store' = price_history store)
        /\ ((abs (old_price - new_price) <=? 0.01)%float = true ->
            price_history store' = price_history store)
        /\ ((0.01 <? abs (old_price - new_price))%float = true ->
            exists row,
              price_history store' = (price_history store ++ [row])%list
              /\ PriceHistory.product_id row = Product.id existing
              /\ PriceHistory.price row = new_price)).
  { intros store product_data session_id now existing Hres old_price new_price.
    rewrite (save_existing _ _ _ _ _ Hres). eexists. split; [reflexivity | ].
    unfold change_rows, price_changed, PyFloat.gt.
    fold old_price. fold new_price.
    repeat split.
    - intros Heq. rewrite Heq.
      pose proof (same_price_unchanged new_price) as Hsame.
      unfold price_changed, PyFloat.gt in Hsame. rewrite Hsame. reflexivity.
    - intros Hle. rewrite (leb_not_gt _ _ Hle). reflexivity.
    - intros Hgt. rewrite Hgt. eexists. split; [reflexivity | split; reflexivity]. }
  split; [exact Hexisting | ].
  intros store product_data session_id now session_id' now' Hnew Hid.
  pose proof (save_new store product_data session_id now Hnew) as Hfirst.
  cbv zeta in Hfirst.
  set (product := create_product_from_dict product_data
                    (next_id (map Product.id (products store))) now) in *.
  eexists product, _, _. split; [exact Hfirst | ].
  split; [reflexivity | split; [reflexivity | split; [reflexivity | ]]].
  assert (Hfound : resolve
            (insert_price_history now
               (mkDB (products store ++ [product]) (price_history store)
                     (scraping_sessions store))
               (PriceHistory.new (Product.id product) (Product.current_price product)
                  (Product.original_price product) session_id))
            product_data = Some product)
    by (apply (resolve_inserted store product_data _ now); assumption).
  destruct (Hexisting _ _ session_id' now' _ Hfound) as (store2 & Hrun & Hsame & _).
  eexists _, store2. split; [exact Hrun | ]. split; [reflexivity | ].
  apply Hsame. reflexivity.
Qed.

Lemma upsert_price_history_witness :
  let stored :=
    Product.mk 1%Z "Notebook" "https://loja.example/p/1" "amazon" (Some "B01")
      1999.9%float None "BRL" "" 4.5%float 10%Z true false 0%Z 0%Z in
  let store :=
    mkDB [stored] [PriceHistory.mk 1%Z 1%Z 1999.9%float None 0%float 0%Z None] [] in
  let product_data :=
    ProductData.mk (Some "Notebook") (Some "https://loja.example/p/1") (Some "amazon")
      (Some "B01") None (Some 1899.9%float) None None None None None None None in
  exists store' row,
    save_products [product_data] (Some 7%Z) 100%Z (mkStorage store [])
    = (Returns [update_fields stored product_data 100%Z], mkStorage store' [])
    /\ price_history store' = (price_history store ++ [row])%list
    /\ PriceHistory.price row = 1899.9%float.
Proof.
  intros stored store product_data.
  destruct (proj1 upsert_price_history store product_data (Some 7%Z) 100%Z stored eq_refl)
    as (store' & Hrun & _ & _ & Hmore).
  destruct (Hmore eq_refl) as (row & Hrows & _ & Hprice).
  exists store', row. repeat split; assumption.
Defined.

(** C10. When a record that resolves to a stored product has no ['price']
    key, the stored price becomes [0.0] and the stored original price becomes
    that of the record, [None] when the key is absent; if the stored price
    exceeded 0.01 a price record with price [0.0] is appended; the title,
    rating, reviews, stock and shipping keep their stored values when their
    keys are absent. *)
Theorem update_without_price (store : DB) (product_data : ProductData.t)
    (session_id : option Z) (now : timestamp) (existing : Product.t) :
  resolve store product_data = Some existing ->
  ProductData.price product_data = None ->
  exists saved store',
    save_products [product_data] session_id now (mkStorage store [])
    = (Returns [saved], mkStorage store' [])
    /\ In saved (products store')
    /\ Product.id saved = Product.id existing
    /\ Product.current_price saved = 0%float
    /\ Product.original_price saved = ProductData.original_price product_data
    /\ ((0.01 <? Product.current_price existing)%float = true ->
        exists row,
          price_history store' = (price_history store ++ [row])%list
          /\ PriceHistory.product_id row = Product.id existing
          /\ PriceHistory.price row = 0%float
          /\ PriceHistory.original_price row = ProductData.original_price product_data)
    /\ (ProductData.title product_data = None ->
        Product.title saved = Product.title existing)
    /\ (ProductData.rating product_data = None ->
        Product.rating saved = Product.rating existing)
    /\ (ProductData.num_reviews product_data = None ->
        Product.num_reviews saved = Product.num_reviews existing)
    /\ (ProductData.in_stock product_data = None ->
        Product.in_stock saved = Product.in_stock existing)
    /\ (ProductData.free_shipping product_data = None ->
        Product.free_shipping saved = Product.free_shipping existing).
Proof.
  intros Hres Hprice.
  rewrite (save_existing _ _ _ _ _ Hres).
  eexists _, _. split; [reflexivity | ].
  split.
  { destruct (flushed_products now (change_rows existing product_data session_id)
                (replace_row (update_fields existing product_data now) store)) as [-> _].
    apply replace_row_in with (existing := existing);
      [exact (resolve_in _ _ _ Hres) | reflexivity]. }
  unfold update_fields.
  cbn [Product.id Product.current_price Product.original_price Product.title
       Product.rating Product.num_reviews Product.in_stock Product.free_shipping].
  rewrite Hprice. cbn [get].
  split; [reflexivity | split; [reflexivity | split; [reflexivity | split]]].
  - intros Hgt. unfold change_rows. rewrite Hprice. cbn [get].
    rewrite (drop_to_zero_changed _ Hgt).
    eexists. split; [reflexivity | ]. split; [reflexivity | ].
    split; reflexivity.
  - repeat split; intros ->; reflexivity.
Qed.

Lemma update_without_price_witness :
  let stored :=
    Product.mk 1%Z "Notebook" "https://loja.example/p/1" "amazon" (Some "B01")
      1999.9%float (Some 2499%float) "BRL" "" 4.5%float 10%Z true false 0%Z 0%Z in
  let store :=
    mkDB [stored] [PriceHistory.mk 1%Z 1%Z 1999.9%float None 0%float 0%Z None] [] in
  let product_data :=
    ProductData.mk None (Some "https://loja.example/p/1") None None None None
      None None None None None None None in
  exists saved store' row,
    save_products [product_data] None 100%Z (mkStorage store [])
    = (Returns [saved], mkStorage store' [])
    /\ Product.current_price saved = 0%float
    /\ Product.original_price saved = None
    /\ Product.title saved = "Notebook"
    /\ price_history store' = (price_history store ++ [row])%list
    /\ PriceHistory.price row = 0%float.
Proof.
  intros stored store product_data.
  destruct (update_without_price store product_data None 100%Z stored eq_refl eq_refl)
    as (saved & store' & Hrun & _ & _ & Hprice & Horig & Hrow & Htitle & _).
  destruct (Hrow eq_refl) as (row & Hrows & _ & Hzero & _).
  exists saved, store', row.
  repeat split; try assumption. exact (Htitle eq_refl).
Defined.

End UpsertClaims.

(** ** Identity resolution *)

Section IdentityClaims.
Import DatabaseManager Identity.

Lemma find_map_replace {A : Type} (f : A -> bool) (g : A -> A) (l : list A) (e e' : A) :
  find f l = Some e -> f e' = true -> g e = e' ->
  (forall q, g q = q \/ g q = e') ->
  find f (map g l) = Some e'.
Proof.
  intros Hfind He' Hge Hg. induction l as [ | a l IH]; simpl in *; [discriminate | ].
  destruct (f a) eqn:Hfa.
  - injection Hfind as Hae. rewrite Hae, Hge, He'. reflexivity.
  - destruct (Hg a) as [Hga | Hga]; rewrite Hga.
    + rewrite Hfa. apply IH. assumption.
    + rewrite He'. reflexivity.
Qed.

Lemma find_map_none {A : Type} (f : A -> bool) (g : A -> A) (l : list A) (e' : A) :
  find f l = None -> f e' = false ->
  (forall q, g q = q \/ g q = e') ->
  find f (map g l) = None.
Proof.
  intros Hfind He' Hg. induction l as [ | a l IH]; simpl in *; [reflexivity | ].
  destruct (f a) eqn:Hfa; [discriminate | ].
  destruct (Hg a) as [Hga | Hga]; rewrite Hga;
    [rewrite Hfa | rewrite He']; apply IH; assumption.
Qed.

Lemma replace_choice (updated q : Product.t) :
  (if (Product.id q =? Product.id updated)%Z then updated else q) = q
  \/ (if (Product.id q =? Product.id updated)%Z then updated else q) = updated.
Proof. destruct (Product.id q =? Product.id updated)%Z; auto. Qed.

Lemma replace_self (existing : Product.t) (product_data : ProductData.t)
    (now : timestamp) :
  (if (Product.id existing =? Product.id (update_fields existing product_data now))%Z
   then update_fields existing product_data now else existing)
  = update_fields existing product_data now.
Proof. cbn [update_fields Product.id]. rewrite Z.eqb_refl. reflexivity. Qed.

(** The product a record was saved as is the one a later record with the same
    url resolves to, if the first was found by its url or stored as new. *)
Lemma resolved_by_url (store : DB) (pending : list PriceHistory.args)
    (r1 r2 : ProductData.t) (session_id : option Z) (now : timestamp) :
  ProductData.url r1 = ProductData.url r2 ->
  truthy (ProductData.url r1) = true ->
  by_url store r1 <> None \/ resolve store r1 = None ->
  let '(saved, t1, _) := upsert session_id now store pending r1 in
  resolve t1 r2 = Some saved.
Proof.
  intros Hsame Htruthy Hcase.
  destruct (ProductData.url r1) as [[ | c u] | ] eqn:Hurl; try discriminate.
  unfold upsert. destruct (resolve store r1) as [existing | ] eqn:Hres.
  - destruct Hcase as [Hfound | ?]; [ | discriminate].
    unfold resolve in Hres.
    destruct (by_url store r1) as [found | ] eqn:Hby; [ | congruence].
    inversion Hres; subst found. unfold by_url in Hby. rewrite Hurl in Hby.
    unfold resolve, by_url. rewrite <- Hsame. cbn [replace_row products].
    rewrite (find_map_replace _ _ _ existing (update_fields existing r1 now));
      auto using replace_self, replace_choice.
    apply find_some in Hby. exact (proj2 Hby).
  - unfold resolve in Hres.
    destruct (by_url store r1) as [found | ] eqn:Hby; [discriminate | ].
    unfold by_url in Hby. rewrite Hurl in Hby.
    unfold resolve, by_url. rewrite <- Hsame. cbn [products].
    destruct (flushed_products now pending store) as [-> _].
    rewrite find_app_new, Hby.
    unfold create_product_from_dict at 1. cbn [Product.url]. rewrite Hurl. cbn [get].
    rewrite String.eqb_refl. reflexivity.
Qed.

(** The same for two records with one compound key, when neither has the
    url of a stored product. *)
Lemma resolved_by_key (store : DB) (pending : list PriceHistory.args)
    (r1 r2 : ProductData.t) (session_id : option Z) (now : timestamp) :
  external_id_of r1 = external_id_of r2 ->
  ProductData.site r1 = ProductData.site r2 ->
  truthy (external_id_of r1) = true ->
  truthy (ProductData.site r1) = true ->
  by_url store r1 = None ->
  by_url store r2 = None ->
  let '(saved, t1, _) := upsert session_id now store pending r1 in
  resolve t1 r2 = Some saved.
Proof.
  intros Hext Hsite Htext Htsite Hu1 Hu2.
  destruct (external_id_of r1) as [[ | c e] | ] eqn:He1; try discriminate.
  destruct (ProductData.site r1) as [[ | d s] | ] eqn:Hs1; try discriminate.
  unfold upsert. destruct (resolve store r1) as [existing | ] eqn:Hres;
    unfold resolve in Hres; rewrite Hu1 in Hres;
    unfold by_key in Hres; rewrite He1, Hs1 in Hres.
  - pose proof (find_some _ _ Hres) as [Hin Hkey].
    assert (Hnourl : by_url (replace_row (update_fields existing r1 now) store) r2 = None).
    { unfold by_url in *. destruct (ProductData.url r2) as [[ | c2 u2] | ];
        try reflexivity.
      cbn [replace_row products].
      apply find_map_none with (e' := update_fields existing r1 now);
        auto using replace_choice.
      cbn [update_fields Product.url].
      exact (find_none _ _ Hu2 existing Hin). }
    unfold resolve. rewrite Hnourl. unfold by_key. rewrite <- Hext, <- Hsite.
    cbn [replace_row products].
    apply find_map_replace with (e := existing);
      auto using replace_self, replace_choice.
  - unfold resolve.
    assert (Hrow_url :
              forall t, by_url
                (mkDB (products store ++ [create_product_from_dict r1
                         (next_id (map Product.id (products store))) now])
                      (price_history t) (scraping_sessions t)) r2
              = None
              \/ by_url
                (mkDB (products store ++ [create_product_from_dict r1
                         (next_id (map Product.id (products store))) now])
                      (price_history t) (scraping_sessions t)) r2
              = Some (create_product_from_dict r1
                        (next_id (map Product.id (products store))) now)).
    { intros t. unfold by_url in *.
      destruct (ProductData.url r2) as [[ | c2 u2] | ]; auto.
      cbn [products]. rewrite find_app_new, Hu2.
      destruct (String.eqb _ _); auto. }
    destruct (flushed_products now pending store) as [Hprod _].
    rewrite Hprod.
    destruct (Hrow_url (flushed now store pending)) as [-> | ->]; [ | reflexivity].
    unfold by_key. rewrite <- Hext, <- Hsite. cbn [products].
    rewrite find_app_new, Hres.
    unfold create_product_from_dict at 1 2. cbn [Product.external_id Product.site].
    rewrite He1, Hs1. cbn [same_text get]. rewrite !String.eqb_refl. reflexivity.
Qed.

Lemma upsert_resolved (session_id : option Z) (now : timestamp) (t : DB)
    (pending : list PriceHistory.args) (product_data : ProductData.t)
    (existing : Product.t) :
  resolve t product_data = Some existing ->
  Product.id (fst (fst (upsert session_id now t pending product_data)))
  = Product.id existing.
Proof. intros H. unfold upsert. rewrite H. reflexivity. Qed.

Lemma batch_of_two (store : DB) (r1 r2 : ProductData.t) (session_id : option Z)
    (now : timestamp) :
  (let '(saved, t1, _) := upsert session_id now store [] r1 in
   resolve t1 r2 = Some saved) ->
  exists p1 p2 store',
    save_products [r1; r2] session_id now (mkStorage store [])
    = (Returns [p1; p2], mkStorage store' [])
    /\ Product.id p1 = Product.id p2.
Proof.
  intros Hres. rewrite save_products_quiet. cbn [upsert_all].
  destruct (upsert session_id now store [] r1) as [[saved t1] p1] eqn:Hfirst.
  pose proof (upsert_resolved session_id now t1 p1 r2 saved Hres) as Hid.
  destruct (upsert session_id now t1 p1 r2) as [[saved2 t2] p2].
  cbn [fst] in *. eexists saved, saved2, _. split; [reflexivity | congruence].
Qed.

(** C3, amended. A record is looked up by url first, then by its site and
    external identifier when both are present, and is new otherwise. Two
    records of a batch with the same url are saved as one product when the
    first is found by its url or stored as new; two records with the same site
    and external identifier, neither with the url of a stored product, are
    saved as one product. *)
Theorem identity_resolution :
  (forall product_data b t p,
      _find_existing_product product_data (mkSession b t p [])
      = (Returns (resolve t product_data), mkSession b t p []))
  /\ (forall store r1 r2 session_id now,
         ProductData.url r1 = ProductData.url r2 ->
         truthy (ProductData.url r1) = true ->
         by_url store r1 <> None \/ resolve store r1 = None ->
         exists p1 p2 store',
           save_products [r1; r2] session_id now (mkStorage store [])
           = (Returns [p1; p2], mkStorage store' [])
           /\ Product.id p1 = Product.id p2)
  /\ (forall store r1 r2 session_id now,
         external_id_of r1 = external_id_of r2 ->
         ProductData.site r1 = ProductData.site r2 ->
         truthy (external_id_of r1) = true ->
         truthy (ProductData.site r1) = true ->
         by_url store r1 = None ->
         by_url store r2 = None ->
         exists p1 p2 store',
           save_products [r1; r2] session_id now (mkStorage store [])
           = (Returns [p1; p2], mkStorage store' [])
           /\ Product.id p1 = Product.id p2).
Proof.
  split; [exact find_existing_quiet | split].
  - intros store r1 r2 session_id now Hsame Htruthy Hcase.
    apply batch_of_two. apply resolved_by_url; assumption.
  - intros store r1 r2 session_id now Hext Hsite Htext Htsite Hu1 Hu2.
    apply batch_of_two. apply resolved_by_key; assumption.
Qed.

Lemma identity_resolution_witness :
  let r1 :=
    ProductData.mk (Some "Tablet") (Some "https://loja.example/p/9") (Some "ebay")
      (Some "E9") None (Some 500%float) None None None None None None None in
  let r2 :=
    ProductData.mk (Some "Tablet 10") (Some "https://loja.example/p/9") (Some "amazon")
      None (Some "B09") (Some 480%float) None None None None None None None in
  exists p1 p2 store',
    save_products [r1; r2] None 5%Z (mkStorage empty_db [])
    = (Returns [p1; p2], mkStorage store' [])
    /\ Product.id p1 = Product.id p2.
Proof.
  intros r1 r2.
  apply (proj1 (proj2 identity_resolution) empty_db r1 r2 None 5%Z);
    [reflexivity | reflexivity | right; reflexivity].
Defined.

(** A stored product is found by the key of the first record but keeps its
    own url, so the second record, with the url of the first and another key,
    is stored as a new product. *)
Lemma identity_same_url_counterexample :
  let stored :=
    Product.mk 1%Z "Tablet" "https://loja.example/p/1" "amazon" (Some "B09")
      500%float None "BRL" "" 4%float 3%Z true false 0%Z 0%Z in
  let store :=
    mkDB [stored] [PriceHistory.mk 1%Z 1%Z 500%float None 0%float 0%Z None] [] in
  let r1 :=
    ProductData.mk (Some "Tablet") (Some "https://loja.example/p/2") (Some "amazon")
      (Some "B09") None (Some 500%float) None None None None None None None in
  let r2 :=
    ProductData.mk (Some "Tablet") (Some "https://loja.example/p/2") (Some "ebay")
      (Some "E77") None (Some 500%float) None None None None None None None in
  ProductData.url r1 = ProductData.url r2
  /\ truthy (ProductData.url r1) = true
  /\ exists p1 p2 store',
      save_products [r1; r2] None 5%Z (mkStorage store [])
      = (Returns [p1; p2], mkStorage store' [])
      /\ Product.id p1 = 1%Z /\ Product.id p2 = 2%Z
      /\ List.length (products store') = 2%nat.
Proof.
  intros stored store r1 r2. split; [reflexivity | split; [reflexivity | ]].
  eexists _, _, _. split; [vm_compute; reflexivity | ].
  repeat split.
Qed.

End IdentityClaims.

(** ** Atomicity of a batch *)

Section Atomicity.
Import DatabaseManager Identity.

Lemma regular_ret {A : Type} (a : A) : regular (ret a).
Proof. intros s. split; reflexivity. Qed.

Lemma regular_bind {A B : Type} (c : M A) (k : A -> M B) :
  regular c -> (forall a, regular (k a)) -> regular (bind c k).
Proof.
  intros Hc Hk s. unfold bind. specialize (Hc s).
  destruct (c s) as [[a | e] s1].
  - destruct Hc as [Hbase Hquiet]. rewrite Hquiet.
    specialize (Hk a s1). destruct (k a s1) as [[b | e] s2].
    + destruct Hk as [Hbase2 Hquiet2]. split; [congruence | assumption].
    + destruct Hk as [He Hbase2]. split; [assumption | congruence].
  - exact Hc.
Qed.

Lemma regular_statement : regular statement.
Proof.
  intros [b t p fs]. unfold statement. cbn [faults].
  destruct fs as [ | [ | ] rest]; split; reflexivity.
Qed.

Lemma regular_read_txn : regular read_txn.
Proof. intros s. split; reflexivity. Qed.

Lemma regular_write_txn (store : DB) : regular (write_txn store).
Proof. intros s. split; reflexivity. Qed.

Lemma regular_add_price_history (a : PriceHistory.args) :
  regular (add_price_history a).
Proof. intros s. split; reflexivity. Qed.

Lemma regular_flush (now : timestamp) : regular (flush now).
Proof.
  unfold flush. apply regular_bind; [apply regular_statement | ].
  intros _ s. split; reflexivity.
Qed.

Lemma regular_query (filter : Product.t -> bool) :
  regular (query_product_first filter).
Proof.
  unfold query_product_first.
  apply regular_bind; [apply regular_statement | intros _].
  apply regular_bind; [apply regular_read_txn | intros store].
  apply regular_ret.
Qed.

Lemma regular_find_existing (product_data : ProductData.t) :
  regular (_find_existing_product product_data).
Proof.
  unfold _find_existing_product. apply regular_bind.
  - destruct (truthy (ProductData.url product_data));
      [apply regular_query | apply regular_ret].
  - intros [found | ]; [apply regular_ret | ].
    destruct (truthy (external_id_of product_data)
              && truthy (ProductData.site product_data));
      [apply regular_query | apply regular_ret].
Qed.

Lemma regular_update_existing (existing : Product.t) (product_data : ProductData.t)
    (session_id : option Z) (now : timestamp) :
  regular (_update_existing_product existing product_data session_id now).
Proof.
  unfold _update_existing_product, set_product.
  apply regular_bind.
  - apply regular_bind; [apply regular_read_txn | intros store].
    apply regular_write_txn.
  - intros _. apply regular_bind; [ | intros _; apply regular_ret].
    destruct (price_changed _ _);
      [apply regular_add_price_history | apply regular_ret].
Qed.

Lemma regular_add_product (new_product : Z -> timestamp -> Product.t)
    (now : timestamp) : regular (add_product new_product now).
Proof.
  unfold add_product.
  apply regular_bind; [apply regular_flush | intros _].
  apply regular_bind; [apply regular_read_txn | intros store].
  apply regular_bind; [apply regular_write_txn | intros _].
  apply regular_ret.
Qed.

Lemma regular_save_product (product_data : ProductData.t) (session_id : option Z)
    (now : timestamp) : regular (save_product product_data session_id now).
Proof.
  unfold save_product.
  apply regular_bind; [apply regular_find_existing | ].
  intros [existing | ]; [apply regular_update_existing | ].
  apply regular_bind; [apply regular_add_product | intros row].
  apply regular_bind; [apply regular_add_price_history | intros _].
  apply regular_ret.
Qed.

Lemma regular_save_each (products_data : list ProductData.t)
    (session_id : option Z) (now : timestamp) :
  regular (save_each products_data session_id now).
Proof.
  induction products_data as [ | product_data rest IH]; cbn [save_each].
  - apply regular_ret.
  - apply regular_bind; [apply regular_save_product | intros saved].
    apply regular_bind; [exact IH | intros others].
    apply regular_ret.
Qed.

(** A commit either publishes the whole transaction or raises and publishes
    nothing. *)
Lemma commit_cases (now : timestamp) (s : Session) :
  (exists rest,
      commit now s
      = (Returns tt,
         mkSession (flushed now (txn s) (pending s))
                   (flushed now (txn s) (pending s)) [] rest))
  \/ (exists s', commit now s = (Raises SQLAlchemyError, s') /\ base s' = base s).
Proof.
  destruct s as [b t p fs].
  destruct fs as [ | [ | ] [ | [ | ] rest]]; cbn; eauto.
Qed.

Lemma upsert_all_length (session_id : option Z) (now : timestamp)
    (products_data : list ProductData.t) (t : DB) (p : list PriceHistory.args) :
  List.length (fst (fst (upsert_all session_id now t p products_data)))
  = List.length products_data.
Proof.
  revert t p. induction products_data as [ | product_data rest IH]; intros t p;
    cbn [upsert_all]; [reflexivity | ].
  destruct (upsert session_id now t p product_data) as [[saved t1] p1].
  specialize (IH t1 p1).
  destruct (upsert_all session_id now t1 p1 rest) as [[others t2] p2].
  cbn [fst] in *. simpl. congruence.
Qed.

Lemma replace_row_ids (updated : Product.t) (store : DB) :
  map Product.id (products (replace_row updated store))
  = map Product.id (products store).
Proof.
  unfold replace_row. cbn [products]. rewrite map_map. apply map_ext.
  intros q. destruct (Product.id q =? Product.id updated)%Z eqn:E; [ | reflexivity].
  apply Z.eqb_eq in E. congruence.
Qed.

Lemma upsert_ids (session_id : option Z) (now : timestamp) (t : DB)
    (p : list PriceHistory.args) (product_data : ProductData.t) :
  let '(saved, t', _) := upsert session_id now t p product_data in
  In (Product.id saved) (map Product.id (products t'))
  /\ forall key, In key (map Product.id (products t)) ->
                 In key (map Product.id (products t')).
Proof.
  unfold upsert. destruct (resolve t product_data) as [existing | ] eqn:Hres.
  - rewrite replace_row_ids. split; [ | auto].
    cbn [update_fields Product.id]. apply in_map. exact (resolve_in _ _ _ Hres).
  - cbn [products]. rewrite (proj1 (flushed_products now p t)), map_app.
    split; [apply in_or_app; right; left; reflexivity | ].
    intros key Hkey. apply in_or_app. left. assumption.
Qed.

(** Every product a batch returns is a row of the transaction it leaves. *)
Lemma upsert_all_ids (session_id : option Z) (now : timestamp)
    (products_data : list ProductData.t) (t : DB) (p : list PriceHistory.args) :
  let '(saved, t', _) := upsert_all session_id now t p products_data in
  Forall (fun product => In (Product.id product) (map Product.id (products t'))) saved
  /\ forall key, In key (map Product.id (products t)) ->
                 In key (map Product.id (products t')).
Proof.
  revert t p. induction products_data as [ | product_data rest IH]; intros t p;
    cbn [upsert_all]; [split; [constructor | auto] | ].
  pose proof (upsert_ids session_id now t p product_data) as Hone.
  destruct (upsert session_id now t p product_data) as [[saved t1] p1].
  destruct Hone as [Hsaved Hkeep1].
  specialize (IH t1 p1).
  destruct (upsert_all session_id now t1 p1 rest) as [[others t2] p2].
  destruct IH as [Hothers Hkeep2].
  split; [constructor; auto | auto].
Qed.

(** C5. A batch either commits every listing, leaving exactly the database
    that the batch leaves when the storage never fails, in which every
    product returned is stored, or raises the storage error and leaves the
    committed database as it was. *)
Theorem save_products_atomic (products_data : list ProductData.t)
    (session_id : option Z) (now : timestamp) (st : Storage) :
  exists saved,
    save_products products_data session_id now (mkStorage (db st) [])
    = (Returns saved, mkStorage (committed session_id now (db st) products_data) [])
    /\ List.length saved = List.length products_data
    /\ Forall (fun product =>
                 In (Product.id product)
                    (map Product.id
                       (products (committed session_id now (db st) products_data))))
              saved
    /\ ((exists rest,
            save_products products_data session_id now st
            = (Returns saved,
               mkStorage (committed session_id now (db st) products_data) rest))
        \/ (exists rest,
               save_products products_data session_id now st
               = (Raises SQLAlchemyError, mkStorage (db st) rest))).
Proof.
  exists (fst (fst (upsert_all session_id now (db st) [] products_data))).
  split; [apply save_products_quiet | ].
  split; [apply upsert_all_length | ].
  split.
  { unfold committed.
    pose proof (upsert_all_ids session_id now products_data (db st) []) as Hids.
    destruct (upsert_all session_id now (db st) [] products_data) as [[saved t] p].
    cbn [fst]. rewrite (proj1 (flushed_products now p t)). exact (proj1 Hids). }
  unfold save_products, in_session. unfold bind at 1 3.
  pose proof (regular_save_each products_data session_id now (open_session st)) as Hreg.
  destruct (save_each products_data session_id now (open_session st))
    as [[saved | e] s1] eqn:Hrun.
  - destruct Hreg as [Hbase Hquiet].
    change (quiet (open_session st)) with (mkSession (db st) (db st) [] []) in Hquiet.
    rewrite save_each_quiet in Hquiet.
    unfold committed.
    destruct (upsert_all session_id now (db st) [] products_data) as [[saved' t] p].
    cbn [fst]. unfold quiet in Hquiet. injection Hquiet as Hsaved _ Ht Hp.
    destruct (commit_cases now s1) as [(rest & Hcommit) | (s2 & Hcommit & Hbase2)];
      unfold bind; rewrite Hcommit.
    + left. exists rest. unfold ret, close_session. cbn [base faults].
      rewrite <- Ht, <- Hp, Hsaved. reflexivity.
    + right. exists (faults s2). unfold close_session, rollback. cbn [snd base faults].
      rewrite Hbase2, Hbase. reflexivity.
  - destruct Hreg as [-> Hbase]. right. exists (faults s1).
    unfold close_session, rollback. cbn [snd base faults].
    rewrite Hbase. reflexivity.
Qed.

End Atomicity.

(** ** Price changes *)

Section PriceChanges.
Import DatabaseManager.










End PriceChanges.

(** ** The daily sweep *)

Section SweepIsolation.
Import DatabaseManager Identity ScrapingScheduler Sweep.

Lemma silent_ret {A : Type} (a : A) : silent (ret a).
Proof. intros w. reflexivity. Qed.

Lemma silent_bind {A B : Type} (c : Job A) (k : A -> Job B) :
  silent c -> (forall a, silent (k a)) -> silent (bind c k).
Proof.
  intros Hc Hk w. unfold bind. specialize (Hc w).
  destruct (c w) as [[a | e] w1]; cbn [snd] in *; [ | assumption].
  rewrite (Hk a w1). assumption.
Qed.

Lemma silent_logger (entry : LogRecord) : silent (logger entry).
Proof. intros w. reflexivity. Qed.

Lemma silent_db_manager {A : Type} (call : Storage -> outcome A * Storage) :
  silent (db_manager call).
Proof. intros w. unfold db_manager. destruct (call (storage w)). reflexivity. Qed.

(** Whatever its outcome, a pair makes the one search of its scraper. *)
Lemma scrape_one_searched (env : Env) (now : timestamp) (search_config : SearchConfig)
    (w : World) :
  searched (snd (scrape_one env now search_config w))
  = (searched w ++ call_of search_config)%list.
Proof.
  unfold scrape_one, call_of. unfold bind at 1. unfold lift.
  destruct (ScraperFactory.create_scraper (site search_config)) as [scraper | e];
    cbn [snd]; [ | rewrite app_nil_r; reflexivity].
  unfold bind at 1. unfold scraper_search at 1.
  destruct (search_products env _ scraper _ _) as [products | e];
    [ | reflexivity].
  destruct (is_nil products); [reflexivity | ].
  match goal with
  | |- searched (snd (?c ?w1)) = _ =>
      assert (Hsilent : silent c); [ | rewrite (Hsilent w1); reflexivity]
  end.
  apply silent_bind; [apply silent_db_manager | intros session].
  apply silent_bind; [apply silent_db_manager | intros saved].
  apply silent_bind; [apply silent_db_manager | intros _].
  apply silent_bind; [apply silent_logger | intros _].
  apply silent_ret.
Qed.

(** The loop returns for every list of pairs and every behaviour of the
    scrapers and of the storage, and has searched for every pair. *)
Lemma sweep_returns (env : Env) (now : timestamp) (searches : list SearchConfig) :
  forall all_products w,
    exists found w',
      sweep env now searches all_products w = (Returns (all_products ++ found)%list, w')
      /\ searched w' = (searched w ++ searches_made searches)%list.
Proof.
  induction searches as [ | search_config rest IH]; intros all_products w.
  - exists [], w. cbn. rewrite !app_nil_r. split; reflexivity.
  - cbn [sweep searches_made flat_map]. unfold bind at 1, try_except.
    pose proof (scrape_one_searched env now search_config w) as Hsearched.
    destruct (scrape_one env now search_config w) as [[products | e] w1];
      cbn [snd] in Hsearched.
    + destruct (IH (all_products ++ products)%list w1) as (found & w' & Hrun & Hs).
      exists (products ++ found)%list, w'. rewrite Hrun, Hs, Hsearched, !app_assoc.
      split; reflexivity.
    + unfold bind at 1. cbn [logger ret].
      match goal with
      | |- context [sweep env now rest ?a ?w2] =>
          destruct (IH a w2) as (found & w' & Hrun & Hs)
      end.
      exists found, w'. rewrite Hrun, Hs. cbn [searched].
      rewrite Hsearched, !app_nil_r, !app_assoc. split; reflexivity.
Qed.

End SweepIsolation.

Section QuietSweep.
Import DatabaseManager Identity ScrapingScheduler Sweep.

Lemma next_id_fresh (ids : list Z) (x : Z) : In x ids -> (x < next_id ids)%Z.
Proof.
  intros Hin. unfold next_id.
  assert (Hmax : (x <= fold_right Z.max 0 ids)%Z).
  { induction ids as [ | y ids IH]; [destruct Hin | ].
    cbn [fold_right]. destruct Hin as [-> | Hin]; [lia | ].
    specialize (IH Hin). lia. }
  lia.
Qed.

Lemma create_session_quiet (session_data : SessionData) (now : timestamp) (store : DB) :
  create_scraping_session session_data now (mkStorage store [])
  = (Returns (new_session session_data now
                (next_id (map ScrapingSession.id (scraping_sessions store)))),
     mkStorage
       (mkDB (products store) (price_history store)
             (scraping_sessions store
              ++ [new_session session_data now
                    (next_id (map ScrapingSession.id (scraping_sessions store)))]))
       []).
Proof. reflexivity. Qed.

Lemma update_session_quiet (session_id : Z) (updates : SessionUpdates)
    (now : timestamp) (store : DB) (session : ScrapingSession.t) :
  find (fun q => (ScrapingSession.id q =? session_id)%Z) (scraping_sessions store)
  = Some session ->
  update_scraping_session session_id updates now (mkStorage store [])
  = (Returns (Some (apply_updates session updates)),
     mkStorage (replace_session (apply_updates session updates) store) []).
Proof.
  intros Hfind. unfold update_scraping_session, in_session, open_session.
  cbn [db plan]. unfold bind at 1. cbn [statement faults].
  unfold bind at 1. cbn [read_txn txn]. rewrite Hfind. reflexivity.
Qed.

Lemma upsert_sessions (session_id : option Z) (now : timestamp) (t : DB)
    (p : list PriceHistory.args) (product_data : ProductData.t) :
  scraping_sessions (snd (fst (upsert session_id now t p product_data)))
  = scraping_sessions t.
Proof.
  unfold upsert. destruct (resolve t product_data); cbn; [reflexivity | ].
  exact (proj2 (flushed_products now p t)).
Qed.

Lemma upsert_all_sessions (session_id : option Z) (now : timestamp)
    (products_data : list ProductData.t) (t : DB) (p : list PriceHistory.args) :
  scraping_sessions (snd (fst (upsert_all session_id now t p products_data)))
  = scraping_sessions t.
Proof.
  revert t p. induction products_data as [ | product_data rest IH]; intros t p;
    cbn [upsert_all]; [reflexivity | ].
  pose proof (upsert_sessions session_id now t p product_data) as Hone.
  destruct (upsert session_id now t p product_data) as [[saved t1] p1].
  specialize (IH t1 p1).
  destruct (upsert_all session_id now t1 p1 rest) as [[others t2] p2].
  cbn [fst snd] in *. congruence.
Qed.

(** A batch leaves the sessions as they are. *)
Lemma committed_sessions (session_id : option Z) (now : timestamp) (store : DB)
    (products_data : list ProductData.t) :
  scraping_sessions (committed session_id now store products_data)
  = scraping_sessions store.
Proof.
  unfold committed.
  pose proof (upsert_all_sessions session_id now products_data store []) as H.
  destruct (upsert_all session_id now store [] products_data) as [[saved t] p].
  cbn [fst snd] in H. rewrite (proj2 (flushed_products now p t)). assumption.
Qed.

Lemma find_fresh_session (sessions : list ScrapingSession.t) (session : ScrapingSession.t) :
  ScrapingSession.id session = next_id (map ScrapingSession.id sessions) ->
  find (fun q => (ScrapingSession.id q =? ScrapingSession.id session)%Z)
       (sessions ++ [session])
  = Some session.
Proof.
  intros Hid. rewrite find_app_new.
  destruct (find _ sessions) as [old | ] eqn:Hfind.
  - apply find_some in Hfind as [Hin Heq]. apply Z.eqb_eq in Heq.
    pose proof (next_id_fresh _ _ (in_map ScrapingSession.id _ _ Hin)). lia.
  - rewrite Z.eqb_refl. reflexivity.
Qed.

Lemma replace_fresh_session (sessions : list ScrapingSession.t)
    (session updated : ScrapingSession.t) :
  ScrapingSession.id session = next_id (map ScrapingSession.id sessions) ->
  ScrapingSession.id updated = ScrapingSession.id session ->
  map (fun q => if (ScrapingSession.id q =? ScrapingSession.id updated)%Z
                then updated else q)
      (sessions ++ [session])
  = (sessions ++ [updated])%list.
Proof.
  intros Hid Hsame. rewrite map_app. cbn [map]. rewrite Hsame, Z.eqb_refl.
  f_equal. rewrite <- (map_id sessions) at 2. apply map_ext_in.
  intros q Hin.
  pose proof (next_id_fresh _ _ (in_map ScrapingSession.id _ _ Hin)).
  destruct (ScrapingSession.id q =? ScrapingSession.id session)%Z eqn:E;
    [apply Z.eqb_eq in E; lia | reflexivity].
Qed.

(** One pair of the sweep when the storage does not fail: the pair returns or
    raises what its scraper does, and, when it returns listings, has recorded
    one session for them and logged their count. *)
Lemma scrape_one_quiet (env : Env) (now : timestamp) (search_config : SearchConfig)
    (w : World) :
  plan (storage w) = [] ->
  exists w',
    scrape_one env now search_config w
    = (attempt env (List.length (searched w)) search_config, w')
    /\ plan (storage w') = []
    /\ log w'
       = (log w
          ++ match attempt env (List.length (searched w)) search_config with
             | Raises _ => []
             | answer => log_of search_config answer
             end)%list
    /\ exists added,
        scraping_sessions (db (storage w'))
        = (scraping_sessions (db (storage w)) ++ added)%list
        /\ Forall2 (session_of now)
             match yield env (List.length (searched w)) search_config with
             | [] => []
             | listings => [(search_config, listings)]
             end
             added.
Proof.
  intros Hplan. destruct w as [[store faults_left] calls sent entries].
  cbn [storage plan] in Hplan. subst faults_left.
  unfold scrape_one, yield, attempt. cbn [searched storage db log].
  unfold bind at 1. unfold lift.
  destruct (ScraperFactory.create_scraper (site search_config)) as [scraper | e].
  2:{ eexists. split; [reflexivity | ]. cbn [storage plan db log].
      split; [reflexivity | split; [rewrite app_nil_r; reflexivity | ]].
      exists []. rewrite app_nil_r. split; [reflexivity | constructor]. }
  unfold bind at 1. unfold scraper_search at 1. cbn [searched storage reports log].
  destruct (search_products env (List.length calls) scraper (search search_config)
              (max_results search_config)) as [listings | e].
  2:{ eexists. split; [reflexivity | ]. cbn [storage plan db log].
      split; [reflexivity | split; [rewrite app_nil_r; reflexivity | ]].
      exists []. rewrite app_nil_r. split; [reflexivity | constructor]. }
  destruct listings as [ | first others].
  { eexists. split; [reflexivity | ]. cbn [storage plan db log log_of].
    split; [reflexivity | split; [rewrite app_nil_r; reflexivity | ]].
    exists []. rewrite app_nil_r. split; [reflexivity | constructor]. }
  cbn [is_nil]. set (listings := first :: others).
  unfold bind at 1. unfold db_manager at 1. cbn [storage].
  rewrite create_session_quiet.
  set (session := new_session _ now _).
  set (store1 := mkDB (products store) (price_history store)
                      (scraping_sessions store ++ [session])).
  unfold bind at 1. unfold db_manager at 1. cbn [storage].
  rewrite save_products_quiet.
  set (saved := fst (fst (upsert_all (Some (ScrapingSession.id session)) now store1 []
                            listings))).
  set (store2 := committed (Some (ScrapingSession.id session)) now store1 listings).
  assert (Hsessions2 : scraping_sessions store2
                       = (scraping_sessions store ++ [session])%list)
    by (unfold store2; rewrite committed_sessions; reflexivity).
  unfold bind at 1. unfold db_manager at 1. cbn [storage].
  set (updates := mkSessionUpdates _ _ _ _ _).
  rewrite (update_session_quiet _ updates now store2 session)
    by (rewrite Hsessions2; apply find_fresh_session; reflexivity).
  eexists. split; [reflexivity | ]. cbn [storage plan db log].
  split; [reflexivity | split; [reflexivity | ]].
  exists [apply_updates session updates]. split.
  - unfold replace_session. cbn [scraping_sessions]. rewrite Hsessions2.
    apply replace_fresh_session; reflexivity.
  - constructor; [ | constructor].
    unfold session_of, updates, session. cbn.
    unfold saved. rewrite upsert_all_length. repeat split; reflexivity.
Qed.

End QuietSweep.

Section SweepClaims.
Import DatabaseManager Identity ScrapingScheduler Sweep.

Lemma sweep_quiet (env : Env) (now : timestamp) (searches : list SearchConfig) :
  forall all_products w,
    plan (storage w) = [] ->
    exists w',
      sweep env now searches all_products w
      = (Returns (all_products
                  ++ found_products env (List.length (searched w)) searches)%list, w')
      /\ plan (storage w') = []
      /\ log w' = (log w ++ sweep_log env (List.length (searched w)) searches)%list
      /\ exists added,
          scraping_sessions (db (storage w'))
          = (scraping_sessions (db (storage w)) ++ added)%list
          /\ Forall2 (session_of now)
               (productive env (List.length (searched w)) searches) added.
Proof.
  induction searches as [ | search_config rest IH]; intros all_products w Hplan.
  - exists w. cbn. rewrite !app_nil_r. split; [reflexivity | ].
    split; [assumption | split; [reflexivity | ]]. exists []. rewrite app_nil_r.
    split; [reflexivity | constructor].
  - cbn [sweep found_products productive sweep_log]. unfold bind at 1, try_except.
    pose proof (scrape_one_searched env now search_config w) as Hsearched.
    destruct (scrape_one_quiet env now search_config w Hplan)
      as (w1 & Hrun & Hplan1 & Hlog1 & added1 & Hsess1 & Hmatch1).
    rewrite Hrun in Hsearched |- *. cbn [snd] in Hsearched.
    assert (Hcount : List.length (searched w1)
                     = (List.length (searched w)
                        + List.length (call_of search_config))%nat)
      by (rewrite Hsearched, length_app; reflexivity).
    unfold yield in *.
    destruct (attempt env (List.length (searched w)) search_config)
      as [listings | e].
    + destruct (IH (all_products ++ listings)%list w1 Hplan1)
        as (w' & Hrest & Hplan' & Hlog' & added2 & Hsess2 & Hmatch2).
      exists w'. rewrite Hrest, Hcount, <- app_assoc.
      split; [reflexivity | split; [assumption | ]].
      split; [rewrite Hlog', Hlog1, Hcount, <- app_assoc; reflexivity | ].
      exists (added1 ++ added2)%list. rewrite Hsess2, Hsess1, <- app_assoc.
      split; [reflexivity | ].
      rewrite Hcount in Hmatch2.
      destruct listings; inversion Hmatch1; subst; cbn [app]; [assumption | ].
      match goal with H : Forall2 _ [] _ |- _ => inversion H; subst end.
      constructor; assumption.
    + unfold bind at 1. cbn [logger ret].
      match goal with
      | |- context [sweep env now rest ?a ?w2] =>
          destruct (IH a w2 Hplan1)
            as (w' & Hrest & Hplan' & Hlog' & added2 & Hsess2 & Hmatch2)
      end.
      cbn [searched storage log] in *.
      exists w'. rewrite Hrest, Hcount, !app_nil_r.
      split; [reflexivity | split; [assumption | ]].
      split.
      { rewrite Hlog', Hlog1, Hcount, app_nil_r, <- app_assoc. reflexivity. }
      exists (added1 ++ added2)%list. rewrite Hsess2, Hsess1, <- app_assoc.
      split; [reflexivity | ].
      rewrite Hcount in Hmatch2.
      inversion Hmatch1; subst. assumption.
Qed.

(** C7. For every list of pairs the sweep returns, whatever a scraper or the
    storage raises on the way: it has made the search of every pair with a
    supported site, in order; and, when the storage does not fail, it has
    gathered the listings of every pair whose search returned and logged the
    error of every pair whose search raised. *)
Theorem sweep_isolation (env : Env) (now : timestamp) (searches : list SearchConfig)
    (all_products : list ProductData.t) (w : World) :
  exists found w',
    sweep env now searches all_products w = (Returns (all_products ++ found)%list, w')
    /\ searched w' = (searched w ++ searches_made searches)%list
    /\ (plan (storage w) = [] ->
        found = found_products env (List.length (searched w)) searches
        /\ log w' = (log w ++ sweep_log env (List.length (searched w)) searches)%list).
Proof.
  destruct (sweep_returns env now searches all_products w) as (found & w' & Hrun & Hs).
  exists found, w'. split; [assumption | split; [assumption | ]].
  intros Hplan.
  destruct (sweep_quiet env now searches all_products w Hplan)
    as (w2 & Hquiet & _ & Hlog & _).
  rewrite Hrun in Hquiet. injection Hquiet as Hfound Hw. subst w2.
  split; [exact (app_inv_head _ _ _ Hfound) | exact Hlog].
Qed.

Lemma sweep_isolation_witness :
  let listing :=
    ProductData.mk (Some "Tablet") (Some "https://loja.example/p/9") (Some "ebay")
      (Some "E9") None (Some 500%float) None None None None None None None in
  let env :=
    mkEnv (fun n _ _ _ =>
             match n with
             | O => Raises (OtherError "Timeout")
             | _ => Returns [listing]
             end)
          [] (fun _ _ => Returns true) in
  exists w',
    sweep env 5%Z default_searches [] (mkWorld (mkStorage empty_db []) [] [] [])
    = (Returns [listing; listing], w')
    /\ searched w'
       = [(ScraperFactory.AmazonScraper, "notebook", 30%Z);
          (ScraperFactory.MercadoLivreScraper, "smartphone", 30%Z);
          (ScraperFactory.EbayScraper, "tablet", 20%Z)]
    /\ log w'
       = [LogPairError (mkSearch "amazon" "notebook" 30) (OtherError "Timeout");
          LogPair (mkSearch "mercadolivre" "smartphone" 30) 1;
          LogPair (mkSearch "ebay" "tablet" 20) 1].
Proof.
  intros listing env.
  destruct (sweep_isolation env 5%Z default_searches []
              (mkWorld (mkStorage empty_db []) [] [] []))
    as (found & w' & Hrun & Hsearched & Hquiet).
  destruct (Hquiet eq_refl) as [Hfound Hlog].
  exists w'. rewrite Hrun, Hsearched, Hfound, Hlog.
  split; [reflexivity | split; reflexivity].
Defined.

Lemma daily_scraping_returns (env : Env) (now : timestamp)
    (searches : list SearchConfig) (w : World) :
  exists found w1 w',
    sweep env now searches []
      (mkWorld (storage w) (searched w) (reports w) (log w ++ [LogStart]))
    = (Returns found, w1)
    /\ daily_scraping env now searches w = (Returns tt, w')
    /\ storage w' = storage w1.
Proof.
  destruct (sweep_returns env now searches []
              (mkWorld (storage w) (searched w) (reports w) (log w ++ [LogStart])))
    as (found & w1 & Hrun & _).
  cbn [app] in Hrun.
  unfold daily_scraping. unfold bind at 1. cbn [logger].
  unfold try_except. unfold bind at 1. rewrite Hrun.
  unfold bind at 1.
  destruct (negb (is_nil found) && negb (is_nil (email_recipients env))).
  - unfold bind at 1. unfold email_service.
    destruct (send_product_report env found (email_recipients env)) as [sent | e];
      eexists found, w1, _; (split; [reflexivity | split; reflexivity]).
  - eexists found, w1, _. split; [reflexivity | split; reflexivity].
Qed.

(** C6, amended. The daily job never raises. When the storage does not fail,
    one execution records one session for each pair whose search returned at
    least one listing, marked successful, with its counts and no error
    message, and none for a pair whose search returned nothing or raised. *)
Theorem daily_job_sessions (env : Env) (now : timestamp) (w : World) :
  exists w',
    _daily_scraping_job env now w = (Returns tt, w')
    /\ (plan (storage w) = [] ->
        exists added,
          scraping_sessions (db (storage w'))
          = (scraping_sessions (db (storage w)) ++ added)%list
          /\ Forall2 (session_of now)
               (productive env (List.length (searched w)) default_searches) added).
Proof.
  unfold _daily_scraping_job.
  destruct (daily_scraping_returns env now default_searches w)
    as (found & w1 & w' & Hsweep & Hjob & Hstorage).
  exists w'. split; [assumption | ]. intros Hplan.
  destruct (sweep_quiet env now default_searches []
              (mkWorld (storage w) (searched w) (reports w) (log w ++ [LogStart]))
              Hplan)
    as (w2 & Hquiet & _ & _ & added & Hsess & Hmatch).
  rewrite Hsweep in Hquiet. injection Hquiet as _ Hw. subst w2.
  exists added. rewrite Hstorage. split; assumption.
Qed.

Lemma daily_job_sessions_witness :
  let listing :=
    ProductData.mk (Some "Tablet") (Some "https://loja.example/p/9") (Some "ebay")
      (Some "E9") None (Some 500%float) None None None None None None None in
  let env :=
    mkEnv (fun n _ _ _ =>
             match n with
             | O => Raises (OtherError "Timeout")
             | 1%nat => Returns []
             | _ => Returns [listing]
             end)
          [] (fun _ _ => Returns true) in
  exists w' session,
    _daily_scraping_job env 5%Z (mkWorld (mkStorage empty_db []) [] [] [])
    = (Returns tt, w')
    /\ scraping_sessions (db (storage w')) = [session]
    /\ ScrapingSession.site session = Some "ebay"
    /\ ScrapingSession.success session = true
    /\ ScrapingSession.error_message session = None.
Proof.
  intros listing env.
  destruct (daily_job_sessions env 5%Z (mkWorld (mkStorage empty_db []) [] [] []))
    as (w' & Hjob & Hsessions).
  destruct (Hsessions eq_refl) as (added & Hadded & Hmatch).
  cbn in Hadded, Hmatch.
  destruct added as [ | session [ | extra others]];
    [inversion Hmatch | |
     inversion Hmatch as [ | ? ? ? ? ? Hrest]; inversion Hrest].
  inversion Hmatch as [ | ? ? ? ? Hsession _]; subst.
  destruct Hsession as (Hsite & _ & _ & _ & Hsuccess & Herror & _).
  exists w', session.
  split; [exact Hjob | split; [exact Hadded | ]].
  split; [exact Hsite | split; [exact Hsuccess | exact Herror]].
Defined.

(** An execution whose searches all return nothing and one whose searches all
    raise both record no session and leave the same database; an execution
    whose three searches all return a listing records three sessions. *)
Lemma daily_job_sessions_counterexample :
  let listing :=
    ProductData.mk (Some "Tablet") (Some "https://loja.example/p/9") (Some "ebay")
      (Some "E9") None (Some 500%float) None None None None None None None in
  let nothing := mkEnv (fun _ _ _ _ => Returns []) [] (fun _ _ => Returns true) in
  let failing :=
    mkEnv (fun _ _ _ _ => Raises (OtherError "Timeout")) [] (fun _ _ => Returns true) in
  let full := mkEnv (fun _ _ _ _ => Returns [listing]) [] (fun _ _ => Returns true) in
  let start := mkWorld (mkStorage empty_db []) [] [] [] in
  let after env := storage (snd (_daily_scraping_job env 5%Z start)) in
  scraping_sessions (db (after nothing)) = []
  /\ scraping_sessions (db (after failing)) = []
  /\ after nothing = after failing
  /\ List.length (scraping_sessions (db (after full))) = 3%nat.
Proof. vm_compute. repeat split. Qed.

End SweepClaims.

(** ** Validation, filters and pages of a search *)

Section ScraperFacts.
Import BaseScraper SearchRules.

Lemma not_leb_zero (f : float) :
  (f <=? 0)%float = false -> (0 <? f)%float = true \/ f = nan.
Proof.
  rewrite leb_spec, ltb_spec. unfold SFleb, SFltb.
  change (Prim2SF 0%float) with (S754_zero false).
  destruct (Prim2SF f) as [[ | ] | [ | ] | | [ | ] m e] eqn:Hf;
    cbn; try discriminate; auto.
  intros _. right. apply Prim2SF_inj. rewrite Hf. reflexivity.
Qed.

(** X1. A product is valid exactly when its title is not empty, its url
    starts with [http://] or [https://], and its price is present, not zero
    and not below zero; so the price of a valid product is positive or is
    NaN, and NaN does pass. *)
Theorem validate_product_exact :
  (forall product,
      _validate_product product = true
      <-> truthy (ProductData.title product) = true
          /\ is_http (get (ProductData.url product) "") = true
          /\ exists price,
              ProductData.price product = Some price
              /\ (price =? 0)%float = false
              /\ (price <=? 0)%float = false)
  /\ (forall product price,
         _validate_product product = true ->
         ProductData.price product = Some price ->
         (0 <? price)%float = true \/ price = nan)
  /\ (forall title url rest,
         truthy (Some title) = true -> is_http url = true ->
         _validate_product
           (ProductData.mk (Some title) (Some url) None None None (Some nan)
              rest None None None None None None) = true).
Proof.
  assert (Hexact : forall product,
      _validate_product product = true
      <-> truthy (ProductData.title product) = true
          /\ is_http (get (ProductData.url product) "") = true
          /\ exists price,
              ProductData.price product = Some price
              /\ (price =? 0)%float = false
              /\ (price <=? 0)%float = false).
  { intros product. unfold _validate_product, truthy_float.
    destruct (truthy (ProductData.title product)); cbn [negb];
      [ | split; [discriminate | intros (H & _); discriminate]].
    destruct (ProductData.price product) as [price | ]; cbn [negb get];
      [ | split; [discriminate | intros (_ & _ & p & H & _); discriminate]].
    destruct (price =? 0)%float eqn:Hzero; cbn [negb].
    { split; [discriminate | ]. intros (_ & _ & p & H & Hp & _).
      inversion H; subst. congruence. }
    destruct (ProductData.url product) as [[ | c url] | ] eqn:Hurl;
      cbn [truthy negb get PyStr.is_empty orb].
    - split; [discriminate | intros (_ & H & _); discriminate].
    - destruct (price <=? 0)%float eqn:Hle.
      + split; [discriminate | ]. intros (_ & _ & p & H & _ & Hp).
        inversion H; subst. congruence.
      + destruct (is_http (String c url)); cbn [negb].
        * split; [ | reflexivity]. intros _. repeat split. exists price. auto.
        * split; [discriminate | intros (_ & H & _); discriminate].
    - split; [discriminate | intros (_ & H & _); discriminate]. }
  split; [exact Hexact | split].
  - intros product price Hvalid Hprice.
    apply Hexact in Hvalid as (_ & _ & p & Hp & _ & Hle).
    rewrite Hprice in Hp. inversion Hp; subst. apply not_leb_zero. assumption.
  - intros title url rest Htitle Hurl. apply Hexact. cbn [ProductData.title
      ProductData.url ProductData.price get].
    split; [assumption | split; [assumption | ]].
    exists nan. repeat split.
Qed.

Lemma validate_product_exact_witness :
  _validate_product
    (ProductData.mk (Some "Tablet") (Some "https://loja.example/p/9") None None None
       (Some nan) None None None None None None None) = true.
Proof.
  apply (proj2 (proj2 validate_product_exact) "Tablet" "https://loja.example/p/9" None);
    reflexivity.
Defined.

Lemma filter_filter {A : Type} (p q : A -> bool) (l : list A) :
  filter q (filter p l) = filter (fun x => p x && q x) l.
Proof.
  induction l as [ | x l IH]; cbn [filter]; [reflexivity | ].
  destruct (p x); cbn [filter andb]; [ | exact IH].
  destruct (q x); rewrite IH; reflexivity.
Qed.

Lemma filter_true {A : Type} (l : list A) : filter (fun _ => true) l = l.
Proof. induction l as [ | x l IH]; cbn; [ | rewrite IH]; reflexivity. Qed.

Lemma filter_all {A : Type} (p : A -> bool) (l : list A) :
  (forall x, p x = true) -> filter p l = l.
Proof.
  intros Hp. induction l as [ | x l IH]; cbn; [ | rewrite Hp, IH]; reflexivity.
Qed.

(** The four filters applied one after the other keep the products that pass
    all of them. *)
Lemma filters_at_once (products : list ProductData.t) (filters : Filters) :
  _apply_filters products filters
  = match max_results filters with
    | Some limit => slice_to limit (filter (passes filters) products)
    | None => filter (passes filters) products
    end.
Proof.
  unfold _apply_filters. cbv zeta.
  assert (Hsame : forall a b : list ProductData.t, a = b ->
            match max_results filters with
            | Some limit => slice_to limit a
            | None => a
            end
            = match max_results filters with
              | Some limit => slice_to limit b
              | None => b
              end) by (intros a b ->; reflexivity).
  apply Hsame. unfold passes.
  destruct (min_price filters), (max_price filters), (min_rating filters),
    (free_shipping_only filters) as [[ | ] | ];
    cbn [given]; rewrite ?filter_filter;
    first [ apply filter_ext; intros x; cbn [andb];
            rewrite ?andb_true_r, ?andb_assoc; reflexivity
          | symmetry; apply filter_all; intros x; reflexivity ].
Qed.

Lemma passes_bounds (filters : Filters) (product : ProductData.t) :
  passes filters product = true ->
  (forall bound, min_price filters = Some bound ->
                 (bound <=? get (ProductData.price product) 0)%float = true)
  /\ (forall bound, max_price filters = Some bound ->
                    (get (ProductData.price product) 0 <=? bound)%float = true)
  /\ (forall bound, min_rating filters = Some bound ->
                    (bound <=? get (ProductData.rating product) 0)%float = true)
  /\ (free_shipping_only filters = Some true ->
      ProductData.free_shipping product = Some true).
Proof.
  unfold passes. intros H.
  apply andb_true_iff in H as [H Hship].
  apply andb_true_iff in H as [H Hrating].
  apply andb_true_iff in H as [Hmin Hmax].
  repeat split.
  - intros bound E. rewrite E in Hmin. exact Hmin.
  - intros bound E. rewrite E in Hmax. exact Hmax.
  - intros bound E. rewrite E in Hrating. exact Hrating.
  - intros E. rewrite E in Hship. unfold ships_free in Hship.
    destruct (ProductData.free_shipping product) as [[ | ] | ];
      cbn in Hship; congruence.
Qed.

Lemma firstn_subset {A : Type} (n : nat) (l : list A) (x : A) :
  In x (firstn n l) -> In x l.
Proof.
  intros H. rewrite <- (firstn_skipn n l). apply in_or_app. left. exact H.
Qed.

Lemma slice_to_in {A : Type} (k : Z) (l : list A) (x : A) :
  In x (slice_to k l) -> In x l.
Proof. unfold slice_to. destruct (0 <=? k)%Z; apply firstn_subset. Qed.

Lemma apply_filters_in (products : list ProductData.t) (filters : Filters)
    (product : ProductData.t) :
  In product (_apply_filters products filters) ->
  In product products /\ passes filters product = true.
Proof.
  rewrite filters_at_once. intros H.
  assert (Hin : In product (filter (passes filters) products))
    by (destruct (max_results filters); [apply slice_to_in in H | ]; exact H).
  apply filter_In in Hin. exact Hin.
Qed.

(** X2. Filtering keeps, in their order, the products that pass all the
    filters given, cut to the limit when there is one: every product
    returned is one of the input and is within each bound that was asked
    for, a product without a price or rating counting as 0. *)
Theorem apply_filters_sound (products : list ProductData.t) (filters : Filters) :
  _apply_filters products filters
  = match max_results filters with
    | Some limit => slice_to limit (filter (passes filters) products)
    | None => filter (passes filters) products
    end
  /\ forall product,
      In product (_apply_filters products filters) ->
      In product products
      /\ (forall bound, min_price filters = Some bound ->
                        (bound <=? get (ProductData.price product) 0)%float = true)
      /\ (forall bound, max_price filters = Some bound ->
                        (get (ProductData.price product) 0 <=? bound)%float = true)
      /\ (forall bound, min_rating filters = Some bound ->
                        (bound <=? get (ProductData.rating product) 0)%float = true)
      /\ (free_shipping_only filters = Some true ->
          ProductData.free_shipping product = Some true).
Proof.
  split; [apply filters_at_once | ].
  intros product Hin. apply apply_filters_in in Hin as [Hin Hpass].
  split; [assumption | apply passes_bounds; assumption].
Qed.

Lemma apply_filters_sound_witness :
  (50 <=? get (ProductData.price
                 (ProductData.mk (Some "A") None None None None (Some 100%float)
                    None None None (Some 4.8%float) None None None)) 0)%float = true.
Proof.
  exact (proj1 (proj2 (proj2 (apply_filters_sound
           [ProductData.mk (Some "A") None None None None (Some 100%float)
              None None None (Some 4.8%float) None None None;
            ProductData.mk (Some "B") None None None None (Some 20%float)
              None None None (Some 3.5%float) None None None]
           (mkFilters (Some 50%float) (Some 150%float) (Some 4%float) None None))
         (ProductData.mk (Some "A") None None None None (Some 100%float)
            None None None (Some 4.8%float) None None None)
         (or_introl eq_refl))) 50%float eq_refl).
Defined.

Lemma apply_filters_length (products : list ProductData.t) (filters : Filters)
    (limit : Z) :
  max_results filters = Some limit -> (0 <= limit)%Z ->
  (Z.of_nat (List.length (_apply_filters products filters)) <= limit)%Z.
Proof.
  intros Hlimit Hpos. rewrite filters_at_once, Hlimit. unfold slice_to.
  replace (0 <=? limit)%Z with true by (symmetry; apply Z.leb_le; lia).
  rewrite length_firstn. lia.
Qed.

(** X3. With a limit that is not negative at most that many products are
    returned; a negative limit does not mean none or all: it drops that many
    products from the end of the filtered list. *)
Theorem apply_filters_limit (products : list ProductData.t) (filters : Filters)
    (limit : Z) :
  max_results filters = Some limit ->
  ((0 <= limit)%Z ->
   _apply_filters products filters
   = firstn (Z.to_nat limit) (filter (passes filters) products)
   /\ (Z.of_nat (List.length (_apply_filters products filters)) <= limit)%Z)
  /\ ((limit < 0)%Z ->
      List.length (_apply_filters products filters)
      = (List.length (filter (passes filters) products) - Z.to_nat (- limit))%nat).
Proof.
  intros Hlimit. rewrite filters_at_once, Hlimit. unfold slice_to. split.
  - intros Hpos. replace (0 <=? limit)%Z with true by (symmetry; apply Z.leb_le; lia).
    split; [reflexivity | ]. rewrite length_firstn. lia.
  - intros Hneg. replace (0 <=? limit)%Z with false by (symmetry; apply Z.leb_gt; lia).
    rewrite length_firstn. lia.
Qed.

Lemma apply_filters_limit_witness :
  List.length
    (_apply_filters
       [ProductData.mk (Some "A") None None None None (Some 100%float)
          None None None None None None None;
        ProductData.mk (Some "B") None None None None (Some 20%float)
          None None None None None None None;
        ProductData.mk (Some "C") None None None None (Some 30%float)
          None None None None None None None]
       (mkFilters None None None None (Some (-1)%Z)))
  = 2%nat.
Proof.
  match goal with
  | |- List.length (_apply_filters ?products ?filters) = _ =>
      rewrite (proj2 (apply_filters_limit products filters (-1)%Z eq_refl))
        by reflexivity
  end.
  reflexivity.
Defined.

Lemma filter_fixed {A : Type} (p : A -> bool) (l : list A) :
  Forall (fun x => p x = true) l -> filter p l = l.
Proof.
  induction 1 as [ | x l Hx _ IH]; cbn; [ | rewrite Hx, IH]; reflexivity.
Qed.

Lemma firstn_filter_passes {A : Type} (p : A -> bool) (n : nat) (l : list A) :
  filter p (firstn n (filter p l)) = firstn n (filter p l).
Proof.
  apply filter_fixed, Forall_forall. intros x Hx.
  apply firstn_subset, filter_In in Hx. tauto.
Qed.

(** X4. Filtering what was already filtered with the same filters changes
    nothing, provided the limit, if there is one, is not negative. *)
Theorem apply_filters_idempotent (products : list ProductData.t) (filters : Filters) :
  (forall limit, max_results filters = Some limit -> (0 <= limit)%Z) ->
  _apply_filters (_apply_filters products filters) filters
  = _apply_filters products filters.
Proof.
  intros Hlimit. rewrite !filters_at_once.
  destruct (max_results filters) as [limit | ].
  - specialize (Hlimit limit eq_refl). unfold slice_to.
    replace (0 <=? limit)%Z with true by (symmetry; apply Z.leb_le; lia).
    rewrite firstn_filter_passes, firstn_firstn, Nat.min_id. reflexivity.
  - rewrite filter_filter. apply filter_ext. intros x. apply andb_diag.
Qed.

Lemma apply_filters_idempotent_witness :
  let products :=
    [ProductData.mk (Some "A") None None None None (Some 100%float)
       None None None None None None None;
     ProductData.mk (Some "B") None None None None (Some 20%float)
       None None None None None None None] in
  let filters := mkFilters (Some 50%float) None None None (Some 5%Z) in
  _apply_filters (_apply_filters products filters) filters
  = _apply_filters products filters.
Proof.
  intros products filters. apply apply_filters_idempotent.
  intros limit H. inversion H. lia.
Defined.

Lemma request_pages_shape (fetch : nat -> outcome (option (list Element)))
    (limit : Z) (pages_left : nat) :
  forall page products,
    exists count,
      (count <= pages_left)%nat
      /\ fst (request_pages fetch limit pages_left page products) = seq page count
      /\ snd (request_pages fetch limit pages_left page products)
         = (products
            ++ flat_map (page_products fetch)
                 (fst (request_pages fetch limit pages_left page products)))%list
      /\ forall asked,
          In asked (removelast (fst (request_pages fetch limit pages_left page products))) ->
          page_products fetch asked <> [].
Proof.
  induction pages_left as [ | fewer IH]; intros page products; cbn [request_pages].
  - exists 0%nat. cbn. rewrite app_nil_r. repeat split; auto; intros asked [].
  - destruct (Z.of_nat (List.length products) <? limit)%Z.
    2:{ exists 0%nat. cbn. rewrite app_nil_r.
        repeat split; try lia; try (intros asked []). }
    assert (Hone : forall gathered,
               gathered = (products ++ page_products fetch page)%list ->
               exists count,
                 (count <= S fewer)%nat
                 /\ fst ([page], gathered) = seq page count
                 /\ snd ([page], gathered)
                    = (products ++ flat_map (page_products fetch)
                                     (fst ([page], gathered)))%list
                 /\ forall asked,
                     In asked (removelast (fst ([page], gathered))) ->
                     page_products fetch asked <> []).
    { intros gathered ->. exists 1%nat. cbn. rewrite app_nil_r.
      repeat split; try lia; try (intros asked []). }
    unfold page_products in Hone at 1.
    destruct (fetch page) as [[elements | ] | e] eqn:Hfetch;
      try (apply Hone; rewrite app_nil_r; reflexivity).
    destruct (no_items (_extract_products_from_page elements)) eqn:Hnone.
    { apply Hone. destruct (_extract_products_from_page elements);
        [rewrite app_nil_r; reflexivity | discriminate]. }
    destruct (10 <? page + 1)%nat; [apply Hone; reflexivity | ].
    destruct (IH (page + 1)%nat (products ++ _extract_products_from_page elements)%list)
      as (count & Hcount & Hasked & Hgathered & Hyield).
    destruct (request_pages fetch limit fewer (page + 1)
                (products ++ _extract_products_from_page elements)%list)
      as [asked gathered].
    cbn [fst snd] in *. exists (S count).
    split; [lia | ]. split; [cbn; rewrite Hasked, Nat.add_1_r; reflexivity | ].
    assert (Hpage : page_products fetch page = _extract_products_from_page elements)
      by (unfold page_products; rewrite Hfetch; reflexivity).
    split.
    + cbn [flat_map]. rewrite Hgathered, Hpage, app_assoc. reflexivity.
    + intros p Hp. destruct asked as [ | next more]; [destruct Hp | ].
      cbn [removelast] in Hp. destruct Hp as [<- | Hp].
      * rewrite Hpage. destruct (_extract_products_from_page elements);
          [discriminate | congruence].
      * apply Hyield. exact Hp.
Qed.

(** The bound on the recursion is never what stops the loop: from page 1 ten
    steps are as good as any larger number. *)
Lemma request_pages_enough (fetch : nat -> outcome (option (list Element)))
    (limit : Z) (pages_left : nat) :
  forall page products extra,
    (1 <= pages_left)%nat -> (11 <= page + pages_left)%nat ->
    request_pages fetch limit (pages_left + extra) page products
    = request_pages fetch limit pages_left page products.
Proof.
  induction pages_left as [ | fewer IH]; intros page products extra Hone Hcap;
    [lia | ].
  cbn [request_pages Nat.add].
  destruct (Z.of_nat (List.length products) <? limit)%Z; [ | reflexivity].
  destruct (fetch page) as [[elements | ] | e]; try reflexivity.
  destruct (no_items (_extract_products_from_page elements)); [reflexivity | ].
  destruct (10 <? page + 1)%nat eqn:Hten; [reflexivity | ].
  apply Nat.ltb_ge in Hten. rewrite IH by lia. reflexivity.
Qed.

Lemma search_products_closed (fetch : nat -> outcome (option (list Element)))
    (filters : Filters) :
  exists count,
    (count <= 10)%nat
    /\ fst (search_products fetch filters) = seq 1 count
    /\ snd (search_products fetch filters)
       = _apply_filters
           (flat_map (page_products fetch) (fst (search_products fetch filters)))
           filters
    /\ forall asked,
        In asked (removelast (fst (search_products fetch filters))) ->
        page_products fetch asked <> [].
Proof.
  destruct (request_pages_shape fetch (get (max_results filters) 50%Z) 10 1%nat [])
    as (count & Hcount & Hasked & Hgathered & Hyield).
  unfold search_products.
  destruct (request_pages fetch (get (max_results filters) 50%Z) 10 1 [])
    as [asked gathered].
  cbn [fst snd app] in *. exists count. rewrite Hgathered. auto.
Qed.

(** X5. A search asks for pages 1, 2, ... in turn and for at most ten of
    them, however long the recursion is allowed to be; every page asked
    except the last gave products; and what is returned is the filtering of
    everything the pages asked gave, so that a page that fails or is empty
    ends the search without losing the pages before it. *)
Theorem search_pages_bounded (fetch : nat -> outcome (option (list Element)))
    (filters : Filters) :
  (exists count,
      (count <= 10)%nat
      /\ fst (search_products fetch filters) = seq 1 count
      /\ snd (search_products fetch filters)
         = _apply_filters
             (flat_map (page_products fetch) (fst (search_products fetch filters)))
             filters
      /\ forall asked,
          In asked (removelast (fst (search_products fetch filters))) ->
          page_products fetch asked <> [])
  /\ forall extra,
      request_pages fetch (get (max_results filters) 50%Z) (10 + extra) 1 []
      = request_pages fetch (get (max_results filters) 50%Z) 10 1 [].
Proof.
  split; [apply search_products_closed | ].
  intros extra. apply request_pages_enough; lia.
Qed.

Lemma extract_valid (elements : list Element) (product : ProductData.t) :
  In product (_extract_products_from_page elements) ->
  _validate_product product = true.
Proof.
  unfold _extract_products_from_page. rewrite in_flat_map.
  intros (element & _ & Hin). unfold keep_element in Hin.
  destruct element as [[candidate | ] | e]; try destruct Hin.
  destruct (_validate_product candidate) eqn:Hvalid; [ | destruct Hin].
  destruct Hin as [<- | []]. assumption.
Qed.

(** X6. Every product a search returns has been validated and passes the
    filters of the search; with a limit that is not negative there are at
    most that many. *)
Theorem search_products_valid (fetch : nat -> outcome (option (list Element)))
    (filters : Filters) :
  (forall product,
      In product (snd (search_products fetch filters)) ->
      _validate_product product = true /\ passes filters product = true)
  /\ (forall limit,
         max_results filters = Some limit -> (0 <= limit)%Z ->
         (Z.of_nat (List.length (snd (search_products fetch filters))) <= limit)%Z).
Proof.
  destruct (search_products_closed fetch filters) as (count & _ & _ & Hresult & _).
  split.
  - intros product Hin. rewrite Hresult in Hin.
    apply apply_filters_in in Hin as [Hin Hpass]. split; [ | assumption].
    apply in_flat_map in Hin as (page & _ & Hin). unfold page_products in Hin.
    destruct (fetch page) as [[elements | ] | e]; try destruct Hin.
    exact (extract_valid _ _ Hin).
  - intros limit Hlimit Hpos. rewrite Hresult.
    apply apply_filters_length; assumption.
Qed.

Lemma search_products_valid_witness :
  let good :=
    ProductData.mk (Some "Tablet") (Some "https://loja.example/p/9") None None None
      (Some 500%float) None None None None None None None in
  let bad :=
    ProductData.mk (Some "Capa") (Some "/p/10") None None None
      (Some 20%float) None None None None None None None in
  let fetch page :=
    match page with
    | 1%nat => Returns (Some [Returns (Some good); Returns (Some bad); Raises ValueError])
    | _ => Raises (OtherError "Timeout")
    end in
  (Z.of_nat (List.length (snd (search_products fetch
                                 (mkFilters None None None None (Some 30%Z))))) <= 30)%Z.
Proof.
  intros good bad fetch.
  apply (proj2 (search_products_valid fetch (mkFilters None None None None (Some 30%Z)))
           30%Z eq_refl).
  lia.
Defined.

End ScraperFacts.

(** ** The tables under a batch *)

Section Consistency.
Import DatabaseManager Identity Integrity.

Lemma distinct_NoDup (keys : list Z) : distinct keys = true <-> NoDup keys.
Proof.
  induction keys as [ | key rest IH]; cbn [distinct].
  - split; [constructor | reflexivity].
  - rewrite andb_true_iff, negb_true_iff, IH. split.
    + intros [Hnot Hrest]. constructor; [ | assumption].
      intros Hin. assert (Hex : existsb (Z.eqb key) rest = true); [ | congruence].
      apply existsb_exists. exists key. split; [assumption | apply Z.eqb_refl].
    + intros H. inversion H as [ | ? ? Hnot Hrest]; subst. split; [ | assumption].
      destruct (existsb (Z.eqb key) rest) eqn:E; [ | reflexivity].
      apply existsb_exists in E as (x & Hin & Heq). apply Z.eqb_eq in Heq.
      subst x. contradiction.
Qed.

Lemma consistent_spec (store : DB) : consistent store = true <-> well_formed store.
Proof.
  unfold consistent, well_formed.
  rewrite !andb_true_iff, !distinct_NoDup, forallb_forall, Forall_forall.
  split.
  - intros [[H1 H2] H3]. repeat split; try assumption.
    intros h Hh. specialize (H3 h Hh).
    apply existsb_exists in H3 as (x & Hin & Heq). apply Z.eqb_eq in Heq.
    rewrite Heq. assumption.
  - intros (H1 & H2 & H3). repeat split; try assumption.
    intros h Hh. apply existsb_exists. exists (PriceHistory.product_id h).
    split; [apply H3; assumption | apply Z.eqb_refl].
Qed.

Lemma NoDup_fresh (keys : list Z) : NoDup keys -> NoDup (keys ++ [next_id keys]).
Proof.
  intros H. apply NoDup_app; [assumption | repeat constructor; intros [] | ].
  intros x Hx [<- | []]. pose proof (next_id_fresh _ _ Hx). lia.
Qed.

Lemma insert_well_formed (now : timestamp) (store : DB) (a : PriceHistory.args) :
  well_formed store ->
  In (PriceHistory.arg_product_id a) (map Product.id (products store)) ->
  well_formed (insert_price_history now store a).
Proof.
  intros (H1 & H2 & H3) Hin. unfold well_formed, insert_price_history.
  cbn [products price_history]. repeat split; [assumption | | ].
  - rewrite map_app. cbn [map PriceHistory.id]. apply NoDup_fresh. assumption.
  - apply Forall_app. split; [assumption | ]. constructor; [exact Hin | constructor].
Qed.

Lemma flushed_well_formed (now : timestamp) (rows : list PriceHistory.args) (store : DB) :
  well_formed store -> owned store rows -> well_formed (flushed now store rows).
Proof.
  unfold flushed, owned. revert store.
  induction rows as [ | a rows IH]; intros store Hwf Hown; cbn [fold_left];
    [assumption | ].
  inversion Hown as [ | ? ? Ha Hrows]; subst.
  apply IH; [apply insert_well_formed; assumption | exact Hrows].
Qed.

Lemma upsert_well_formed (session_id : option Z) (now : timestamp) (t : DB)
    (p : list PriceHistory.args) (product_data : ProductData.t) :
  well_formed t -> owned t p ->
  well_formed (snd (fst (upsert session_id now t p product_data)))
  /\ owned (snd (fst (upsert session_id now t p product_data)))
           (snd (upsert session_id now t p product_data)).
Proof.
  intros Hwf Hown. unfold upsert.
  destruct (resolve t product_data) as [existing | ] eqn:Hres; cbn [fst snd].
  - split.
    + destruct Hwf as (H1 & H2 & H3). unfold well_formed.
      rewrite replace_row_ids. repeat split; assumption.
    + unfold owned. rewrite replace_row_ids. apply Forall_app. split; [exact Hown | ].
      unfold change_rows. destruct (price_changed _ _); constructor; [ | constructor].
      cbn [PriceHistory.arg_product_id]. apply in_map.
      exact (resolve_in _ _ _ Hres).
  - pose proof (flushed_well_formed now p t Hwf Hown) as (H1 & H2 & H3).
    split.
    + unfold well_formed. cbn [products price_history]. repeat split.
      * rewrite map_app. cbn [map create_product_from_dict Product.id].
        apply NoDup_fresh. assumption.
      * assumption.
      * eapply Forall_impl; [ | exact H3]. cbn beta. intros h Hh.
        rewrite map_app. apply in_or_app. left. assumption.
    + unfold owned. constructor; [ | constructor].
      cbn [PriceHistory.arg_product_id products]. rewrite map_app.
      apply in_or_app. right. left. reflexivity.
Qed.

Lemma upsert_all_well_formed (session_id : option Z) (now : timestamp)
    (products_data : list ProductData.t) (t : DB) (p : list PriceHistory.args) :
  well_formed t -> owned t p ->
  well_formed (snd (fst (upsert_all session_id now t p products_data)))
  /\ owned (snd (fst (upsert_all session_id now t p products_data)))
           (snd (upsert_all session_id now t p products_data)).
Proof.
  revert t p. induction products_data as [ | product_data rest IH]; intros t p Hwf Hown;
    cbn [upsert_all]; [split; assumption | ].
  pose proof (upsert_well_formed session_id now t p product_data Hwf Hown) as Hone.
  destruct (upsert session_id now t p product_data) as [[saved t1] p1].
  cbn [fst snd] in Hone. destruct Hone as [Hwf1 Hown1].
  specialize (IH t1 p1 Hwf1 Hown1).
  destruct (upsert_all session_id now t1 p1 rest) as [[others t2] p2].
  exact IH.
Qed.

Lemma committed_well_formed (session_id : option Z) (now : timestamp) (store : DB)
    (products_data : list ProductData.t) :
  well_formed store -> well_formed (committed session_id now store products_data).
Proof.
  intros Hwf. unfold committed.
  pose proof (upsert_all_well_formed session_id now products_data store [] Hwf
                (Forall_nil _)) as Hall.
  destruct (upsert_all session_id now store [] products_data) as [[saved t] p].
  cbn [fst snd] in Hall. apply flushed_well_formed; tauto.
Qed.

(** What a batch leaves: the whole of it, or nothing. *)
Lemma save_products_outcome (products_data : list ProductData.t)
    (session_id : option Z) (now : timestamp) (st : Storage) :
  (exists rest,
      save_products products_data session_id now st
      = (Returns (fst (fst (upsert_all session_id now (db st) [] products_data))),
         mkStorage (committed session_id now (db st) products_data) rest))
  \/ (exists rest,
         save_products products_data session_id now st
         = (Raises SQLAlchemyError, mkStorage (db st) rest)).
Proof.
  unfold save_products, in_session. unfold bind at 1 3.
  pose proof (regular_save_each products_data session_id now (open_session st)) as Hreg.
  destruct (save_each products_data session_id now (open_session st))
    as [[saved | e] s1] eqn:Hrun.
  - destruct Hreg as [Hbase Hquiet].
    change (quiet (open_session st)) with (mkSession (db st) (db st) [] []) in Hquiet.
    rewrite save_each_quiet in Hquiet.
    unfold committed.
    destruct (upsert_all session_id now (db st) [] products_data) as [[saved' t] p].
    cbn [fst]. unfold quiet in Hquiet. injection Hquiet as Hsaved _ Ht Hp.
    destruct (commit_cases now s1) as [(rest & Hcommit) | (s2 & Hcommit & Hbase2)];
      unfold bind; rewrite Hcommit.
    + left. exists rest. unfold ret, close_session. cbn [base faults].
      rewrite <- Ht, <- Hp, Hsaved. reflexivity.
    + right. exists (faults s2). unfold close_session, rollback. cbn [snd base faults].
      rewrite Hbase2, Hbase. reflexivity.
  - destruct Hreg as [-> Hbase]. right. exists (faults s1).
    unfold close_session, rollback. cbn [snd base faults].
    rewrite Hbase. reflexivity.
Qed.

(** X7. A batch keeps the tables consistent whatever the storage does: if
    the keys of the products and of the price records were distinct and every
    price record belonged to a stored product before [save_products], the
    same holds after it, whether it returned or raised. *)
Theorem save_products_consistent (products_data : list ProductData.t)
    (session_id : option Z) (now : timestamp) (st : Storage) :
  consistent (db st) = true ->
  consistent (db (snd (save_products products_data session_id now st))) = true.
Proof.
  intros Hok.
  destruct (save_products_outcome products_data session_id now st)
    as [(rest & ->) | (rest & ->)]; cbn [snd db]; [ | assumption].
  apply consistent_spec, committed_well_formed, consistent_spec. assumption.
Qed.

End Consistency.

(** ** What a batch adds *)

Section Appends.
Import DatabaseManager Identity Integrity.

Lemma flushed_history_ext (now : timestamp) (rows : list PriceHistory.args)
    (s s' : DB) :
  price_history s = price_history s' ->
  price_history (flushed now s rows) = price_history (flushed now s' rows).
Proof.
  unfold flushed. revert s s'.
  induction rows as [ | a rows IH]; intros s s' H; cbn [fold_left]; [assumption | ].
  apply IH. unfold insert_price_history. cbn [price_history]. rewrite H. reflexivity.
Qed.

Lemma flushed_app (now : timestamp) (store : DB) (p q : list PriceHistory.args) :
  flushed now store (p ++ q) = flushed now (flushed now store p) q.
Proof. unfold flushed. apply fold_left_app. Qed.

Lemma flushed_appends (now : timestamp) (rows : list PriceHistory.args) (store : DB) :
  exists added : list PriceHistory.t,
    price_history (flushed now store rows) = (price_history store ++ added)%list
    /\ Forall2 (fun a row => row_of now a row
                             /\ PriceHistory.discount_percent row = 0%float)
               rows added.
Proof.
  unfold flushed. revert store.
  induction rows as [ | a rows IH]; intros store; simpl.
  - exists []. rewrite app_nil_r. split; [reflexivity | constructor].
  - destruct (IH (insert_price_history now store a)) as (added & Hadd & Hrows).
    eexists (_ :: added). split.
    + rewrite Hadd. simpl. rewrite <- app_assoc. reflexivity.
    + constructor; [ | assumption]. unfold row_of. simpl. repeat split.
Qed.

Lemma batch_row_incl (l l' : list ProductData.t) (session_id : option Z)
    (now : timestamp) (row : PriceHistory.t) :
  incl l l' -> batch_row l session_id now row -> batch_row l' session_id now row.
Proof.
  intros Hincl (H1 & H2 & H3 & d & Hd & H4 & H5). repeat split; try assumption.
  exists d. repeat split; try assumption. apply Hincl. assumption.
Qed.

Lemma upsert_appends (session_id : option Z) (now : timestamp) (t : DB)
    (p : list PriceHistory.args) (product_data : ProductData.t) :
  exists added,
    price_history (flushed now (snd (fst (upsert session_id now t p product_data)))
                           (snd (upsert session_id now t p product_data)))
    = (price_history (flushed now t p) ++ added)%list
    /\ (List.length added <= 1)%nat
    /\ Forall (batch_row [product_data] session_id now) added.
Proof.
  unfold upsert.
  destruct (resolve t product_data) as [existing | ] eqn:Hres; cbn [fst snd].
  - rewrite flushed_app.
    destruct (flushed_appends now (change_rows existing product_data session_id)
                (flushed now (replace_row (update_fields existing product_data now) t) p))
      as (added & Hadd & Hrows).
    exists added. split.
    + rewrite Hadd. f_equal. apply flushed_history_ext. reflexivity.
    + unfold change_rows in Hrows. destruct (price_changed _ _).
      * inversion Hrows as [ | a row l l' [Hrow Hzero] Hrest]; subst.
        inversion Hrest; subst. split; [cbn; lia | ].
        constructor; [ | constructor].
        destruct Hrow as (_ & Hprice & Horig & Hsess & Htime).
        repeat split; try assumption.
        exists product_data. repeat split; [left; reflexivity | | ]; assumption.
      * inversion Hrows; subst. split; [cbn; lia | constructor].
  - set (t' := flushed now t p).
    set (row := create_product_from_dict product_data
                  (next_id (map Product.id (products t'))) now).
    destruct (flushed_appends now
                [PriceHistory.new (Product.id row) (Product.current_price row)
                   (Product.original_price row) session_id]
                (mkDB (products t' ++ [row]) (price_history t') (scraping_sessions t')))
      as (added & Hadd & Hrows).
    exists added. split; [exact Hadd | ].
    inversion Hrows as [ | a r l l' [Hrow Hzero] Hrest]; subst.
    inversion Hrest; subst. split; [cbn; lia | ].
    constructor; [ | constructor].
    destruct Hrow as (_ & Hprice & Horig & Hsess & Htime).
    repeat split; try assumption.
    exists product_data. repeat split; [left; reflexivity | | ]; assumption.
Qed.

Lemma upsert_all_appends (session_id : option Z) (now : timestamp)
    (products_data : list ProductData.t) (t : DB) (p : list PriceHistory.args) :
  exists added,
    price_history (flushed now (snd (fst (upsert_all session_id now t p products_data)))
                           (snd (upsert_all session_id now t p products_data)))
    = (price_history (flushed now t p) ++ added)%list
    /\ (List.length added <= List.length products_data)%nat
    /\ Forall (batch_row products_data session_id now) added.
Proof.
  revert t p. induction products_data as [ | product_data rest IH]; intros t p;
    cbn [upsert_all].
  - exists []. rewrite app_nil_r. repeat split; [cbn; lia | constructor].
  - destruct (upsert_appends session_id now t p product_data)
      as (added1 & Hadd1 & Hlen1 & Hrows1).
    destruct (upsert session_id now t p product_data) as [[saved t1] p1].
    cbn [fst snd] in Hadd1.
    destruct (IH t1 p1) as (added2 & Hadd2 & Hlen2 & Hrows2).
    destruct (upsert_all session_id now t1 p1 rest) as [[others t2] p2].
    cbn [fst snd] in *.
    exists (added1 ++ added2)%list. split; [ | split].
    + rewrite Hadd2, Hadd1, app_assoc. reflexivity.
    + rewrite length_app. cbn [List.length]. lia.
    + apply Forall_app. split.
      * eapply Forall_impl; [ | exact Hrows1]. intros row.
        apply batch_row_incl. intros d [<- | []]. left. reflexivity.
      * eapply Forall_impl; [ | exact Hrows2]. intros row.
        apply batch_row_incl. intros d Hd. right. assumption.
Qed.

(** X8. The price history only grows under [save_products], whatever the
    storage does: the records it held are kept, in place; at most one record
    per listing of the batch is appended; and each appended record is taken
    now, under the session of the batch, with no discount, at the price and
    original price of a listing of the batch. The sessions are left as they
    are. *)
Theorem save_products_appends (products_data : list ProductData.t)
    (session_id : option Z) (now : timestamp) (st : Storage) :
  exists added,
    price_history (db (snd (save_products products_data session_id now st)))
    = (price_history (db st) ++ added)%list
    /\ (List.length added <= List.length products_data)%nat
    /\ Forall (batch_row products_data session_id now) added
    /\ scraping_sessions (db (snd (save_products products_data session_id now st)))
       = scraping_sessions (db st).
Proof.
  destruct (save_products_outcome products_data session_id now st)
    as [(rest & ->) | (rest & ->)]; cbn [snd db].
  - destruct (upsert_all_appends session_id now products_data (db st) [])
      as (added & Hadd & Hlen & Hrows).
    exists added. unfold committed.
    pose proof (upsert_all_sessions session_id now products_data (db st) []) as Hsess.
    destruct (upsert_all session_id now (db st) [] products_data) as [[saved t] p].
    cbn [fst snd] in *. repeat split; try assumption.
    rewrite (proj2 (flushed_products now p t)). assumption.
  - exists []. rewrite app_nil_r. repeat split; [cbn; lia | constructor].
Qed.

End Appends.

(** ** Stored listings under a batch, and reading one back *)

Section Listings.
Import DatabaseManager Identity Integrity Queries.

Lemma same_listing_refl (p : Product.t) : same_listing p p.
Proof. repeat split. Qed.

Lemma same_listing_trans (p q r : Product.t) :
  same_listing p q -> same_listing q r -> same_listing p r.
Proof.
  intros (A1 & A2 & A3 & A4 & A5 & A6) (B1 & B2 & B3 & B4 & B5 & B6).
  repeat split; congruence.
Qed.

Lemma Forall2_same_refl (l : list Product.t) : Forall2 same_listing l l.
Proof. induction l; constructor; [apply same_listing_refl | assumption]. Qed.

Lemma Forall2_same_trans (l m n : list Product.t) :
  Forall2 same_listing l m -> Forall2 same_listing m n -> Forall2 same_listing l n.
Proof.
  intros H. revert n. induction H as [ | x y l m Hxy Hlm IH]; intros n Hn.
  - inversion Hn. constructor.
  - inversion Hn as [ | ? z ? n' Hyz Hmn]; subst.
    constructor; [eapply same_listing_trans; eassumption | apply IH; assumption].
Qed.

Lemma grows_refl (l : list Product.t) : grows l l.
Proof. exists l, []. rewrite app_nil_r. split; [reflexivity | apply Forall2_same_refl]. Qed.

Lemma grows_trans (l m n : list Product.t) : grows l m -> grows m n -> grows l n.
Proof.
  intros (k1 & a1 & -> & H1) (k2 & a2 & -> & H2).
  apply Forall2_app_inv_l in H2 as (k21 & k22 & H21 & H22 & ->).
  exists k21, (k22 ++ a2)%list. split; [rewrite app_assoc; reflexivity | ].
  eapply Forall2_same_trans; eassumption.
Qed.

Lemma key_identifies (l : list Product.t) (p q : Product.t) :
  NoDup (map Product.id l) -> In p l -> In q l -> Product.id p = Product.id q -> p = q.
Proof.
  induction l as [ | a l IH]; intros Hnd Hp Hq Hid; [destruct Hp | ].
  cbn [map] in Hnd. inversion Hnd as [ | ? ? Hnot Hrest]; subst.
  destruct Hp as [<- | Hp], Hq as [<- | Hq].
  - reflexivity.
  - exfalso. apply Hnot. rewrite Hid. apply in_map. assumption.
  - exfalso. apply Hnot. rewrite <- Hid. apply in_map. assumption.
  - apply IH; assumption.
Qed.

Lemma map_same_listing (g : Product.t -> Product.t) (l : list Product.t) :
  (forall q, In q l -> same_listing q (g q)) -> Forall2 same_listing l (map g l).
Proof.
  induction l as [ | a l IH]; intros Hall; cbn [map]; constructor.
  - apply Hall. left. reflexivity.
  - apply IH. intros q Hq. apply Hall. right. assumption.
Qed.

Lemma replace_row_grows (existing : Product.t) (product_data : ProductData.t)
    (now : timestamp) (t : DB) :
  NoDup (map Product.id (products t)) -> In existing (products t) ->
  grows (products t)
        (products (replace_row (update_fields existing product_data now) t)).
Proof.
  intros Hnd Hin. unfold replace_row. cbn [products].
  eexists _, []. rewrite app_nil_r. split; [reflexivity | ].
  apply map_same_listing. intros q Hq.
  destruct (Product.id q =? _)%Z eqn:E; [ | apply same_listing_refl].
  apply Z.eqb_eq in E. cbn [update_fields Product.id] in E.
  rewrite (key_identifies _ _ _ Hnd Hq Hin E). repeat split.
Qed.

Lemma upsert_grows (session_id : option Z) (now : timestamp) (t : DB)
    (p : list PriceHistory.args) (product_data : ProductData.t) :
  well_formed t ->
  grows (products t) (products (snd (fst (upsert session_id now t p product_data)))).
Proof.
  intros (Hnd & _ & _). unfold upsert.
  destruct (resolve t product_data) as [existing | ] eqn:Hres; cbn [fst snd].
  - apply replace_row_grows; [assumption | exact (resolve_in _ _ _ Hres)].
  - cbn [products]. rewrite (proj1 (flushed_products now p t)).
    eexists _, [_]. split; [reflexivity | apply Forall2_same_refl].
Qed.

Lemma upsert_all_grows (session_id : option Z) (now : timestamp)
    (products_data : list ProductData.t) (t : DB) (p : list PriceHistory.args) :
  well_formed t -> owned t p ->
  grows (products t) (products (snd (fst (upsert_all session_id now t p products_data)))).
Proof.
  revert t p. induction products_data as [ | product_data rest IH]; intros t p Hwf Hown;
    cbn [upsert_all]; [apply grows_refl | ].
  pose proof (upsert_well_formed session_id now t p product_data Hwf Hown) as Hone.
  pose proof (upsert_grows session_id now t p product_data Hwf) as Hgrow.
  destruct (upsert session_id now t p product_data) as [[saved t1] p1].
  cbn [fst snd] in Hone, Hgrow. destruct Hone as [Hwf1 Hown1].
  specialize (IH t1 p1 Hwf1 Hown1).
  destruct (upsert_all session_id now t1 p1 rest) as [[others t2] p2].
  cbn [fst snd] in *. eapply grows_trans; eassumption.
Qed.

Lemma committed_grows (session_id : option Z) (now : timestamp) (store : DB)
    (products_data : list ProductData.t) :
  well_formed store ->
  grows (products store) (products (committed session_id now store products_data)).
Proof.
  intros Hwf. unfold committed.
  pose proof (upsert_all_grows session_id now products_data store [] Hwf
                (Forall_nil _)) as Hall.
  destruct (upsert_all session_id now store [] products_data) as [[saved t] p].
  cbn [fst snd] in Hall. rewrite (proj1 (flushed_products now p t)). assumption.
Qed.

(** X9. [save_products] never removes, reorders or re-identifies a stored
    listing: on consistent tables, whatever the storage does, the products
    stored before are still there, in place and followed by the new ones, each
    with its key, url, site, external identifier, currency and date of first
    sight. *)
Theorem save_products_keeps_listings (products_data : list ProductData.t)
    (session_id : option Z) (now : timestamp) (st : Storage) :
  consistent (db st) = true ->
  grows (products (db st))
        (products (db (snd (save_products products_data session_id now st)))).
Proof.
  intros Hok. apply consistent_spec in Hok.
  destruct (save_products_outcome products_data session_id now st)
    as [(rest & ->) | (rest & ->)]; cbn [snd db].
  - apply committed_grows. assumption.
  - apply grows_refl.
Qed.

Lemma find_by_key (l : list Product.t) (p : Product.t) :
  NoDup (map Product.id l) -> In p l ->
  find (fun q => (Product.id q =? Product.id p)%Z) l = Some p.
Proof.
  intros Hnd Hin.
  destruct (find (fun q => (Product.id q =? Product.id p)%Z) l) as [q | ] eqn:Hfind.
  - apply find_some in Hfind as [Hq Heq]. apply Z.eqb_eq in Heq.
    rewrite (key_identifies _ _ _ Hnd Hq Hin Heq). reflexivity.
  - pose proof (find_none _ _ Hfind p Hin) as Hno. cbn beta in Hno.
    rewrite Z.eqb_refl in Hno. discriminate.
Qed.

(** The row saved for a record is in the transaction the record leaves. *)
Lemma upsert_stored (session_id : option Z) (now : timestamp) (t : DB)
    (p : list PriceHistory.args) (product_data : ProductData.t) :
  In (fst (fst (upsert session_id now t p product_data)))
     (products (snd (fst (upsert session_id now t p product_data)))).
Proof.
  unfold upsert.
  destruct (resolve t product_data) as [existing | ] eqn:Hres; cbn [fst snd].
  - apply (replace_row_in existing); [exact (resolve_in _ _ _ Hres) | reflexivity].
  - cbn [products]. apply in_or_app. right. left. reflexivity.
Qed.

Lemma upsert_all_app (session_id : option Z) (now : timestamp)
    (products_data : list ProductData.t) (record : ProductData.t) :
  forall (t : DB) (p : list PriceHistory.args),
    upsert_all session_id now t p (products_data ++ [record])
    = let '(saved, t1, p1) := upsert_all session_id now t p products_data in
      let '(last, t2, p2) := upsert session_id now t1 p1 record in
      ((saved ++ [last])%list, t2, p2).
Proof.
  induction products_data as [ | product_data rest IH]; intros t p;
    cbn [app upsert_all].
  - destruct (upsert session_id now t p record) as [[last t2] p2]. reflexivity.
  - destruct (upsert session_id now t p product_data) as [[first t0] p0].
    rewrite IH.
    destruct (upsert_all session_id now t0 p0 rest) as [[saved t1] p1].
    destruct (upsert session_id now t1 p1 record) as [[last t2] p2]. reflexivity.
Qed.

(** A record that carries a key resolves, once saved, to the row it was
    saved as. *)
Lemma upsert_found_again (session_id : option Z) (now : timestamp) (t : DB)
    (p : list PriceHistory.args) (record : ProductData.t) :
  identifiable record = true ->
  resolve (snd (fst (upsert session_id now t p record))) record
  = Some (fst (fst (upsert session_id now t p record))).
Proof.
  intros Hid.
  pose proof (resolved_by_url t p record record session_id now eq_refl) as Hurl.
  pose proof (resolved_by_key t p record record session_id now eq_refl eq_refl) as Hkey.
  destruct (upsert session_id now t p record) as [[saved t1] p1]. cbn [fst snd].
  unfold identifiable in Hid.
  destruct (truthy (ProductData.url record)) eqn:Htruthy.
  - destruct (by_url t record) as [found | ] eqn:Hby.
    + apply Hurl; [reflexivity | left; discriminate].
    + destruct (resolve t record) as [existing | ] eqn:Hres.
      * unfold resolve in Hres. rewrite Hby in Hres. unfold by_key in Hres.
        destruct (external_id_of record) as [[ | c e] | ] eqn:He; try discriminate.
        destruct (ProductData.site record) as [[ | d site] | ] eqn:Hs;
          try discriminate.
        apply Hkey; reflexivity.
      * apply Hurl; [reflexivity | right; reflexivity].
  - cbn [orb] in Hid. apply andb_true_iff in Hid as [He Hs].
    assert (Hby : by_url t record = None).
    { unfold by_url. unfold truthy in Htruthy.
      destruct (ProductData.url record) as [[ | c u] | ]; try reflexivity.
      discriminate. }
    apply Hkey; assumption.
Qed.

Lemma upsert_carries (session_id : option Z) (now : timestamp) (t : DB)
    (p : list PriceHistory.args) (record : ProductData.t) :
  Product.current_price (fst (fst (upsert session_id now t p record)))
  = get (ProductData.price record) 0%float
  /\ Product.original_price (fst (fst (upsert session_id now t p record)))
     = ProductData.original_price record
  /\ Product.last_updated (fst (fst (upsert session_id now t p record))) = now.
Proof.
  unfold upsert. destruct (resolve t record); cbn; repeat split.
Qed.

(** X10. What [save_products] stored for a record can be found again in the
    tables: after a batch that went through, on consistent tables, looking up
    the last record of the batch as [_find_existing_product] does, by its url
    and then by its site and external identifier, finds a stored product that
    carries the price and the original price of the record and was updated
    now, and [get_product_by_id] under the key of that product returns the
    same row, when the storage does not fail during the lookup. *)
Theorem saved_record_found_again (earlier : list ProductData.t)
    (record : ProductData.t) (session_id : option Z) (now : timestamp)
    (st st' : Storage) (saved : list Product.t) :
  consistent (db st) = true ->
  identifiable record = true ->
  save_products (earlier ++ [record]) session_id now st = (Returns saved, st') ->
  exists stored,
    fst (_find_existing_product record (open_session (mkStorage (db st') [])))
    = Returns (Some stored)
    /\ get_product_by_id (Product.id stored) (db st') = Some stored
    /\ Product.current_price stored = get (ProductData.price record) 0%float
    /\ Product.original_price stored = ProductData.original_price record
    /\ Product.last_updated stored = now.
Proof.
  intros Hok Hid Hrun. apply consistent_spec in Hok.
  destruct (save_products_outcome (earlier ++ [record]) session_id now st)
    as [(rest & Hout) | (rest & Hout)]; rewrite Hout in Hrun; [ | discriminate].
  injection Hrun as _ <-. cbn [db].
  pose proof (committed_well_formed session_id now (db st) (earlier ++ [record]) Hok)
    as (Hnd & _ & _).
  unfold committed in Hnd |- *. rewrite upsert_all_app in Hnd |- *.
  pose proof (upsert_all_well_formed session_id now earlier (db st) [] Hok
                (Forall_nil _)) as [Hwf1 Hown1].
  destruct (upsert_all session_id now (db st) [] earlier) as [[others t1] p1].
  cbn [fst snd] in Hwf1, Hown1.
  pose proof (upsert_found_again session_id now t1 p1 record Hid) as Hfound.
  pose proof (upsert_stored session_id now t1 p1 record) as Hin.
  pose proof (upsert_carries session_id now t1 p1 record) as Hcarries.
  destruct (upsert session_id now t1 p1 record) as [[last t2] p2].
  cbn [fst snd] in Hfound, Hin, Hcarries.
  rewrite (proj1 (flushed_products now p2 t2)) in Hnd.
  exists last. split; [ | split; [ | exact Hcarries]].
  - unfold open_session. cbn [db plan]. rewrite find_existing_quiet. cbn [fst].
    rewrite (resolve_products _ t2) by exact (proj1 (flushed_products now p2 t2)).
    rewrite Hfound. reflexivity.
  - unfold get_product_by_id. rewrite (proj1 (flushed_products now p2 t2)).
    apply find_by_key; assumption.
Qed.

End Listings.

Section BatchWitnesses.
Import DatabaseManager Identity Integrity Queries.

Lemma save_products_consistent_witness :
  let stored :=
    Product.mk 1%Z "Notebook" "https://loja.example/p/1" "amazon" (Some "B01")
      1999.9%float None "BRL" "" 4.5%float 10%Z true false 0%Z 0%Z in
  let store :=
    mkDB [stored] [PriceHistory.mk 1%Z 1%Z 1999.9%float None 0%float 0%Z None] [] in
  let cheaper :=
    ProductData.mk (Some "Notebook") (Some "https://loja.example/p/1") (Some "amazon")
      (Some "B01") None (Some 1899.9%float) None None None None None None None in
  let tablet :=
    ProductData.mk (Some "Tablet") (Some "https://loja.example/p/9") (Some "ebay")
      (Some "E9") None (Some 500%float) None None None None None None None in
  consistent store = true
  /\ consistent
       (db (snd (save_products [cheaper; tablet] (Some 7%Z) 100%Z
                   (mkStorage store [false; false]))))
     = true.
Proof.
  intros stored store cheaper tablet. split; [reflexivity | ].
  apply (save_products_consistent [cheaper; tablet] (Some 7%Z) 100%Z
           (mkStorage store [false; false])).
  reflexivity.
Defined.

Lemma save_products_keeps_listings_witness :
  let stored :=
    Product.mk 1%Z "Notebook" "https://loja.example/p/1" "amazon" (Some "B01")
      1999.9%float None "BRL" "" 4.5%float 10%Z true false 0%Z 0%Z in
  let store :=
    mkDB [stored] [PriceHistory.mk 1%Z 1%Z 1999.9%float None 0%float 0%Z None] [] in
  let renamed :=
    ProductData.mk (Some "Notebook 15") (Some "https://loja.example/p/1") (Some "ebay")
      (Some "E1") None (Some 1899.9%float) None None None None None None None in
  grows (products store)
        (products (db (snd (save_products [renamed] (Some 7%Z) 100%Z
                              (mkStorage store []))))).
Proof.
  intros stored store renamed.
  apply (save_products_keeps_listings [renamed] (Some 7%Z) 100%Z (mkStorage store [])).
  reflexivity.
Defined.

Lemma saved_record_found_again_witness :
  let tablet :=
    ProductData.mk (Some "Tablet") (Some "https://loja.example/p/9") (Some "ebay")
      (Some "E9") None (Some 500%float) None None None None None None None in
  let after := snd (save_products [tablet] None 100%Z (mkStorage empty_db [])) in
  exists stored,
    fst (_find_existing_product tablet (open_session (mkStorage (db after) [])))
    = Returns (Some stored)
    /\ get_product_by_id (Product.id stored) (db after) = Some stored
    /\ Product.current_price stored = 500%float
    /\ Product.original_price stored = None
    /\ Product.last_updated stored = 100%Z.
Proof.
  intros tablet after.
  exact (saved_record_found_again [] tablet None 100%Z (mkStorage empty_db []) after
           (fst (fst (upsert_all None 100%Z empty_db [] [tablet])))
           eq_refl eq_refl eq_refl).
Defined.

End BatchWitnesses.

(** ** Queries *)

Section Ordering.
Import Queries.

Variable A : Type.
Variable key : A -> Z.

Lemma insert_by_perm (row : A) (sorted : list A) :
  Permutation (row :: sorted) (insert_by key row sorted).
Proof.
  induction sorted as [ | first rest IH]; cbn [insert_by]; [reflexivity | ].
  destruct (key row <=? key first)%Z; [reflexivity | ].
  rewrite perm_swap. apply perm_skip. exact IH.
Qed.

Lemma order_by_perm (rows : list A) : Permutation rows (order_by key rows).
Proof.
  induction rows as [ | row rows IH]; cbn [order_by fold_right]; [reflexivity | ].
  rewrite <- insert_by_perm. apply perm_skip. exact IH.
Qed.

Lemma insert_by_sorted (row : A) (sorted : list A) :
  StronglySorted (fun a b => (key a <= key b)%Z) sorted ->
  StronglySorted (fun a b => (key a <= key b)%Z) (insert_by key row sorted).
Proof.
  induction sorted as [ | first rest IH]; intros Hs; cbn [insert_by].
  - repeat constructor.
  - inversion Hs as [ | ? ? Hrest Hall]; subst.
    destruct (key row <=? key first)%Z eqn:E.
    + apply Z.leb_le in E. constructor; [assumption | ].
      constructor; [assumption | ].
      eapply Forall_impl; [ | exact Hall]. cbn beta. intros; lia.
    + apply Z.leb_gt in E. constructor; [apply IH; assumption | ].
      eapply Permutation_Forall; [apply insert_by_perm | ].
      constructor; [lia | assumption].
Qed.

Lemma order_by_sorted (rows : list A) :
  StronglySorted (fun a b => (key a <= key b)%Z) (order_by key rows).
Proof.
  induction rows as [ | row rows IH]; cbn [order_by fold_right]; [constructor | ].
  apply insert_by_sorted. exact IH.
Qed.


Lemma sorted_app (R : A -> A -> Prop) (l m : list A) :
  StronglySorted R (l ++ m) ->
  StronglySorted R l /\ forall x y, In x l -> In y m -> R x y.
Proof.
  induction l as [ | a l IH]; cbn [app]; intros Hs.
  - split; [constructor | intros x y []].
  - inversion Hs as [ | ? ? Hrest Hall]; subst.
    destruct (IH Hrest) as [Hl Hcross].
    apply Forall_app in Hall as [Hal Ham]. split.
    + constructor; assumption.
    + intros x y [<- | Hx] Hy; [ | apply Hcross; assumption].
      rewrite Forall_forall in Ham. apply Ham. assumption.
Qed.

End Ordering.

Section QueryFacts.
Import DatabaseManager Identity Queries.

Lemma order_by_desc_sorted {A : Type} (key : A -> Z) (rows : list A) :
  StronglySorted (fun a b => (key b <= key a)%Z) (order_by_desc key rows).
Proof.
  unfold order_by_desc.
  pose proof (order_by_sorted A (fun row => (- key row)%Z) rows) as H.
  induction H as [ | a l Hl IH Hall]; constructor; [assumption | ].
  eapply Forall_impl; [ | exact Hall]. cbn beta. intros; lia.
Qed.


(** X12. [get_recent_sessions] returns as many sessions as asked for, or all
    of them when there are fewer, each a stored session counted once, the
    latest started first; no session left out started later than one that is
    returned. *)
Theorem recent_sessions_latest (limit : nat) (store : DB) :
  List.length (get_recent_sessions limit store)
  = Nat.min limit (List.length (scraping_sessions store))
  /\ StronglySorted
       (fun a b => (ScrapingSession.started_at b <= ScrapingSession.started_at a)%Z)
       (get_recent_sessions limit store)
  /\ exists others,
       Permutation (scraping_sessions store) (get_recent_sessions limit store ++ others)
       /\ forall returned other,
            In returned (get_recent_sessions limit store) -> In other others ->
            (ScrapingSession.started_at other <= ScrapingSession.started_at returned)%Z.
Proof.
  unfold get_recent_sessions.
  set (sorted := order_by_desc ScrapingSession.started_at (scraping_sessions store)).
  assert (Hperm : Permutation (scraping_sessions store) sorted)
    by apply order_by_perm.
  pose proof (order_by_desc_sorted ScrapingSession.started_at (scraping_sessions store))
    as Hsorted.
  fold sorted in Hsorted. rewrite <- (firstn_skipn limit sorted) in Hsorted.
  apply sorted_app in Hsorted as [Hfirst Hcross].
  split; [ | split].
  - rewrite length_firstn, (Permutation_length Hperm). reflexivity.
  - exact Hfirst.
  - exists (skipn limit sorted). split.
    + rewrite firstn_skipn. exact Hperm.
    + intros returned other Hr Ho. apply (Hcross returned other Hr Ho).
Qed.

Lemma regular_query_previous (change : PriceHistory.t) :
  regular (query_previous change).
Proof.
  unfold query_previous.
  apply regular_bind; [apply regular_statement | intros _].
  apply regular_bind; [apply regular_read_txn | intros store].
  apply regular_ret.
Qed.

Lemma regular_query_change (change : PriceHistory.t) : regular (query_change change).
Proof.
  unfold query_change.
  apply regular_bind; [apply regular_query_previous | ].
  intros [previous | ]; [ | apply regular_ret].
  destruct (price_changed _ _); [ | apply regular_ret].
  apply regular_bind; [apply regular_query | ].
  intros [product | ]; apply regular_ret.
Qed.

Lemma regular_query_changes (rows : list PriceHistory.t) : regular (query_changes rows).
Proof.
  induction rows as [ | change rest IH]; cbn [query_changes]; [apply regular_ret | ].
  apply regular_bind; [apply regular_query_change | intros found].
  apply regular_bind; [exact IH | intros others].
  apply regular_ret.
Qed.

Lemma query_change_quiet (change : PriceHistory.t) (b t : DB)
    (p : list PriceHistory.args) :
  query_change change (mkSession b t p [])
  = (Returns (change_of t change), mkSession b t p []).
Proof.
  unfold query_change, change_of, query_previous, query_product_first.
  unfold bind, statement, read_txn, ret. cbn [faults txn].
  destruct (previous_record t change) as [previous | ]; [ | reflexivity].
  destruct (price_changed _ _); [ | reflexivity].
  cbn [faults txn]. destruct (find _ (products t)); reflexivity.
Qed.

Lemma query_changes_quiet (rows : list PriceHistory.t) (b t : DB)
    (p : list PriceHistory.args) :
  query_changes rows (mkSession b t p [])
  = (Returns (flat_map (change_of t) rows), mkSession b t p []).
Proof.
  induction rows as [ | change rest IH]; cbn [query_changes flat_map]; [reflexivity | ].
  unfold bind at 1. rewrite query_change_quiet.
  unfold bind at 1. rewrite IH. reflexivity.
Qed.

Lemma get_changes_quiet (hours : Z) (now : timestamp) (store : DB) :
  get_price_changes_on hours now (mkStorage store [])
  = (Returns (get_price_changes hours now store), mkStorage store []).
Proof.
  unfold get_price_changes_on, with_session, open_session. cbn [db plan].
  unfold bind at 1. cbn [statement faults].
  unfold bind at 1. cbn [read_txn txn]. rewrite query_changes_quiet. reflexivity.
Qed.

Lemma get_changes_cases (hours : Z) (now : timestamp) (st : Storage) :
  db (snd (get_price_changes_on hours now st)) = db st
  /\ (fst (get_price_changes_on hours now st)
      = Returns (get_price_changes hours now (db st))
      \/ fst (get_price_changes_on hours now st) = Raises SQLAlchemyError).
Proof.
  unfold get_price_changes_on, with_session.
  set (body := statement ;;; store <- read_txn ;;
               query_changes
                 (filter (fun h => (now - seconds_of_hours hours
                                    <=? PriceHistory.recorded_at h)%Z)
                         (price_history store))).
  assert (Hreg : regular body).
  { apply regular_bind; [apply regular_statement | intros _].
    apply regular_bind; [apply regular_read_txn | intros store].
    apply regular_query_changes. }
  assert (Hquiet : forall b t p,
            body (mkSession b t p [])
            = (Returns (get_price_changes hours now t), mkSession b t p [])).
  { intros b t p. unfold body. unfold bind at 1. cbn [statement faults].
    unfold bind at 1. cbn [read_txn txn]. apply query_changes_quiet. }
  specialize (Hreg (open_session st)).
  destruct (body (open_session st)) as [[a | e] s'];
    cbn [fst snd close_session db]; split; try tauto.
  - left. destruct Hreg as [_ Hrun].
    unfold quiet, open_session in Hrun. cbn [base txn pending] in Hrun.
    rewrite Hquiet in Hrun. congruence.
  - right. destruct Hreg as [-> _]. reflexivity.
Qed.

(** X13. [get_price_changes] only reads: run on a storage that may fail at
    any statement, it returns exactly the changes computed from the committed
    tables or raises the storage error, and in both cases leaves the tables as
    they were; when no statement fails it returns. *)
Theorem price_changes_read_only (hours : Z) (now : timestamp) (st : Storage) :
  db (snd (get_price_changes_on hours now st)) = db st
  /\ (fst (get_price_changes_on hours now st)
      = Returns (get_price_changes hours now (db st))
      \/ fst (get_price_changes_on hours now st) = Raises SQLAlchemyError)
  /\ fst (get_price_changes_on hours now (mkStorage (db st) []))
     = Returns (get_price_changes hours now (db st)).
Proof.
  split; [exact (proj1 (get_changes_cases hours now st)) | ].
  split; [exact (proj2 (get_changes_cases hours now st)) | ].
  rewrite get_changes_quiet. reflexivity.
Qed.

End QueryFacts.

(** ** Scraping sessions *)

Section SessionFacts.
Import DatabaseManager Identity Integrity.

(** X14. [create_scraping_session] stores the session under a key no stored
    session has, after the sessions already there, and returns it; or it
    raises the storage error. When it raises, the session is stored all the
    same if the failure came after the commit, at the refresh: an exception
    does not mean that nothing was written. *)
Theorem create_session_outcomes (session_data : SessionData) (now : timestamp)
    (st : Storage) :
  let session :=
    new_session session_data now
      (next_id (map ScrapingSession.id (scraping_sessions (db st)))) in
  let stored :=
    mkDB (products (db st)) (price_history (db st))
         (scraping_sessions (db st) ++ [session]) in
  let run := create_scraping_session session_data now st in
  ((fst run = Returns session /\ db (snd run) = stored)
   \/ (fst run = Raises SQLAlchemyError
       /\ (db (snd run) = db st \/ db (snd run) = stored)))
  /\ Forall (fun old => (ScrapingSession.id old < ScrapingSession.id session)%Z)
            (scraping_sessions (db st))
  /\ create_scraping_session session_data now (mkStorage (db st) [false; false; true])
     = (Raises SQLAlchemyError, mkStorage stored []).
Proof.
  intros session stored run. split; [ | split].
  - subst run session stored. destruct st as [d fs].
    destruct fs as [ | [ | ] [ | [ | ] [ | [ | ] rest]]]; cbn; auto.
  - apply Forall_forall. intros old Hold. subst session.
    cbn [new_session ScrapingSession.id].
    apply next_id_fresh, in_map. assumption.
  - reflexivity.
Qed.

Lemma replace_session_keys (session : ScrapingSession.t) (store : DB) :
  map ScrapingSession.id (scraping_sessions (replace_session session store))
  = map ScrapingSession.id (scraping_sessions store).
Proof.
  unfold replace_session. cbn [scraping_sessions]. rewrite map_map. apply map_ext.
  intros q. destruct (ScrapingSession.id q =? ScrapingSession.id session)%Z eqn:E;
    [ | reflexivity].
  apply Z.eqb_eq in E. congruence.
Qed.

Lemma update_session_cases (session_id : Z) (updates : SessionUpdates)
    (now : timestamp) (st : Storage) :
  let run := update_scraping_session session_id updates now st in
  match find (fun q => (ScrapingSession.id q =? session_id)%Z)
             (scraping_sessions (db st)) with
  | None =>
      db (snd run) = db st
      /\ (fst run = Returns None \/ fst run = Raises SQLAlchemyError)
  | Some session =>
      let updated := apply_updates session updates in
      (fst run = Returns (Some updated)
       /\ db (snd run) = replace_session updated (db st))
      \/ (fst run = Raises SQLAlchemyError
          /\ (db (snd run) = db st \/ db (snd run) = replace_session updated (db st)))
  end.
Proof.
  intros run. subst run. destruct st as [d fs]. cbn [db].
  unfold update_scraping_session, in_session, open_session. cbn [db plan].
  destruct (find _ (scraping_sessions d)) as [session | ] eqn:Hfind.
  - destruct fs as [ | [ | ] [ | [ | ] [ | [ | ] [ | [ | ] rest]]]];
      cbn; rewrite ?Hfind; cbn; auto.
  - destruct fs as [ | [ | ] rest]; cbn; rewrite ?Hfind; cbn; auto.
Qed.

(** X15. [update_scraping_session] sends the storage one statement, the
    lookup, when no stored session has the key, and four when one has: the
    lookup, the flush and the commit, and the refresh. On a key that no
    stored session has it returns [None], or raises the storage error if the
    lookup fails, and writes nothing. On the key of a stored session: if none
    of the four statements fails it returns that session with the given
    columns replaced and the others kept, the duration being the time from its
    start to the given completion, and stores it in place of the old one; if
    one of the first three fails it raises the storage error and the tables
    are as they were; if the refresh fails, after the commit, it raises the
    storage error and the update is stored all the same. *)
Theorem update_session_outcomes (session_id : Z) (updates : SessionUpdates)
    (now : timestamp) (st : Storage) :
  let run := update_scraping_session session_id updates now st in
  match find (fun q => (ScrapingSession.id q =? session_id)%Z)
             (scraping_sessions (db st)) with
  | None =>
      db (snd run) = db st
      /\ fst run = match first_failure (firstn 1 (plan st)) with
                   | None => Returns None
                   | Some _ => Raises SQLAlchemyError
                   end
  | Some session =>
      let updated := apply_updates session updates in
      match first_failure (firstn 4 (plan st)) with
      | None =>
          fst run = Returns (Some updated)
          /\ db (snd run) = replace_session updated (db st)
      | Some 3%nat =>
          fst run = Raises SQLAlchemyError
          /\ db (snd run) = replace_session updated (db st)
      | Some _ =>
          fst run = Raises SQLAlchemyError /\ db (snd run) = db st
      end
      /\ ScrapingSession.id updated = session_id
      /\ ScrapingSession.started_at updated = ScrapingSession.started_at session
      /\ match upd_completed_at updates with
         | Some finished =>
             ScrapingSession.completed_at updated = Some finished
             /\ ScrapingSession.duration_seconds updated
                = Some (finished - ScrapingSession.started_at session)%Z
         | None =>
             ScrapingSession.completed_at updated = ScrapingSession.completed_at session
             /\ ScrapingSession.duration_seconds updated
                = ScrapingSession.duration_seconds session
         end
  end.
Proof.
  intros run. subst run. destruct st as [d fs]. cbn [db plan].
  unfold update_scraping_session, in_session, open_session. cbn [db plan].
  destruct (find _ (scraping_sessions d)) as [session | ] eqn:Hfind.
  - cbv zeta. split; [ | split; [ | split]].
    + destruct fs as [ | [ | ] [ | [ | ] [ | [ | ] [ | [ | ] rest]]]];
        cbn; rewrite ?Hfind; cbn; auto.
    + apply find_some in Hfind as [_ Hid]. apply Z.eqb_eq in Hid. exact Hid.
    + reflexivity.
    + cbn [apply_updates ScrapingSession.completed_at
           ScrapingSession.duration_seconds].
      destruct (upd_completed_at updates); split; reflexivity.
  - destruct fs as [ | [ | ] rest]; cbn; rewrite ?Hfind; cbn; auto.
Qed.

(** X16. [update_scraping_session] touches one row at most: whatever the
    storage does, the products and the price history are left as they are,
    the sessions keep their keys and their order, and every session with
    another key than the one given is left as it is. *)
Theorem update_session_local (session_id : Z) (updates : SessionUpdates)
    (now : timestamp) (st : Storage) :
  let after := db (snd (update_scraping_session session_id updates now st)) in
  products after = products (db st)
  /\ price_history after = price_history (db st)
  /\ map ScrapingSession.id (scraping_sessions after)
     = map ScrapingSession.id (scraping_sessions (db st))
  /\ filter (fun q => negb (ScrapingSession.id q =? session_id)%Z)
            (scraping_sessions after)
     = filter (fun q => negb (ScrapingSession.id q =? session_id)%Z)
              (scraping_sessions (db st)).
Proof.
  intros after. pose proof (update_session_cases session_id updates now st) as H.
  cbv zeta in H. fold after in H.
  destruct (find _ (scraping_sessions (db st))) as [session | ] eqn:Hfind.
  - assert (Hid : ScrapingSession.id (apply_updates session updates) = session_id).
    { apply find_some in Hfind as [_ Hid]. apply Z.eqb_eq in Hid. exact Hid. }
    assert (Hcase : after = db st
                    \/ after = replace_session (apply_updates session updates) (db st))
      by tauto.
    destruct Hcase as [-> | ->]; [repeat split | ].
    split; [reflexivity | ]. split; [reflexivity | ].
    split; [apply replace_session_keys | ].
    unfold replace_session. cbn [scraping_sessions]. rewrite Hid.
    clear Hfind H. induction (scraping_sessions (db st)) as [ | q l IH]; [reflexivity | ].
    cbn [map filter].
    destruct (ScrapingSession.id q =? session_id)%Z eqn:E.
    + rewrite Hid, Z.eqb_refl. cbn [negb]. exact IH.
    + rewrite E. cbn [negb]. f_equal. exact IH.
  - destruct H as [-> _]. repeat split.
Qed.

End SessionFacts.

(** ** Removal of old data *)

Section Cleanup.
Import DatabaseManager Identity Queries Maintenance.

Lemma kept_test (cutoff_date x : Z) : negb (x <? cutoff_date)%Z = (cutoff_date <=? x)%Z.
Proof. rewrite Z.ltb_antisym, negb_involutive. reflexivity. Qed.

Lemma deleted_retained (cutoff_date : timestamp) (a : Archive) :
  mkArchive
    (mkDB (products (tables a))
          (filter (fun h => negb (PriceHistory.recorded_at h <? cutoff_date)%Z)
                  (price_history (tables a)))
          (filter (fun s => negb (ScrapingSession.started_at s <? cutoff_date)%Z)
                  (scraping_sessions (tables a))))
    (filter (fun e => negb (EmailLog.sent_at e <? cutoff_date)%Z) (email_logs a))
  = retained cutoff_date a.
Proof.
  unfold retained. f_equal; [f_equal | ]; apply filter_ext; intros x; apply kept_test.
Qed.

Lemma cleanup_cases (days : Z) (now : timestamp) (v : Vault) :
  (exists rest,
      cleanup_old_data days now v
      = (Returns tt, mkVault (retained (now - seconds_of_days days)%Z (archive v)) rest))
  \/ (exists rest,
         cleanup_old_data days now v = (Raises SQLAlchemyError, mkVault (archive v) rest)).
Proof.
  destruct v as [a fs]. unfold cleanup_old_data. cbn [archive failures].
  destruct fs as [ | [ | ] [ | [ | ] [ | [ | ] [ | [ | ] rest]]]]; cbn;
    rewrite ?deleted_retained; eauto.
Qed.


Lemma retained_twice (c1 c2 : timestamp) (a : Archive) :
  retained c2 (retained c1 a) = retained (Z.max c1 c2) a.
Proof.
  assert (Hboth : forall (A : Type) (key : A -> Z) (l : list A),
            filter (fun x => (c2 <=? key x)%Z) (filter (fun x => (c1 <=? key x)%Z) l)
            = filter (fun x => (Z.max c1 c2 <=? key x)%Z) l).
  { intros A key l. induction l as [ | x l IH]; [reflexivity | ]. cbn [filter].
    destruct (c1 <=? key x)%Z eqn:E1; cbn [filter];
      [destruct (c2 <=? key x)%Z eqn:E2 | ];
      destruct (Z.max c1 c2 <=? key x)%Z eqn:E3; rewrite IH; try reflexivity;
      rewrite ?Z.leb_le, ?Z.leb_gt in *; lia. }
  unfold retained. cbn [tables products price_history scraping_sessions email_logs].
  rewrite !Hboth. reflexivity.
Qed.

(** X18. Two cleanups in a row remove what the stricter of the two removes:
    when the storage does not fail, cleaning with one cutoff and then with
    another leaves the tables that a single cleanup with the later cutoff
    leaves. In particular a second cleanup at the same time with the same
    number of days changes nothing. *)
Theorem cleanup_twice (days1 days2 : Z) (now1 now2 : timestamp) (a : Archive) :
  cleanup_old_data days2 now2 (snd (cleanup_old_data days1 now1 (mkVault a [])))
  = (Returns tt,
     mkVault (retained (Z.max (now1 - days1 * 86400) (now2 - days2 * 86400))%Z a) [])
  /\ cleanup_old_data days1 now1 (snd (cleanup_old_data days1 now1 (mkVault a [])))
     = cleanup_old_data days1 now1 (mkVault a []).
Proof.
  assert (Hrun : forall days now b,
            cleanup_old_data days now (mkVault b [])
            = (Returns tt, mkVault (retained (now - days * 86400)%Z b) [])).
  { intros days now b. unfold cleanup_old_data. cbn.
    rewrite deleted_retained. reflexivity. }
  rewrite !Hrun. cbn [snd]. rewrite !Hrun, !retained_twice, Z.max_id.
  split; reflexivity.
Qed.








End Cleanup.

(** ** The maintenance jobs *)

Section JobFacts.
Import DatabaseManager Identity Queries Maintenance MaintenanceJobs.

(** X20. The weekly cleanup job never raises and sends nothing. Either the
    cleanup went through, the tables hold what a cleanup of 90 days leaves and
    the job is logged as completed; or the storage failed, the tables are as
    they were and the job is logged as failed with the storage error. *)
Theorem weekly_cleanup_job_outcomes (now : timestamp) (o : Office) :
  let after := snd (_weekly_cleanup_job now o) in
  fst (_weekly_cleanup_job now o) = Returns tt
  /\ alerts after = alerts o
  /\ ((archive (vault after) = retained (now - 90 * 86400)%Z (archive (vault o))
       /\ notes after
          = (notes o ++ [JobStarted "weekly_cleanup";
                         JobStatus "weekly_cleanup" "COMPLETED";
                         JobFinished "weekly_cleanup"])%list)
      \/ (archive (vault after) = archive (vault o)
          /\ notes after
             = (notes o ++ [JobStarted "weekly_cleanup";
                            JobStatus "weekly_cleanup" "FAILED";
                            JobError "weekly_cleanup" SQLAlchemyError])%list)).
Proof.
  intros after. subst after.
  unfold _weekly_cleanup_job, bind, try_except, note, on_vault.
  cbn [vault alerts notes].
  destruct (cleanup_cases 90 now (vault o)) as [(rest & ->) | (rest & ->)];
    cbn [fst snd vault alerts notes archive]; rewrite <- ?app_assoc; cbn [app]; auto.
Qed.


End JobFacts.

Section JobWitnesses.
Import DatabaseManager Queries Maintenance MaintenanceJobs.


End JobWitnesses.

(** ** Retries *)

Section RetryFacts.
Import Utils.

Variable A : Type.
Variable func : nat -> outcome A.
Variable max_attempts : Z.
Variable backoff : float.





End RetryFacts.

Section RetryWitnesses.
Import Utils.



End RetryWitnesses.

(** ** Truncation *)

Section TruncateFacts.
Import Utils BaseScraper.

Variable char : Type.

(** X24. [truncate_text] keeps within the limit when the suffix fits in
    it: a text of at most [max_length] characters comes back as it is; a
    longer one comes back as its first [max_length - len(suffix)] characters
    followed by the suffix, [max_length] characters in all. *)
Theorem truncate_text_fits (text suffix : list char) (max_length : Z) :
  (Z.of_nat (List.length suffix) <= max_length)%Z ->
  (Z.of_nat (List.length (truncate_text text max_length suffix)) <= max_length)%Z
  /\ ((Z.of_nat (List.length text) <= max_length)%Z ->
      truncate_text text max_length suffix = text)
  /\ ((max_length < Z.of_nat (List.length text))%Z ->
      truncate_text text max_length suffix
      = (firstn (Z.to_nat (max_length - Z.of_nat (List.length suffix))) text
         ++ suffix)%list
      /\ Z.of_nat (List.length (truncate_text text max_length suffix)) = max_length).
Proof.
  intros Hfit. unfold truncate_text, slice_to.
  destruct (Z.of_nat (List.length text) <=? max_length)%Z eqn:Hshort.
  - rewrite orb_true_r. apply Z.leb_le in Hshort.
    split; [assumption | ]. split; [reflexivity | lia].
  - apply Z.leb_gt in Hshort.
    destruct text as [ | c text]; [cbn [List.length] in Hshort; lia | ].
    cbn [ScrapingScheduler.is_nil orb].
    assert (Hk : (0 <=? max_length - Z.of_nat (List.length suffix))%Z = true)
      by (apply Z.leb_le; lia).
    rewrite Hk.
    assert (Hlen : Z.of_nat
                     (List.length
                        (firstn (Z.to_nat (max_length - Z.of_nat (List.length suffix)))
                                (c :: text) ++ suffix))
                   = max_length).
    { rewrite length_app, length_firstn.
      set (n := List.length (c :: text)) in *. set (m := List.length suffix) in *.
      rewrite Nat.min_l by lia. lia. }
    split; [rewrite Hlen; lia | ]. split; [lia | ].
    intros _. split; [reflexivity | exact Hlen].
Qed.

(** X25. When the suffix is longer than the limit, [truncate_text] breaks
    the limit: a text longer than [max_length] comes back ending with the
    whole suffix and longer than [max_length], unless it is empty; a negative
    [max_length - len(suffix)] cuts characters off the end of the text
    instead of keeping its start. *)
Theorem truncate_text_overflows (text suffix : list char) (max_length : Z) :
  text <> [] ->
  (max_length < Z.of_nat (List.length suffix))%Z ->
  (max_length < Z.of_nat (List.length text))%Z ->
  truncate_text text max_length suffix
  = (firstn (List.length text
             - Z.to_nat (Z.of_nat (List.length suffix) - max_length)) text
     ++ suffix)%list
  /\ (max_length < Z.of_nat (List.length (truncate_text text max_length suffix)))%Z.
Proof.
  intros Hsome Hlong Htext. unfold truncate_text, slice_to.
  assert (Hshort : (Z.of_nat (List.length text) <=? max_length)%Z = false)
    by (apply Z.leb_gt; assumption).
  rewrite Hshort.
  destruct text as [ | c text]; [congruence | ].
  cbn [ScrapingScheduler.is_nil orb].
  assert (Hk : (0 <=? max_length - Z.of_nat (List.length suffix))%Z = false)
    by (apply Z.leb_gt; lia).
  rewrite Hk.
  assert (Hsame : Z.to_nat (Z.of_nat (List.length (c :: text))
                            + (max_length - Z.of_nat (List.length suffix)))
                  = (List.length (c :: text)
                     - Z.to_nat (Z.of_nat (List.length suffix) - max_length))%nat)
    by lia.
  rewrite Hsame. split; [reflexivity | ].
  rewrite length_app, length_firstn.
  set (n := List.length (c :: text)) in *. set (m := List.length suffix) in *. lia.
Qed.

End TruncateFacts.

Section TruncateWitnesses.
Import Utils.

Lemma truncate_text_fits_witness :
  truncate_text (list_ascii_of_string "Notebook Gamer") 8 (list_ascii_of_string "...")
  = list_ascii_of_string "Noteb...".
Proof.
  destruct (truncate_text_fits ascii (list_ascii_of_string "Notebook Gamer")
              (list_ascii_of_string "...") 8%Z) as (_ & _ & Hcut);
    [cbn; lia | ].
  destruct Hcut as [Hcut _]; [cbn; lia | ]. exact Hcut.
Defined.

Lemma truncate_text_overflows_witness :
  truncate_text (list_ascii_of_string "Notebook") 2 (list_ascii_of_string "...")
  = list_ascii_of_string "Noteboo...".
Proof.
  destruct (truncate_text_overflows ascii (list_ascii_of_string "Notebook")
              (list_ascii_of_string "...") 2%Z) as [Hcut _];
    [discriminate | cbn; lia | cbn; lia | ].
  exact Hcut.
Defined.

End TruncateWitnesses.

(** ** Numbers in text *)

Section NumberFacts.
Import PyStr Utils.

Lemma first_digits_skips (before rest : string) :
  has_digit before = false ->
  first_digits (before ++ rest) = first_digits rest.
Proof.
  induction before as [ | c before IH]; [reflexivity | ].
  cbn [has_digit append first_digits]. intros H.
  apply orb_false_iff in H as [Hc Hrest]. rewrite Hc. apply IH. assumption.
Qed.

Lemma take_digits_run (run rest : string) :
  all_digits run = true -> take_digits rest = EmptyString ->
  take_digits (run ++ rest) = run.
Proof.
  induction run as [ | c run IH]; intros Hall Hrest; [exact Hrest | ].
  cbn [all_digits] in Hall. apply andb_true_iff in Hall as [Hc Hall].
  cbn [append take_digits]. rewrite Hc, IH by assumption. reflexivity.
Qed.

Lemma first_digits_none (text : string) :
  has_digit text = false -> first_digits text = None.
Proof.
  induction text as [ | c text IH]; [reflexivity | ].
  cbn [has_digit first_digits]. intros H.
  apply orb_false_iff in H as [Hc Hrest]. rewrite Hc. apply IH. assumption.
Qed.

Lemma int_of_digits_bounds (digits : string) (acc : Z) :
  (0 <= acc)%Z -> (0 <= int_of_digits acc digits)%Z.
Proof.
  revert acc. induction digits as [ | c digits IH]; intros acc Hacc; [exact Hacc | ].
  cbn [int_of_digits]. apply IH. unfold digit_value. lia.
Qed.

Section NumberClaims.
Context {U : Unicode}.

(** X26. [extract_number] reads the first run of decimal digits of a text,
    in whatever script they are written, and nothing after it: whatever
    follows the run, a thousands separator and further digits included, is
    ignored, so that ["1.234"] reads as 1. A run of more than 4300 digits
    reads as 0. *)
Theorem extract_number_first_run (text before run rest : string) :
  decimal text = before ++ run ++ rest ->
  has_digit before = false ->
  all_digits run = true ->
  run <> EmptyString ->
  take_digits rest = EmptyString ->
  extract_number (Some text)
  = if (4300 <? String.length run)%nat then 0%Z else int_of_digits 0 run.
Proof.
  intros Htext Hbefore Hall Hnonempty Hrest. unfold extract_number, search_digits.
  assert (Hsearch : first_digits (decimal text) = Some run).
  { rewrite Htext, first_digits_skips by assumption.
    destruct run as [ | c run]; [congruence | ].
    pose proof (take_digits_run _ _ Hall Hrest) as Htake.
    cbn [all_digits] in Hall. apply andb_true_iff in Hall as [Hc _].
    cbn [append first_digits]. rewrite Hc. cbn [append] in Htake.
    rewrite Htake. reflexivity. }
  rewrite Hsearch. unfold int_of_str, int_max_str_digits.
  destruct text as [ | c text].
  - cbv in Hsearch. discriminate.
  - destruct (4300 <? String.length run)%nat; reflexivity.
Qed.

(** X27. [extract_number] never returns a negative number, and returns 0
    for a text without a decimal digit of any script: a sign before the
    digits is not read. *)
Theorem extract_number_unsigned (text : option string) :
  (0 <= extract_number text)%Z
  /\ (forall s,
         text = Some s -> has_digit (decimal s) = false -> extract_number text = 0%Z).
Proof.
  split.
  - unfold extract_number. destruct text as [[ | c s] | ]; try lia.
    destruct (search_digits (String c s)) as [run | ]; [ | lia].
    unfold int_of_str. destruct (_ <? _)%nat; [lia | ].
    apply int_of_digits_bounds. lia.
  - intros s -> Hnone. unfold extract_number, search_digits.
    destruct s as [ | c s]; [reflexivity | ].
    rewrite (first_digits_none _ Hnone). reflexivity.
Qed.

End NumberClaims.

End NumberFacts.

Section NumberWitnesses.
Import PyStr Utils.
Local Existing Instance unicode_14_0.

Lemma extract_number_first_run_witness :
  extract_number (Some "٤٢.٥٠٠ avaliações e 7 fotos") = 42%Z.
Proof.
  exact (extract_number_first_run (U := unicode_14_0)
           "٤٢.٥٠٠ avaliações e 7 fotos" "" "42" ".500 avaliações e 7 fotos"
           eq_refl eq_refl eq_refl
           (fun H => match H with eq_refl => I end) eq_refl).
Defined.

Lemma extract_number_unsigned_witness :
  extract_number (Some "sem avaliações") = 0%Z.
Proof.
  exact (proj2 (extract_number_unsigned (U := unicode_14_0) (Some "sem avaliações"))
           "sem avaliações" eq_refl eq_refl).
Defined.

End NumberWitnesses.

(** ** Regular expressions *)

Section RegexFacts.
Import Regex.

Lemma append_associative (s t u : string) : (s ++ t) ++ u = s ++ t ++ u.
Proof. induction s as [ | c s IH]; cbn [append]; [reflexivity | rewrite IH; reflexivity]. Qed.

Lemma append_empty (s t : string) :
  s ++ t = EmptyString -> s = EmptyString /\ t = EmptyString.
Proof. destruct s; [auto | discriminate]. Qed.

Lemma nullable_matches (r : re) : nullable r = true <-> matches r EmptyString.
Proof.
  split.
  - induction r as [ | | p | r1 IH1 r2 IH2 | r1 IH1 r2 IH2 | r IH]; cbn [nullable];
      intros H; try discriminate.
    + constructor.
    + apply andb_true_iff in H as [H1 H2].
      change EmptyString with (EmptyString ++ EmptyString). constructor; auto.
    + apply orb_true_iff in H as [H | H];
        [apply matches_one | apply matches_other]; auto.
    + constructor.
  - intros H. remember EmptyString as s eqn:Hs.
    induction H as [ | p c Hc | r1 r2 s t H1 IH1 H2 IH2 | r1 r2 s H IH | r1 r2 s H IH
                     | r | r s t H1 IH1 H2 IH2]; cbn [nullable]; try reflexivity.
    + discriminate.
    + apply append_empty in Hs as [-> ->]. rewrite IH1, IH2; reflexivity.
    + rewrite IH by assumption. reflexivity.
    + rewrite IH by assumption. apply orb_true_r.
Qed.

Lemma derive_sound (r : re) :
  forall (c : ascii) (s : string), matches (derive c r) s -> matches r (String c s).
Proof.
  induction r as [ | | p | r1 IH1 r2 IH2 | r1 IH1 r2 IH2 | r IH]; intros c s H;
    cbn [derive] in H.
  - inversion H.
  - inversion H.
  - destruct (p c) eqn:Hp; inversion H; subst. constructor. assumption.
  - destruct (nullable r1) eqn:Hnull.
    + inversion H as [ | | | ? ? ? Hone | ? ? ? Hother | | ]; subst.
      * inversion Hone as [ | | ? ? u v Hu Hv | | | | ]; subst.
        change (String c (u ++ v)) with (String c u ++ v). constructor; auto.
      * change (String c s) with (EmptyString ++ String c s).
        constructor; [apply nullable_matches; assumption | auto].
    + inversion H as [ | | ? ? u v Hu Hv | | | | ]; subst.
      change (String c (u ++ v)) with (String c u ++ v). constructor; auto.
  - inversion H; subst; [apply matches_one | apply matches_other]; auto.
  - inversion H as [ | | ? ? u v Hu Hv | | | | ]; subst.
    change (String c (u ++ v)) with (String c u ++ v). constructor; auto.
Qed.

Lemma derive_complete (r : re) (text : string) :
  matches r text ->
  forall (c : ascii) (s : string), text = String c s -> matches (derive c r) s.
Proof.
  intros H.
  induction H as [ | p d Hd | r1 r2 u v H1 IH1 H2 IH2 | r1 r2 u H IH | r1 r2 u H IH
                   | r | r u v H1 IH1 H2 IH2]; intros c s Heq; cbn [derive].
  - discriminate.
  - injection Heq as -> <-. rewrite Hd. constructor.
  - destruct u as [ | d u].
    + cbn [append] in Heq. subst v.
      assert (Hnull : nullable r1 = true) by (apply nullable_matches; assumption).
      rewrite Hnull. apply matches_other. apply IH2. reflexivity.
    + cbn [append] in Heq. injection Heq as -> <-.
      destruct (nullable r1);
        [apply matches_one | ]; constructor; auto.
  - apply matches_one. auto.
  - apply matches_other. auto.
  - discriminate.
  - destruct u as [ | d u].
    + cbn [append] in Heq. apply IH2 in Heq. cbn [derive] in Heq. exact Heq.
    + cbn [append] in Heq. injection Heq as -> <-. constructor; auto.
Qed.

(** The matcher decides the relation. *)
Lemma fullmatch_matches (s : string) :
  forall r : re, fullmatch r s = true <-> matches r s.
Proof.
  induction s as [ | c s IH]; intros r; cbn [fullmatch].
  - apply nullable_matches.
  - rewrite IH. split; [apply derive_sound | ].
    intros H. exact (derive_complete _ _ H c s eq_refl).
Qed.

Lemma star_class (p : ascii -> bool) (s : string) :
  matches (Star (Class p)) s <-> Utils.all_chars p s = true.
Proof.
  split.
  - intros H. remember (Star (Class p)) as r eqn:Hr.
    induction H as [ | | | | | r' | r' u v H1 IH1 H2 IH2]; try discriminate.
    + reflexivity.
    + injection Hr as ->. inversion H1 as [ | ? ? Hp | | | | | ]; subst.
      cbn [append Utils.all_chars].
      rewrite IH2 by reflexivity. rewrite Hp. reflexivity.
  - induction s as [ | c s IH]; cbn [Utils.all_chars]; intros H; [constructor | ].
    apply andb_true_iff in H as [Hc Hs].
    change (String c s) with (String c EmptyString ++ s).
    constructor; [constructor; assumption | auto].
Qed.

Lemma plus_class (p : ascii -> bool) (s : string) :
  matches (Plus (Class p)) s <-> s <> EmptyString /\ Utils.all_chars p s = true.
Proof.
  unfold Plus. split.
  - intros H. inversion H as [ | | ? ? u v Hu Hv | | | | ]; subst.
    inversion Hu as [ | ? ? Hp | | | | | ]; subst.
    apply star_class in Hv. cbn [append Utils.all_chars].
    split; [discriminate | ]. rewrite Hv, Hp. reflexivity.
  - intros [Hne Hall]. destruct s as [ | c s]; [congruence | ].
    cbn [Utils.all_chars] in Hall. apply andb_true_iff in Hall as [Hc Hs].
    change (String c s) with (String c EmptyString ++ s).
    constructor; [constructor; assumption | apply star_class; assumption].
Qed.

Lemma two_or_more_class (p : ascii -> bool) (s : string) :
  matches (TwoOrMore (Class p)) s
  <-> (2 <= String.length s)%nat /\ Utils.all_chars p s = true.
Proof.
  unfold TwoOrMore. split.
  - intros H. inversion H as [ | | ? ? u v Hu Hv | | | | ]; subst.
    inversion Hu as [ | ? ? Hp | | | | | ]; subst.
    apply plus_class in Hv as [Hne Hall].
    cbn [append Utils.all_chars String.length]. rewrite Hall, Hp.
    split; [ | reflexivity]. destruct v; [congruence | cbn; lia].
  - intros [Hlen Hall]. destruct s as [ | c s]; [cbn in Hlen; lia | ].
    cbn [Utils.all_chars] in Hall. apply andb_true_iff in Hall as [Hc Hs].
    change (String c s) with (String c EmptyString ++ s).
    constructor; [constructor; assumption | ].
    apply plus_class. split; [ | assumption].
    destruct s; [cbn in Hlen; lia | discriminate].
Qed.

Lemma char_matches (c : ascii) (s : string) :
  matches (Char c) s <-> s = String c EmptyString.
Proof.
  unfold Char. split.
  - intros H. inversion H as [ | ? ? Hp | | | | | ]; subst.
    apply Ascii.eqb_eq in Hp. congruence.
  - intros ->. constructor. apply Ascii.eqb_refl.
Qed.

End RegexFacts.

(** ** E-mail addresses *)

Section EmailFacts.
Import Regex Utils.

(** An address as the pattern reads it: a local part, [@], a domain, a
    period, and a top-level name. *)
Lemma pattern_matches (s : string) :
  matches pattern s
  <-> exists local domain top,
        s = local ++ "@" ++ domain ++ "." ++ top
        /\ local <> EmptyString /\ all_chars local_char local = true
        /\ domain <> EmptyString /\ all_chars domain_char domain = true
        /\ (2 <= String.length top)%nat /\ all_chars letter top = true.
Proof.
  unfold pattern. split.
  - intros H.
    inversion H as [ | | ? ? local r1 Hlocal H1 | | | | ]; subst.
    inversion H1 as [ | | ? ? at_sign r2 Hat H2 | | | | ]; subst.
    inversion H2 as [ | | ? ? domain r3 Hdomain H3 | | | | ]; subst.
    inversion H3 as [ | | ? ? dot top Hdot Htop | | | | ]; subst.
    apply char_matches in Hat, Hdot. subst at_sign dot.
    apply plus_class in Hlocal as [? ?], Hdomain as [? ?].
    apply two_or_more_class in Htop as [? ?].
    exists local, domain, top. repeat split; assumption.
  - intros (local & domain & top & -> & Hl1 & Hl2 & Hd1 & Hd2 & Ht1 & Ht2).
    constructor; [apply plus_class; split; assumption | ].
    constructor; [apply char_matches; reflexivity | ].
    constructor; [apply plus_class; split; assumption | ].
    constructor; [apply char_matches; reflexivity | ].
    apply two_or_more_class. split; assumption.
Qed.

(** X28. [validate_email] accepts exactly the texts made of a local part,
    [@], a domain, a period and a top-level name, where the local part is one
    or more letters, digits or [._%+-], the domain one or more letters,
    digits, periods or hyphens, and the top-level name two or more letters;
    and the same texts followed by one line feed. Nothing asks the domain to
    start or end with a letter, or forbids two periods in a row. *)
Theorem validate_email_exact (email : string) :
  validate_email (Some email) = true
  <-> exists local domain top,
        (email = local ++ "@" ++ domain ++ "." ++ top
         \/ email = local ++ "@" ++ domain ++ "." ++ top ++ String line_feed "")
        /\ local <> EmptyString /\ all_chars local_char local = true
        /\ domain <> EmptyString /\ all_chars domain_char domain = true
        /\ (2 <= String.length top)%nat /\ all_chars letter top = true.
Proof.
  assert (Hline : match_line pattern email = true
                  <-> exists address,
                        matches pattern address
                        /\ (email = address \/ email = address ++ String line_feed "")).
  { unfold match_line. rewrite fullmatch_matches. split.
    - intros H. inversion H as [ | | ? ? address ending Ha He | | | | ]; subst.
      exists address. split; [assumption | ].
      inversion He as [ | | | ? ? ? Hone | ? ? ? Hother | | ]; subst.
      + inversion Hone; subst. left. apply append_nil_r.
      + apply char_matches in Hother. subst. right. reflexivity.
    - intros (address & Ha & [-> | ->]).
      + rewrite <- (append_nil_r address). constructor; [assumption | ].
        apply matches_one. constructor.
      + constructor; [assumption | ]. apply matches_other, char_matches. reflexivity. }
  assert (Hsome : validate_email (Some email) = true
                  <-> match_line pattern email = true).
  { unfold validate_email. destruct email as [ | c email]; [ | reflexivity].
    split; [discriminate | ]. intros H. exfalso.
    vm_compute in H. discriminate. }
  rewrite Hsome, Hline. split.
  - intros (address & Ha & Hemail). apply pattern_matches in Ha
      as (local & domain & top & -> & Hrest).
    exists local, domain, top. split; [ | exact Hrest].
    destruct Hemail as [-> | ->]; [left; reflexivity | right].
    rewrite !append_associative. reflexivity.
  - intros (local & domain & top & Hemail & Hrest).
    exists (local ++ "@" ++ domain ++ "." ++ top). split.
    + apply pattern_matches. exists local, domain, top. split; [reflexivity | exact Hrest].
    + destruct Hemail as [-> | ->]; [left; reflexivity | right].
      rewrite !append_associative. reflexivity.
Qed.

End EmailFacts.

(** ** A listing whose price cannot be read *)

Section ListingFacts.
Import PyStr Helpers BaseScraper ListingPrice.
Context {U : Unicode}.

Lemma format_price_unreadable (text : string) :
  unreadable (Some text) -> format_price (Some text) = Returns 0%float.
Proof.
  intros [Hdeg | (i & j & Hi & Hj & Hlt)].
  - destruct (format_price_caught text) as (f & Hf & Hcatch). rewrite Hf. f_equal.
    inversion Hdeg as [ | | t Hnone | t e Hraise]; subst.
    + cbn in Hf. congruence.
    + apply (Hcatch ValueError).
      apply format_price_try_without_digit. unfold clean.
      apply has_digit_keep. assumption.
    + apply (Hcatch e). assumption.
  - exact (format_price_period_last text i j Hi Hj Hlt).
Qed.

Lemma price_loop_unreadable (targets : list (option string)) (price : float) :
  Forall unreadable targets ->
  price_loop targets price = Returns price \/ price_loop targets price = Returns 0%float.
Proof.
  intros Hall. revert price.
  induction Hall as [ | target rest Hone Hrest IH]; intros price; cbn [price_loop];
    [left; reflexivity | ].
  assert (Hzero : _extract_price target 0 = Returns 0%float).
  { unfold _extract_price. destruct target as [text | ]; [ | reflexivity].
    rewrite (format_price_unreadable text Hone). reflexivity. }
  rewrite Hzero. change (PyFloat.gt 0 0) with false. cbn iota.
  destruct (IH 0%float) as [-> | ->]; right; reflexivity.
Qed.

(** X29. A listing whose price texts cannot be read is lost: when every
    price selector finds no element, or a text without a decimal digit of any
    script, or a text whose cleaned form does not parse, such as one in the
    form ["1,234.56"], whose last period comes after its last comma, the
    price of the listing is [0.0] and the listing fails
    [_validate_product], so that it is left out of the products of its
    page. *)
Theorem unreadable_price_drops_listing (targets : list (option string))
    (price : float) (product : ProductData.t) :
  Forall unreadable targets ->
  listing_price targets = Returns price ->
  ProductData.price product = Some price ->
  price = 0%float
  /\ _validate_product product = false
  /\ _extract_products_from_page [Returns (Some product)] = [].
Proof.
  intros Hall Hprice Hproduct. unfold listing_price in Hprice.
  assert (Hzero : price = 0%float).
  { destruct (price_loop_unreadable targets 0%float Hall) as [H | H];
      rewrite H in Hprice; congruence. }
  assert (Hinvalid : _validate_product product = false).
  { unfold _validate_product. rewrite Hproduct, Hzero.
    destruct (truthy (ProductData.title product)); reflexivity. }
  split; [assumption | ]. split; [assumption | ].
  unfold _extract_products_from_page. cbn [flat_map keep_element].
  rewrite Hinvalid. reflexivity.
Qed.

End ListingFacts.

Section ListingWitness.
Import PyStr Helpers BaseScraper ListingPrice.
Local Existing Instance unicode_14_0.

Lemma unreadable_price_drops_listing_witness :
  let product :=
    ProductData.mk (Some "Notebook") (Some "https://loja.example/p/1") (Some "amazon")
      None (Some "B01") (Some 0%float) None None None None None None None in
  listing_price [None; Some "US$ 1,234.56"] = Returns 0%float
  /\ _extract_products_from_page [Returns (Some product)] = [].
Proof.
  intros product. split; [reflexivity | ].
  refine (proj2 (proj2 (unreadable_price_drops_listing (U := unicode_14_0)
                          [None; Some "US$ 1,234.56"]
                          0%float product _ eq_refl eq_refl))).
  constructor; [exact I | ]. constructor; [ | constructor].
  right. exists 1%nat, 5%nat. repeat split; lia.
Defined.

End ListingWitness.

(** ** The names of the sites *)

Section FactoryFacts.
Import PyStr ScraperFactory Utils.

Lemma lower_app (s t : string) : lower (s ++ t) = lower s ++ lower t.
Proof.
  induction s as [ | c s IH]; cbn [append lower]; [reflexivity | ].
  rewrite IH. reflexivity.
Qed.

Lemma lower_char_space (c : ascii) : is_space c = true -> lower_char c = c.
Proof.
  unfold is_space, lower_char. intros H.
  destruct ((65 <=? nat_of_ascii c)%nat && (nat_of_ascii c <=? 90)%nat) eqn:E;
    [ | reflexivity].
  apply andb_true_iff in E as [E1 E2]. apply Nat.leb_le in E1, E2.
  apply orb_true_iff in H as [H | H]; apply andb_true_iff in H as [H1 H2];
    apply Nat.leb_le in H1, H2; lia.
Qed.

Lemma lower_spaces (s : string) : all_chars is_space s = true -> lower s = s.
Proof.
  induction s as [ | c s IH]; cbn [all_chars lower]; intros H; [reflexivity | ].
  apply andb_true_iff in H as [Hc Hs]. rewrite (lower_char_space c Hc), IH by assumption.
  reflexivity.
Qed.

Lemma lstrip_spaces (s t : string) :
  all_chars is_space s = true -> lstrip (s ++ t) = lstrip t.
Proof.
  induction s as [ | c s IH]; cbn [all_chars append lstrip]; intros H; [reflexivity | ].
  apply andb_true_iff in H as [Hc Hs]. rewrite Hc. apply IH. assumption.
Qed.

Lemma rstrip_spaces (s : string) : all_chars is_space s = true -> rstrip s = EmptyString.
Proof.
  induction s as [ | c s IH]; cbn [all_chars rstrip]; intros H; [reflexivity | ].
  apply andb_true_iff in H as [Hc Hs]. rewrite IH by assumption. cbn. rewrite Hc.
  reflexivity.
Qed.

Lemma rstrip_app_spaces (s t : string) :
  all_chars is_space t = true -> rstrip (s ++ t) = rstrip s.
Proof.
  intros Ht. induction s as [ | c s IH]; cbn [append rstrip];
    [apply rstrip_spaces; assumption | ].
  rewrite IH. reflexivity.
Qed.

Lemma lstrip_app_spaces (s t : string) :
  all_chars is_space t = true ->
  exists rest, all_chars is_space rest = true /\ lstrip (s ++ t) = lstrip s ++ rest.
Proof.
  intros Ht. induction s as [ | c s IH]; cbn [append lstrip].
  - exists EmptyString. split; [reflexivity | ].
    rewrite <- (append_nil_r t), lstrip_spaces by assumption. reflexivity.
  - destruct (is_space c); [exact IH | ].
    exists t. split; [assumption | reflexivity].
Qed.

Lemma strip_padding (before s after : string) :
  all_chars is_space before = true -> all_chars is_space after = true ->
  strip (before ++ s ++ after) = strip s.
Proof.
  intros Hb Ha. unfold strip. rewrite lstrip_spaces by assumption.
  destruct (lstrip_app_spaces s after Ha) as (rest & Hrest & ->).
  apply rstrip_app_spaces. assumption.
Qed.

(** X30. [create_scraper] reads the name of a site without regard to the
    case of its letters or to white space around it: two names that differ
    only in these give the same scraper, or the same [ValueError]. *)
Theorem create_scraper_tolerant (before site after other : string) :
  all_chars is_space before = true ->
  all_chars is_space after = true ->
  lower site = lower other ->
  create_scraper (before ++ site ++ after) = create_scraper other.
Proof.
  intros Hb Ha Hcase. unfold create_scraper.
  assert (Hsame : strip (lower (before ++ site ++ after)) = strip (lower other)).
  { rewrite !lower_app, (lower_spaces before Hb), (lower_spaces after Ha), Hcase.
    apply strip_padding; assumption. }
  rewrite Hsame. reflexivity.
Qed.

Lemma create_scraper_tolerant_witness :
  create_scraper "  Mercado_Livre " = Returns MercadoLivreScraper.
Proof.
  exact (create_scraper_tolerant "  " "Mercado_Livre" " " "mercado_livre"
           eq_refl eq_refl eq_refl).
Defined.

End FactoryFacts.
